(** * Data Pipeline Configuration Generator: a shallow embedding

    The program under study is [data_pipeline_register.py], a form-based
    editor that keeps a pipeline document in a process-wide session
    (three dictionaries: [source_config], [validator_config],
    [table_config]), fills it from templates, uploaded YAML or a bulk CSV,
    and writes it out as YAML.

    Python values are embedded as a small tree type; dictionaries are
    association lists in insertion order, which is the order Python
    dictionaries iterate in and the order the serializer is asked to keep.
    Widget calls are inputs of the render functions; what a render function
    shows on screen is returned as a list of messages. *)

From Stdlib Require Import List String Ascii Bool Arith Lia DecimalString
  Permutation.
Import ListNotations.
Open Scope string_scope.
Open Scope list_scope.

(** ** Python values *)

Module Py.

#[local] Set Warnings "-register-all".

Inductive pyval : Type :=
| PNone
| PBool (b : bool)
| PStr (s : string)
| PList (l : list pyval)
| PDict (d : list (string * pyval)).

Definition dict := list (string * pyval).

(** Exceptions the modelled code can raise.  [NotModelled] marks a Python
    behaviour the embedding leaves out (the [repr] of a container inside an
    f-string). *)
Inductive exn : Type :=
| AttributeError
| TypeError
| KeyError
| FileNotFoundError
| FileExistsError
| IsADirectoryError
| YAMLError
| NotModelled.

Inductive result (A : Type) : Type :=
| Ok (a : A)
| Raise (e : exn).
Arguments Ok {A} a.
Arguments Raise {A} e.

Definition bind {A B} (m : result A) (k : A -> result B) : result B :=
  match m with
  | Ok a => k a
  | Raise e => Raise e
  end.

(** [bool(v)]: the values Python treats as false. *)
Definition truthy (v : pyval) : bool :=
  match v with
  | PNone => false
  | PBool b => b
  | PStr s => negb (s =? "")
  | PList l => match l with [] => false | _ => true end
  | PDict d => match d with [] => false | _ => true end
  end.

(** *** Dictionaries in insertion order *)

Fixpoint dict_lookup (k : string) (d : dict) : option pyval :=
  match d with
  | [] => None
  | (k', v) :: d' => if k' =? k then Some v else dict_lookup k d'
  end.

Definition dict_in (k : string) (d : dict) : bool :=
  match dict_lookup k d with Some _ => true | None => false end.

(** [d[k] = v]: an existing key keeps its place, a new key goes last. *)
Fixpoint dict_set (k : string) (v : pyval) (d : dict) : dict :=
  match d with
  | [] => [(k, v)]
  | (k', v') :: d' =>
      if k' =? k then (k, v) :: d' else (k', v') :: dict_set k v d'
  end.

(** [del d[k]] (the callers test [k in d] first). *)
Fixpoint dict_del (k : string) (d : dict) : dict :=
  match d with
  | [] => []
  | (k', v') :: d' =>
      if k' =? k then dict_del k d' else (k', v') :: dict_del k d'
  end.

(** [d.get(k, default)] *)
Definition dict_get (k : string) (default : pyval) (d : dict) : pyval :=
  match dict_lookup k d with Some v => v | None => default end.

(** [v.get(k, default)] on an arbitrary value: only dictionaries have
    the method. *)
Definition py_get (v : pyval) (k : string) (default : pyval) : result pyval :=
  match v with
  | PDict d => Ok (dict_get k default d)
  | _ => Raise AttributeError
  end.

(** [v[k]] with a string key. *)
Definition py_item (v : pyval) (k : string) : result pyval :=
  match v with
  | PDict d =>
      match dict_lookup k d with Some x => Ok x | None => Raise KeyError end
  | _ => Raise TypeError
  end.

(** Structural equality of values ([==] on lists; dictionaries here are
    compared with their order, which is finer than Python's [==]). *)
Fixpoint pyval_eqb (a b : pyval) {struct a} : bool :=
  match a, b with
  | PNone, PNone => true
  | PBool x, PBool y => Bool.eqb x y
  | PStr x, PStr y => x =? y
  | PList xs, PList ys =>
      (fix go (xs ys : list pyval) {struct xs} : bool :=
         match xs, ys with
         | [], [] => true
         | x :: xs', y :: ys' => pyval_eqb x y && go xs' ys'
         | _, _ => false
         end) xs ys
  | PDict xs, PDict ys =>
      (fix go (xs ys : dict) {struct xs} : bool :=
         match xs, ys with
         | [], [] => true
         | (k, x) :: xs', (k', y) :: ys' =>
             (k =? k') && pyval_eqb x y && go xs' ys'
         | _, _ => false
         end) xs ys
  | _, _ => false
  end.

(** [needle in hay] for strings: substring test. *)
Fixpoint is_substring (needle hay : string) : bool :=
  if String.prefix needle hay then true
  else match hay with
       | EmptyString => false
       | String _ hay' => is_substring needle hay'
       end.

(** ['k' in v] *)
Definition py_contains (k : string) (v : pyval) : result bool :=
  match v with
  | PDict d => Ok (dict_in k d)
  | PList l => Ok (existsb (pyval_eqb (PStr k)) l)
  | PStr s => Ok (is_substring k s)
  | PNone | PBool _ => Raise TypeError
  end.

(** [str(v)] as an f-string field uses it. *)
Definition py_str (v : pyval) : result string :=
  match v with
  | PNone => Ok "None"
  | PBool true => Ok "True"
  | PBool false => Ok "False"
  | PStr s => Ok s
  | PList _ | PDict _ => Raise NotModelled
  end.

(** Walking a path of keys through nested dictionaries, without defaults:
    [None] when a key is absent or a non-dictionary is met. *)
Fixpoint py_path (v : pyval) (path : list string) : option pyval :=
  match path with
  | [] => Some v
  | k :: rest =>
      match v with
      | PDict d =>
          match dict_lookup k d with
          | Some x => py_path x rest
          | None => None
          end
      | _ => None
      end
  end.

(** A field is "empty or absent" when the path does not lead to a value
    that Python treats as true. *)
Definition empty_or_absent (o : option pyval) : bool :=
  match o with
  | Some v => negb (truthy v)
  | None => true
  end.

(** Induction on values, with the hypothesis for the items of a list and
    the values of a dictionary. *)
Section PyvalInd.

Variable P : pyval -> Prop.
Hypothesis HNone : P PNone.
Hypothesis HBool : forall b, P (PBool b).
Hypothesis HStr : forall s, P (PStr s).
Hypothesis HList : forall l, Forall P l -> P (PList l).
Hypothesis HDict : forall d, Forall (fun kx => P (snd kx)) d -> P (PDict d).

Fixpoint pyval_nested_ind (v : pyval) : P v :=
  match v with
  | PNone => HNone
  | PBool b => HBool b
  | PStr s => HStr s
  | PList l =>
      HList l ((fix go (l : list pyval) : Forall P l :=
                  match l with
                  | [] => Forall_nil P
                  | x :: l' => Forall_cons x (pyval_nested_ind x) (go l')
                  end) l)
  | PDict d =>
      HDict d ((fix go (d : dict) : Forall (fun kx => P (snd kx)) d :=
                  match d with
                  | [] => Forall_nil _
                  | kx :: d' =>
                      Forall_cons kx (pyval_nested_ind (snd kx)) (go d')
                  end) d)
  end.

End PyvalInd.

End Py.
Import Py.

Declare Scope py_scope.
Notation "x <- m ;; k" := (bind m (fun x => k))
  (at level 61, m at next level, right associativity) : py_scope.
Open Scope py_scope.

(** ** Global constants *)

Definition SUPPORTED_DATA_TYPES : list string :=
  [ "string"; "int"; "bigint"; "smallint"; "decimal(18, 4)";
    "timestamp"; "date"; "boolean"; "float"; "double" ].

(** [x in SUPPORTED_DATA_TYPES] *)
Definition is_supported (t : string) : bool :=
  existsb (String.eqb t) SUPPORTED_DATA_TYPES.

(** ** Session state

    [st.session_state] holds the document sections under fixed keys; the
    module-level initialisation (lines 49-76) creates them when absent. *)

Record session : Type := mkSession {
  column_mappings : pyval;
  source_config : pyval;
  validator_config : pyval;
  table_config : pyval;
  output_dir : option string
}.

Definition set_column_mappings (v : pyval) (s : session) : session :=
  mkSession v (source_config s) (validator_config s) (table_config s)
            (output_dir s).
Definition set_source_config (v : pyval) (s : session) : session :=
  mkSession (column_mappings s) v (validator_config s) (table_config s)
            (output_dir s).
Definition set_validator_config (v : pyval) (s : session) : session :=
  mkSession (column_mappings s) (source_config s) v (table_config s)
            (output_dir s).
Definition set_table_config (v : pyval) (s : session) : session :=
  mkSession (column_mappings s) (source_config s) (validator_config s) v
            (output_dir s).
Definition set_output_dir (v : string) (s : session) : session :=
  mkSession (column_mappings s) (source_config s) (validator_config s)
            (table_config s) (Some v).

(** The session a fresh run starts with. *)
Definition initial_session : session :=
  {| column_mappings := PList [];
     source_config := PDict [];
     validator_config :=
       PDict [ ("tier1", PDict [ ("control_file_flag", PStr "y");
                                 ("data_quality_rules", PList []) ]);
               ("tier2", PDict [ ("data_quality_rules", PList []) ]) ];
     table_config :=
       PDict [ ("metadata",
                PDict [ ("tier1", PDict [ ("technical_columns", PList []);
                                          ("partition_columns", PList []) ]);
                        ("tier2", PDict [ ("technical_columns", PList []);
                                          ("partition_columns", PList []);
                                          ("primary_keys", PList []);
                                          ("historical_load_columns", PList []) ]) ]);
               ("columns", PList []) ];
     output_dir := None |}.

(** What a render function puts on the page.  [StErrorExn p e] stands for
    [st.error(f"{p}{str(e)}")] with a caught exception [e]. *)
Inductive ui_msg : Type :=
| StSuccess (m : string)
| StInfo (m : string)
| StError (m : string)
| StErrorExn (prefix : string) (e : exn)
| StWarning (m : string)
| StCode (text : string)
| StDownloadButton (data file_name : string)
| SidebarSuccess (m : string)
| SidebarInfo (m : string).

Definition is_error (m : ui_msg) : bool :=
  match m with
  | StError _ | StErrorExn _ _ => true
  | _ => false
  end.

(** ** Template library *)

(** Literal builders for the three record shapes the templates use. *)
Definition technical_column (name data_type : string) : pyval :=
  PDict [ ("name", PStr name); ("data_type", PStr data_type) ].

Definition column_mapping (tier_1 tier_2 data_type : string) : pyval :=
  PDict [ ("tier_1", PStr tier_1); ("tier_2", PStr tier_2);
          ("data_type", PStr data_type) ].

Definition quality_rule (rule : string) (column : list string) : pyval :=
  PDict [ ("rule", PStr rule); ("column", PList (map PStr column)) ].

Definition dquote : string := String (ascii_of_nat 34) EmptyString.

Definition template_source_config (table : string) : pyval :=
  PDict [ ("source_system", PStr "pos");
          ("catalog", PStr "${catalog}");
          ("delay_day", PStr "1");
          ("active_flag", PStr "y");
          ("landing_bucket", PStr "${tier0_bucket}");
          ("persisted_bucket", PStr "${tier1_bucket}");
          ("data_timezone", PStr "UTC");
          ("control_file_landing_location",
           PStr ("/ctl/pos/" ++ table ++ "/${data_date}/"));
          ("data_file_landing_location",
           PStr ("/data/pos/" ++ table ++ "/${data_date}/"));
          ("control_file_regex", PStr (table ++ "*.ctl"));
          ("data_file_regex", PStr (table ++ "*.csv"));
          ("control_file_format",
           PDict [ ("header", PBool false); ("delimiter", PStr "|") ]);
          ("data_file_format",
           PDict [ ("header", PBool true); ("delimiter", PStr "|");
                   ("quote", PStr dquote); ("escape", PStr dquote);
                   ("charset", PStr "utf-8") ]) ].

Definition standard_technical_columns : pyval :=
  PList [ technical_column "source" "string";
          technical_column "dp_load_ts" "timestamp";
          technical_column "dp_data_dt" "date" ].

Definition sales_validator_config : pyval :=
  PDict [ ("tier1",
           PDict [ ("control_file_flag", PStr "y");
                   ("data_quality_rules",
                    PList [ quality_rule "check_duplicate"
                              ["branch_no"; "shopping_card"; "order_no"];
                            quality_rule "check_null"
                              ["branch_no"; "shopping_card"; "order_no"] ]) ]);
          ("tier2",
           PDict [ ("data_quality_rules",
                    PList [ quality_rule "check_duplicate"
                              ["branch_code"; "shopping_card_id"; "order_id"];
                            quality_rule "check_null"
                              ["branch_code"; "shopping_card_id"; "order_id"] ]) ]) ].

Definition sales_columns : list pyval :=
  [ column_mapping "branch_no" "branch_code" "string";
    column_mapping "shopping_card" "shopping_card_id" "string";
    column_mapping "order_no" "order_id" "string";
    column_mapping "order_date" "order_timestamp" "timestamp";
    column_mapping "tour_code" "tour_code" "string";
    column_mapping "cust_type_code" "customer_type_code" "string";
    column_mapping "airline_code" "airline_code" "string";
    column_mapping "flight_code" "flight_code" "string";
    column_mapping "flight_date" "flight_date" "date";
    column_mapping "flight_time" "flight_time" "string";
    column_mapping "country_code" "country_code" "string";
    column_mapping "order_status" "order_status_type" "string";
    column_mapping "posid" "pos_id" "string";
    column_mapping "cashier_mac" "cashier_machine_id" "string";
    column_mapping "cashier_code" "cashier_code" "string";
    column_mapping "update_date_sale" "sale_update_timestamp" "timestamp";
    column_mapping "add_datetime" "add_timestamp" "timestamp";
    column_mapping "update_datetime" "update_timestamp" "timestamp";
    column_mapping "user_add" "user_add_id" "string";
    column_mapping "user_update" "user_update_id" "string";
    column_mapping "time_stamp" "timestamp_code" "string";
    column_mapping "lock_address" "lock_address_code" "string";
    column_mapping "cancel_to_order" "cancel_to_order_id" "int";
    column_mapping "hotel_code" "hotel_code" "string";
    column_mapping "hotel_source" "hotel_source_code" "string";
    column_mapping "shop_ref" "reference_shopping_card_id" "string";
    column_mapping "machine_tax" "machine_tax_id" "string";
    column_mapping "ref_doc" "reference_document_id" "string";
    column_mapping "cardtypecode" "card_type_code" "string";
    column_mapping "embossid" "emboss_id" "string";
    column_mapping "cardtypeid" "card_type_id" "string";
    column_mapping "lvheaderkey" "lvheader_key" "decimal(13, 2)";
    column_mapping "alipaysession" "alipay_session_number" "string";
    column_mapping "paid_guid" "paid_guid" "string";
    column_mapping "site" "site_name" "string" ].

Definition sales_table_config : pyval :=
  PDict [ ("metadata",
           PDict [ ("tier1",
                    PDict [ ("load_type", PStr "full_dump");
                            ("schema", PStr "t1_pos");
                            ("table", PStr "df_sohdr");
                            ("partition_columns",
                             PList [PStr "source"; PStr "dp_data_dt"]);
                            ("technical_columns", standard_technical_columns) ]);
                   ("tier2",
                    PDict [ ("load_type", PStr "scd1");
                            ("schema", PStr "t2_pos");
                            ("table", PStr "txn_sales_order_header");
                            ("primary_keys",
                             PList [PStr "branch_code"; PStr "shopping_card_id";
                                    PStr "order_id"]);
                            ("partition_columns", PList [PStr "source"]);
                            ("technical_columns", standard_technical_columns) ]) ]);
          ("columns", PList sales_columns) ].

(** The values [load_pos_branch_template] assigns first (lines 279-333). *)
Definition branch_validator_config : pyval :=
  PDict [ ("tier1",
           PDict [ ("control_file_flag", PStr "y");
                   ("data_quality_rules",
                    PList [ quality_rule "check_duplicate"
                              ["branch_no"; "plant"; "site"];
                            quality_rule "check_null"
                              ["branch_no"; "plant"; "site"] ]) ]);
          ("tier2",
           PDict [ ("data_quality_rules",
                    PList [ quality_rule "check_duplicate"
                              ["branch_code"; "plant_code"; "site_name"];
                            quality_rule "check_null"
                              ["branch_code"; "plant_code"; "site_name"] ]) ]) ].

Definition default_historical_load_columns : pyval :=
  PList [ technical_column "is_current" "string";
          technical_column "effective_start_date" "date";
          technical_column "effective_end_date" "date" ].

Definition branch_table_config : pyval :=
  PDict [ ("metadata",
           PDict [ ("tier1",
                    PDict [ ("load_type", PStr "full_dump");
                            ("schema", PStr "t1_pos");
                            ("table", PStr "df_branch");
                            ("partition_columns",
                             PList [PStr "source"; PStr "dp_data_dt"]);
                            ("technical_columns", standard_technical_columns) ]);
                   ("tier2",
                    PDict [ ("load_type", PStr "scd2");
                            ("schema", PStr "t2_pos");
                            ("table", PStr "mst_branch");
                            ("primary_keys",
                             PList [PStr "branch_code"; PStr "plant_code";
                                    PStr "site_name"]);
                            ("partition_columns",
                             PList [PStr "is_current"; PStr "source"]);
                            ("technical_columns", standard_technical_columns);
                            ("historical_load_columns",
                             default_historical_load_columns) ]) ]);
          ("columns",
           PList [ column_mapping "branch_no" "branch_code" "string";
                   column_mapping "name" "branch_name" "string";
                   column_mapping "plant" "plant_code" "string";
                   column_mapping "site" "site_name" "string";
                   column_mapping "address1" "address_1_name" "string" ]) ].

(** [load_sales_transaction_template]: three assignments to the session. *)
Definition load_sales_transaction_template (s : session) : session :=
  let s := set_source_config (template_source_config "df_sohdr") s in
  let s := set_validator_config sales_validator_config s in
  set_table_config sales_table_config s.

(** [load_pos_branch_template]: five assignments, in source order; the last
    two assign the sales-transaction literals again. *)
Definition load_pos_branch_template (s : session) : session :=
  let s := set_source_config (template_source_config "df_branch") s in
  let s := set_validator_config branch_validator_config s in
  let s := set_table_config branch_table_config s in
  let s := set_validator_config sales_validator_config s in
  set_table_config sales_table_config s.

(** The "Load Template" button of [render_sidebar] (lines 105-115). *)
Definition load_template (template_option : string) (s : session)
  : session * list ui_msg :=
  if template_option =? "POS Branch Template" then
    (load_pos_branch_template s, [SidebarSuccess "POS Branch template loaded!"])
  else if template_option =? "Sales Transaction Template" then
    (load_sales_transaction_template s,
     [SidebarSuccess "Sales Transaction template loaded!"])
  else if negb (template_option =? "None") then
    (s, [SidebarInfo (template_option ++ " not implemented yet")])
  else (s, []).

(** [load_config_into_session] *)
Definition load_config_into_session (config : pyval) (s : session)
  : result session :=
  has_source <- py_contains "source_config" config ;;
  s <- (if has_source : bool then
          v <- py_item config "source_config" ;; Ok (set_source_config v s)
        else Ok s) ;;
  has_validator <- py_contains "validator_config" config ;;
  s <- (if has_validator : bool then
          v <- py_item config "validator_config" ;;
          Ok (set_validator_config v s)
        else Ok s) ;;
  has_table <- py_contains "table_config" config ;;
  if has_table : bool then
    tc <- py_item config "table_config" ;;
    let s := set_table_config tc s in
    has_columns <- py_contains "columns" tc ;;
    if has_columns : bool then
      cols <- py_item tc "columns" ;; Ok (set_column_mappings cols s)
    else Ok s
  else Ok s.

(** ** The YAML layer

    [yaml.dump(..., default_flow_style=False, sort_keys=...)] and
    [yaml.safe_load] belong to PyYAML, not to this program.  They are
    modelled by a block-style codec over the value shapes a session holds
    (strings, booleans, [None], lists, dictionaries with string keys):
    one line per scalar entry, nested mappings indented by two columns,
    sequences written at the column of their key, empty containers as
    [[]] and [{}].  Strings that could be read as something else are
    double-quoted.  The reader accepts the layout the writer produces;
    any other YAML syntax is reported as [YAMLError]. *)

Module Yaml.

Inductive tok : Type :=
| TScalar (v : pyval)
| TKey (k : string)
| TKeyVal (k : string) (v : pyval).

(** One physical line: indentation, the number of leading ["- "] markers,
    and the entry that follows them. *)
Record pline : Type := mkLine {
  l_indent : nat;
  l_dashes : nat;
  l_tok : tok
}.

Definition is_block (v : pyval) : bool :=
  match v with
  | PList (_ :: _) | PDict (_ :: _) => true
  | _ => false
  end.

Definition add_dash (n : nat) (ls : list pline) : list pline :=
  match ls with
  | [] => []
  | l :: more => mkLine n (S (l_dashes l)) (l_tok l) :: more
  end.

(** The lines of a value written at column [n]. *)
Fixpoint emit (n : nat) (v : pyval) {struct v} : list pline :=
  match v with
  | PList ((_ :: _) as l) =>
      List.concat (map (fun x => add_dash n (emit (n + 2) x)) l)
  | PDict ((_ :: _) as d) =>
      List.concat (map (fun kx : string * pyval =>
                     let (k, x) := kx in
                     if is_block x
                     then mkLine n 0 (TKey k)
                          :: emit (match x with PList _ => n | _ => n + 2 end) x
                     else [mkLine n 0 (TKeyVal k x)]) d)
  | _ => [mkLine n 0 (TScalar v)]
  end.

(** *** Scalars *)

Definition newline : ascii := ascii_of_nat 10.
Definition quote_char : ascii := ascii_of_nat 34.
Definition backslash : ascii := ascii_of_nat 92.
Definition colon : ascii := ":"%char.
Definition space : ascii := " "%char.

Definition is_letter (c : ascii) : bool :=
  let n := nat_of_ascii c in
  (((65 <=? n) && (n <=? 90)) || ((97 <=? n) && (n <=? 122)))%nat.

Definition is_digit (c : ascii) : bool :=
  let n := nat_of_ascii c in ((48 <=? n) && (n <=? 57))%nat.

Definition plain_first (c : ascii) : bool :=
  is_letter c || existsb (Ascii.eqb c) (list_ascii_of_string "_/$").

Definition plain_char (c : ascii) : bool :=
  is_letter c || is_digit c
  || existsb (Ascii.eqb c) (list_ascii_of_string "_/$.-*(){},+=@% ").

Fixpoint ends_with_space (s : string) : bool :=
  match s with
  | EmptyString => false
  | String c EmptyString => Ascii.eqb c space
  | String _ r => ends_with_space r
  end.

Fixpoint string_forallb (p : ascii -> bool) (s : string) : bool :=
  match s with
  | EmptyString => true
  | String c r => p c && string_forallb p r
  end.

(** What an unquoted scalar reads as: the words the YAML 1.1 resolver
    turns into booleans and nulls, the two empty containers, or the text
    itself.  (Numbers are not part of the value type: the forms store
    text, and an unquoted number reads as text here.) *)
Definition resolve_plain (s : string) : pyval :=
  if existsb (String.eqb s)
       ["yes"; "Yes"; "YES"; "true"; "True"; "TRUE"; "on"; "On"; "ON"]
  then PBool true
  else if existsb (String.eqb s)
       ["no"; "No"; "NO"; "false"; "False"; "FALSE"; "off"; "Off"; "OFF"]
  then PBool false
  else if existsb (String.eqb s) [""; "~"; "null"; "Null"; "NULL"]
  then PNone
  else if s =? "[]" then PList []
  else if s =? "{}" then PDict []
  else PStr s.

Definition plain_ok (s : string) : bool :=
  match s with
  | EmptyString => false
  | String c r =>
      plain_first c && string_forallb plain_char r
      && negb (ends_with_space s)
      && match resolve_plain s with PStr _ => true | _ => false end
  end.

Fixpoint escape (s : string) : string :=
  match s with
  | EmptyString => EmptyString
  | String c r =>
      if Ascii.eqb c backslash then String backslash (String backslash (escape r))
      else if Ascii.eqb c quote_char then String backslash (String quote_char (escape r))
      else if Ascii.eqb c newline then String backslash (String "n"%char (escape r))
      else String c (escape r)
  end.

Definition quoted (s : string) : string :=
  String quote_char (escape s ++ String quote_char EmptyString).

Definition str_text (s : string) : string :=
  if plain_ok s then s else quoted s.

Definition scalar_text (v : pyval) : string :=
  match v with
  | PNone => "null"
  | PBool true => "true"
  | PBool false => "false"
  | PStr s => str_text s
  | PList _ => "[]"
  | PDict _ => "{}"
  end.

Definition tok_text (t : tok) : string :=
  match t with
  | TScalar v => scalar_text v
  | TKey k => str_text k ++ ":"
  | TKeyVal k v => str_text k ++ ": " ++ scalar_text v
  end.

Fixpoint spaces (n : nat) : string :=
  match n with 0 => EmptyString | S n' => String space (spaces n') end.

Fixpoint dashes (k : nat) : string :=
  match k with 0 => EmptyString | S k' => "- " ++ dashes k' end.

Definition line_text (l : pline) : string :=
  spaces (l_indent l) ++ dashes (l_dashes l) ++ tok_text (l_tok l).

Fixpoint unlines (ls : list string) : string :=
  match ls with
  | [] => EmptyString
  | l :: more => l ++ String newline (unlines more)
  end.

(** *** Key order *)

Fixpoint insert_sorted (kv : string * pyval) (d : dict) : dict :=
  match d with
  | [] => [kv]
  | kv' :: d' =>
      if String.leb (fst kv) (fst kv') then kv :: d
      else kv' :: insert_sorted kv d'
  end.

Definition sort_entries (d : dict) : dict :=
  fold_right insert_sorted [] d.

(** [sort_keys=True]: every mapping is written in key order. *)
Fixpoint sort_keys_rec (v : pyval) : pyval :=
  match v with
  | PList l => PList (map sort_keys_rec l)
  | PDict d =>
      PDict (sort_entries
               (map (fun kx : string * pyval =>
                       (fst kx, sort_keys_rec (snd kx))) d))
  | _ => v
  end.

(** [yaml.dump(v, default_flow_style=False, sort_keys=sort_keys)] *)
Definition dump (sort_keys : bool) (v : pyval) : string :=
  unlines (map line_text (emit 0 (if sort_keys then sort_keys_rec v else v))).

(** *** Reading *)

(** The text cut at line feeds; the part after the last line feed is kept
    only when it is not empty. *)
Fixpoint split_lines (s : string) : list string :=
  match s with
  | EmptyString => []
  | String c r =>
      if Ascii.eqb c newline then EmptyString :: split_lines r
      else match split_lines r with
           | [] => [String c EmptyString]
           | l :: more => String c l :: more
           end
  end.

Fixpoint strip_indent (s : string) : nat * string :=
  match s with
  | String c r =>
      if Ascii.eqb c space
      then let (n, b) := strip_indent r in (S n, b)
      else (0, s)
  | EmptyString => (0, s)
  end.

Fixpoint strip_dashes (s : string) : nat * string :=
  match s with
  | String "-" (String " " r) =>
      let (k, b) := strip_dashes r in (S k, b)
  | _ => (0, s)
  end.

(** The text after an opening double quote, up to the closing one. *)
Fixpoint unquote (s : string) : option (string * string) :=
  match s with
  | EmptyString => None
  | String c r =>
      if Ascii.eqb c quote_char then Some (EmptyString, r)
      else if Ascii.eqb c backslash then
        match r with
        | String e r' =>
            let decoded :=
              if Ascii.eqb e "n"%char then Some newline
              else if Ascii.eqb e backslash then Some backslash
              else if Ascii.eqb e quote_char then Some quote_char
              else None in
            match decoded, unquote r' with
            | Some d, Some (a, rest) => Some (String d a, rest)
            | _, _ => None
            end
        | EmptyString => None
        end
      else match unquote r with
           | Some (a, rest) => Some (String c a, rest)
           | None => None
           end
  end.

(** An unquoted key runs up to a colon that ends the line or is followed
    by a space. *)
Fixpoint scan_plain (s : string) : string * string :=
  match s with
  | EmptyString => (EmptyString, EmptyString)
  | String c r =>
      if Ascii.eqb c colon
         && match r with
            | EmptyString => true
            | String c' _ => Ascii.eqb c' space
            end
      then (EmptyString, s)
      else let (a, rest) := scan_plain r in (String c a, rest)
  end.

Definition read_scalar (s : string) : option pyval :=
  match s with
  | String c r =>
      if Ascii.eqb c quote_char then
        match unquote r with
        | Some (a, EmptyString) => Some (PStr a)
        | _ => None
        end
      else Some (resolve_plain s)
  | EmptyString => Some (resolve_plain s)
  end.

Definition read_tok (s : string) : option tok :=
  let atom :=
    match s with
    | String c r =>
        if Ascii.eqb c quote_char then
          match unquote r with
          | Some (a, rest) => Some (true, a, rest)
          | None => None
          end
        else let (a, rest) := scan_plain s in Some (false, a, rest)
    | EmptyString => None
    end in
  match atom with
  | None => None
  | Some (is_quoted, a, rest) =>
      match rest with
      | EmptyString =>
          Some (TScalar (if is_quoted : bool then PStr a else resolve_plain a))
      | String ":" EmptyString => Some (TKey a)
      | String ":" (String " " r) =>
          match read_scalar r with
          | Some v => Some (TKeyVal a v)
          | None => None
          end
      | _ => None
      end
  end.

Definition read_line (s : string) : option pline :=
  let (n, b) := strip_indent s in
  let (k, b') := strip_dashes b in
  match read_tok b' with
  | Some t => Some (mkLine n k t)
  | None => None
  end.

(** Blank lines are skipped. *)
Fixpoint read_lines (ls : list string) : option (list pline) :=
  match ls with
  | [] => Some []
  | l :: more =>
      if string_forallb (Ascii.eqb space) l then read_lines more
      else match read_line l, read_lines more with
           | Some x, Some xs => Some (x :: xs)
           | _, _ => None
           end
  end.

(** A mapping is built entry by entry as [mapping[key] = value]. *)
Definition dict_of_entries (es : dict) : dict :=
  fold_left (fun d (kv : string * pyval) => dict_set (fst kv) (snd kv) d) es [].

Definition is_key (t : tok) : bool :=
  match t with TScalar _ => false | _ => true end.

(** The block parser.  [fuel] bounds the depth of the calls; the loader
    below derives it from the number of lines and of ["- "] markers. *)
Fixpoint parse_value (fuel n : nat) (ls : list pline) {struct fuel}
  : option (pyval * list pline) :=
  match fuel with
  | 0 => None
  | S f =>
      match ls with
      | [] => None
      | l :: rest =>
          if negb (l_indent l =? n)%nat then None
          else match l_dashes l, l_tok l with
               | S _, _ =>
                   match parse_items f n ls with
                   | Some (vs, rest') => Some (PList vs, rest')
                   | None => None
                   end
               | 0, TScalar v => Some (v, rest)
               | 0, _ =>
                   match parse_entries f n ls with
                   | Some (es, rest') => Some (PDict (dict_of_entries es), rest')
                   | None => None
                   end
               end
      end
  end

with parse_items (fuel n : nat) (ls : list pline) {struct fuel}
  : option (list pyval * list pline) :=
  match fuel with
  | 0 => None
  | S f =>
      match ls with
      | l :: rest =>
          match l_dashes l with
          | S k =>
              if (l_indent l =? n)%nat then
                match parse_value f (n + 2) (mkLine (n + 2) k (l_tok l) :: rest) with
                | Some (v, rest1) =>
                    match parse_items f n rest1 with
                    | Some (vs, rest2) => Some (v :: vs, rest2)
                    | None => None
                    end
                | None => None
                end
              else Some ([], ls)
          | 0 => Some ([], ls)
          end
      | [] => Some ([], ls)
      end
  end

with parse_entries (fuel n : nat) (ls : list pline) {struct fuel}
  : option (dict * list pline) :=
  match fuel with
  | 0 => None
  | S f =>
      match ls with
      | l :: rest =>
          if negb (l_indent l =? n)%nat then Some ([], ls)
          else match l_dashes l, l_tok l with
               | 0, TKeyVal k v =>
                   match parse_entries f n rest with
                   | Some (es, rest') => Some ((k, v) :: es, rest')
                   | None => None
                   end
               | 0, TKey k =>
                   match rest with
                   | l' :: _ =>
                       if (n <? l_indent l')%nat
                          || ((l_indent l' =? n)%nat
                              && negb (l_dashes l' =? 0)%nat)
                       then
                         match parse_value f (l_indent l') rest with
                         | Some (v, rest1) =>
                             match parse_entries f n rest1 with
                             | Some (es, rest2) => Some ((k, v) :: es, rest2)
                             | None => None
                             end
                         | None => None
                         end
                       else
                         match parse_entries f n rest with
                         | Some (es, rest') => Some ((k, PNone) :: es, rest')
                         | None => None
                         end
                   | [] => Some ([(k, PNone)], [])
                   end
               | _, _ => Some ([], ls)
               end
      | [] => Some ([], ls)
      end
  end.

Fixpoint weight (ls : list pline) : nat :=
  match ls with
  | [] => 0
  | l :: more => S (l_dashes l) + weight more
  end.

(** [yaml.safe_load(text)]: an empty document loads as [None]. *)
Definition safe_load (text : string) : result pyval :=
  match read_lines (split_lines text) with
  | None => Raise YAMLError
  | Some [] => Ok PNone
  | Some ((l :: _) as ls) =>
      match parse_value (8 * weight ls) (l_indent l) ls with
      | Some (v, []) => Ok v
      | _ => Raise YAMLError
      end
  end.

(** *** Measures and well-formedness used to reason about the codec *)

(** An upper bound on the parser calls a value takes. *)
Fixpoint size (v : pyval) : nat :=
  match v with
  | PList l => 2 + fold_right (fun x acc => S (size x + acc)) 0 l
  | PDict d => 2 + fold_right (fun kx acc => S (size (snd kx) + acc)) 0 d
  | _ => 1
  end.

Fixpoint distinct (ks : list string) : bool :=
  match ks with
  | [] => true
  | k :: more => negb (existsb (String.eqb k) more) && distinct more
  end.

(** A Python value: the keys of every dictionary are pairwise distinct. *)
Fixpoint wf_val (v : pyval) : bool :=
  match v with
  | PList l => forallb wf_val l
  | PDict d => distinct (map fst d) && forallb (fun kx => wf_val (snd kx)) d
  | _ => true
  end.

(** What may follow the lines of a value written at column [n]. *)
Definition below (n : nat) (rest : list pline) : Prop :=
  match rest with
  | [] => True
  | l :: _ => l_indent l < n
  end.

Definition list_end (n : nat) (rest : list pline) : Prop :=
  match rest with
  | [] => True
  | l :: _ => l_indent l < n \/ (l_indent l = n /\ l_dashes l = 0)
  end.

Definition follow (v : pyval) (n : nat) (rest : list pline) : Prop :=
  match v with
  | PList (_ :: _) => list_end n rest
  | _ => below n rest
  end.

(** A line the writer can produce: its scalar is not a block. *)
Definition line_ok (l : pline) : bool :=
  match l_tok l with
  | TScalar v | TKeyVal _ v => negb (is_block v)
  | TKey _ => true
  end.

(** The lines of one list item and of one dictionary entry, as [emit]
    writes them. *)
Definition entry_lines (n : nat) (kx : string * pyval) : list pline :=
  let (k, x) := kx in
  if is_block x
  then mkLine n 0 (TKey k) :: emit (match x with PList _ => n | _ => n + 2 end) x
  else [mkLine n 0 (TKeyVal k x)].

Definition item_lines (n : nat) (x : pyval) : list pline :=
  add_dash n (emit (n + 2) x).

(** The first string of a line, as [read_tok] reads it: whether it was
    quoted, its text, and what follows. *)
Definition read_atom (s : string) : option (bool * string * string) :=
  match s with
  | String c r =>
      if Ascii.eqb c quote_char then
        match unquote r with
        | Some (a, rest) => Some (true, a, rest)
        | None => None
        end
      else let (a, rest) := scan_plain s in Some (false, a, rest)
  | EmptyString => None
  end.

Definition no_newline (s : string) : bool :=
  string_forallb (fun c => negb (Ascii.eqb c newline)) s.

Definition items_size (l : list pyval) : nat :=
  fold_right (fun x acc => S (size x + acc)) 0 l.

Definition entries_size (d : dict) : nat :=
  fold_right (fun (kx : string * pyval) acc => S (size (snd kx) + acc)) 0 d.

Definition round_trips (v : pyval) : Prop :=
  wf_val v = true ->
  forall (n : nat) (rest : list pline) (fuel : nat),
    size v <= fuel ->
    follow v n rest ->
    parse_value fuel n (emit n v ++ rest) = Some (v, rest).

End Yaml.

(** ** Widgets

    A widget call returns what the user entered, or the value it was
    rendered with.  The user's part is an input of the render function. *)

(** [st.text_input(label, value=v)]; only string values are modelled. *)
Definition text_input (user : option string) (value : pyval) : result string :=
  match user, value with
  | Some t, _ => Ok t
  | None, PStr v => Ok v
  | None, _ => Raise NotModelled
  end.

(** [st.selectbox(label, options=..., index=i)] *)
Definition selectbox (options : list string) (index : nat) (user : option nat)
  : string :=
  let default := nth index options "" in
  match user with
  | Some i => nth i options default
  | None => default
  end.

(** ** File system

    A flat model: a path is a name; [fs_dirs] are the directories that
    exist and [fs_files] the files with their content. *)

Record filesystem : Type := mkFs {
  fs_dirs : list string;
  fs_files : list (string * string)
}.

Definition empty_fs : filesystem := mkFs [] [].

Fixpoint file_lookup (p : string) (fs : list (string * string)) : option string :=
  match fs with
  | [] => None
  | (q, c) :: more => if q =? p then Some c else file_lookup p more
  end.

Definition is_dir (p : string) (fs : filesystem) : bool :=
  existsb (String.eqb p) (fs_dirs fs).

Definition is_file (p : string) (fs : filesystem) : bool :=
  match file_lookup p (fs_files fs) with Some _ => true | None => false end.

(** [os.path.exists] *)
Definition path_exists (p : string) (fs : filesystem) : bool :=
  is_dir p fs || is_file p fs.

(** [os.makedirs(p, exist_ok=...)] *)
Definition makedirs (exist_ok : bool) (p : string) (fs : filesystem)
  : result filesystem :=
  if p =? "" then Raise FileNotFoundError
  else if is_file p fs then Raise FileExistsError
  else if is_dir p fs then (if exist_ok then Ok fs else Raise FileExistsError)
  else Ok (mkFs (p :: fs_dirs fs) (fs_files fs)).

Fixpoint ends_with_slash (s : string) : bool :=
  match s with
  | EmptyString => false
  | String c EmptyString => Ascii.eqb c "/"%char
  | String _ r => ends_with_slash r
  end.

(** [os.path.join(a, b)] (POSIX) *)
Definition path_join (a b : string) : string :=
  if String.prefix "/" b then b
  else if (a =? "") || ends_with_slash a then a ++ b
  else a ++ "/" ++ b.

(** [open(p, 'w')] followed by writing [content]. *)
Definition write_file (p content : string) (fs : filesystem) : result filesystem :=
  if p =? "" then Raise FileNotFoundError
  else if is_dir p fs then Raise IsADirectoryError
  else Ok (mkFs (fs_dirs fs)
                ((p, content) :: filter (fun qc => negb (fst qc =? p)) (fs_files fs))).

(** [create_yaml_file(config_data, filename, output_dir)].  The file
    system is returned in both outcomes: a directory created before a
    failing write stays. *)
Definition create_yaml_file (config_data : pyval) (filename output_dir : string)
    (fs : filesystem) : filesystem * result string :=
  match makedirs true output_dir fs with
  | Raise e => (fs, Raise e)
  | Ok fs1 =>
      let file_path := path_join output_dir filename in
      match write_file file_path (Yaml.dump false config_data) fs1 with
      | Raise e => (fs1, Raise e)
      | Ok fs2 => (fs2, Ok file_path)
      end
  end.

(** [load_existing_config(file_path)]: a failure is shown and [None] is
    returned. *)
Definition load_existing_config (file_path : string) (fs : filesystem)
  : pyval * list ui_msg :=
  match file_lookup file_path (fs_files fs) with
  | None => (PNone, [StErrorExn "Error loading configuration file: " FileNotFoundError])
  | Some text =>
      match Yaml.safe_load text with
      | Ok v => (v, [])
      | Raise e => (PNone, [StErrorExn "Error loading configuration file: " e])
      end
  end.

(** The upload part of [render_sidebar] (lines 121-134): the uploaded
    bytes go through a temporary file, which is removed afterwards, so the
    file system is the same before and after. *)
Definition load_uploaded_file (content : string) (s : session)
  : result (session * list ui_msg) :=
  let tmp_path := "/tmp/upload.yml" in
  let fs := mkFs [] [(tmp_path, content)] in
  let (config, msgs) := load_existing_config tmp_path fs in
  if truthy config then
    s <- load_config_into_session config s ;;
    Ok (s, msgs ++ [SidebarSuccess "Configuration loaded successfully!"])
  else Ok (s, msgs).

Record sidebar_ui : Type := {
  ui_section : option nat;
  ui_template_option : option nat;
  ui_load_template : bool;
  ui_uploaded_file : option string;
  ui_output_dir : option string
}.

Definition sections : list string :=
  [ "Source Configuration"; "Validator Configuration"; "Table Configuration";
    "Column Mappings"; "Generate YAML" ].

Definition template_options : list string :=
  [ "None"; "POS Branch Template"; "Sales Transaction Template";
    "Customer Master Template" ].

(** [render_sidebar] *)
Definition render_sidebar (ui : sidebar_ui) (s : session)
  : result (session * list ui_msg * (string * string)) :=
  let section := selectbox sections 0 (ui_section ui) in
  let template_option := selectbox template_options 0 (ui_template_option ui) in
  let (s, msgs1) :=
    if ui_load_template ui then load_template template_option s else (s, []) in
  r <- match ui_uploaded_file ui with
       | Some content => load_uploaded_file content s
       | None => Ok (s, [])
       end ;;
  let (s, msgs2) := r : session * list ui_msg in
  out <- text_input (ui_output_dir ui) (PStr "./pipeline_configs") ;;
  Ok (s, msgs1 ++ msgs2, (section, out)).

(** ** Export: [render_generate_yaml] *)

(** The required-field checks (lines 1028-1050): the flag and the list of
    messages, in the order the checks run. *)
Definition check_required_fields (s : session) : result (bool * list string) :=
  let has_required_fields := true in
  let error_messages := [] in
  source_system <- py_get (source_config s) "source_system" PNone ;;
  let (has_required_fields, error_messages) :=
    if negb (truthy source_system)
    then (false, error_messages ++ ["Source system is required"])
    else (has_required_fields, error_messages) in
  metadata <- py_get (table_config s) "metadata" (PDict []) ;;
  tier1_meta <- py_get metadata "tier1" (PDict []) ;;
  metadata <- py_get (table_config s) "metadata" (PDict []) ;;
  tier2_meta <- py_get metadata "tier2" (PDict []) ;;
  table1 <- py_get tier1_meta "table" PNone ;;
  let (has_required_fields, error_messages) :=
    if negb (truthy table1)
    then (false, error_messages ++ ["Tier 1 table name is required"])
    else (has_required_fields, error_messages) in
  table2 <- py_get tier2_meta "table" PNone ;;
  let (has_required_fields, error_messages) :=
    if negb (truthy table2)
    then (false, error_messages ++ ["Tier 2 table name is required"])
    else (has_required_fields, error_messages) in
  columns <- py_get (table_config s) "columns" PNone ;;
  let (has_required_fields, error_messages) :=
    if negb (truthy columns)
    then (false, error_messages ++ ["At least one column mapping is required"])
    else (has_required_fields, error_messages) in
  Ok (has_required_fields, error_messages).

Definition combined_config (s : session) : pyval :=
  PDict [ ("source_config", source_config s);
          ("validator_config", validator_config s);
          ("table_config", table_config s) ].

(** Lines 1073-1076. *)
Definition default_filename (s : session) : result string :=
  source_system <- py_get (source_config s) "source_system" (PStr "") ;;
  metadata <- py_get (table_config s) "metadata" (PDict []) ;;
  tier2_meta <- py_get metadata "tier2" (PDict []) ;;
  tier2_table <- py_get tier2_meta "table" (PStr "") ;;
  if truthy source_system && truthy tier2_table then
    a <- py_str source_system ;;
    b <- py_str tier2_table ;;
    Ok (a ++ "_" ++ b ++ ".yml")%string
  else Ok "pipeline_config.yml".

Record generate_ui : Type := {
  ui_filename : option string;
  ui_download : bool;
  ui_save : bool
}.

(** The body of the "Save to File" button: the [try] block. *)
Definition save_to_file (config : pyval) (filename output_dir : string)
    (fs : filesystem) : filesystem * result string :=
  let step1 :=
    if negb (path_exists output_dir fs) then makedirs false output_dir fs
    else Ok fs in
  match step1 with
  | Raise e => (fs, Raise e)
  | Ok fs1 => create_yaml_file config filename output_dir fs1
  end.

(** [render_generate_yaml]: the checks, the preview, the file name and
    the two buttons, in source order.  The session is returned as it
    came: the function assigns nothing to it. *)
Definition render_generate_yaml (ui : generate_ui) (s : session) (fs : filesystem)
  : result (session * list ui_msg * filesystem) :=
  checks <- check_required_fields s ;;
  let (has_required_fields, error_messages) := checks : bool * list string in
  let shown_errors :=
    if negb has_required_fields
    then StError "Please fix the following errors:" :: map StWarning error_messages
    else [] in
  let yaml_config := Yaml.dump false (combined_config s) in
  let preview := [StCode yaml_config] in
  default <- default_filename s ;;
  filename <- text_input (ui_filename ui) (PStr default) ;;
  let dir := match output_dir s with
             | Some d => d
             | None => "./pipeline_configs"
             end in
  let download :=
    if ui_download ui then [StDownloadButton yaml_config filename] else [] in
  if ui_save ui then
    match save_to_file (combined_config s) filename dir fs with
    | (fs', Ok file_path) =>
        Ok (s, shown_errors ++ preview ++ download
               ++ [StSuccess ("Configuration saved to " ++ file_path)%string], fs')
    | (fs', Raise e) =>
        Ok (s, shown_errors ++ preview ++ download
               ++ [StErrorExn "Error saving file: " e], fs')
    end
  else Ok (s, shown_errors ++ preview ++ download, fs).

(** ** Table configuration: [render_table_config] *)

(** Iterating a value: a list gives its items, a string its characters,
    a dictionary its keys. *)
Definition py_iter (v : pyval) : result (list pyval) :=
  match v with
  | PList l => Ok l
  | PStr s => Ok (map (fun c => PStr (String c EmptyString)) (list_ascii_of_string s))
  | PDict d => Ok (map (fun kv => PStr (fst kv)) d)
  | PNone | PBool _ => Raise TypeError
  end.

Fixpoint all_strings (l : list pyval) : result (list string) :=
  match l with
  | [] => Ok []
  | PStr s :: more => ss <- all_strings more ;; Ok (s :: ss)
  | _ :: _ => Raise TypeError
  end.

(** [sep.join(v)] *)
Definition py_join (sep : string) (v : pyval) : result string :=
  items <- py_iter v ;;
  ss <- all_strings items ;;
  Ok (String.concat sep ss).

(** [s.split(',')] *)
Fixpoint split_commas (s : string) : list string :=
  match s with
  | EmptyString => [EmptyString]
  | String c r =>
      if Ascii.eqb c ","%char then EmptyString :: split_commas r
      else match split_commas r with
           | [] => [String c EmptyString]
           | w :: more => String c w :: more
           end
  end.

(** ASCII white space, as [str.strip()] removes it. *)
Definition is_space (c : ascii) : bool :=
  let n := nat_of_ascii c in
  ((n =? 32) || ((9 <=? n) && (n <=? 13)) || ((28 <=? n) && (n <=? 31)))%nat.

Fixpoint lstrip (s : string) : string :=
  match s with
  | String c r => if is_space c then lstrip r else s
  | EmptyString => s
  end.

Fixpoint rstrip (s : string) : string :=
  match s with
  | EmptyString => EmptyString
  | String c r =>
      match rstrip r with
      | EmptyString => if is_space c then EmptyString else String c EmptyString
      | r' => String c r'
      end
  end.

Definition strip (s : string) : string := rstrip (lstrip s).

(** [[c.strip() for c in text.split(',')] if text else []] *)
Definition comma_list (text : string) : pyval :=
  if text =? "" then PList []
  else PList (map (fun w => PStr (strip w)) (split_commas text)).

(** The rows handed to a data editor: for each item [col] of the stored
    list, the record [{f: col.get(f, '')}] over the editor's fields. *)
Fixpoint rows_of (fields : list string) (items : list pyval) : result (list dict) :=
  match items with
  | [] => Ok []
  | col :: more =>
      row <- (fix cells (fs : list string) : result dict :=
                match fs with
                | [] => Ok []
                | f :: fs' =>
                    x <- py_get col f (PStr "") ;;
                    r <- cells fs' ;;
                    Ok ((f, x) :: r)
                end) fields ;;
      rows <- rows_of fields more ;;
      Ok (row :: rows)
  end.

(** Reading the edited rows back: a row is kept when every field is true
    in Python's sense (the fields are tested left to right, stopping at
    the first false one); a kept row is rebuilt from the fields alone.
    (A blank cell reads as [None] here.) *)
Fixpoint complete_rows (fields : list string) (rows : list dict)
  : result (list pyval) :=
  match rows with
  | [] => Ok []
  | row :: more =>
      cells <- (fix cells (fs : list string) : result (option dict) :=
                  match fs with
                  | [] => Ok (Some [])
                  | f :: fs' =>
                      x <- py_item (PDict row) f ;;
                      if truthy x then
                        r <- cells fs' ;;
                        Ok (option_map (cons (f, x)) r)
                      else Ok None
                  end) fields ;;
      rest <- complete_rows fields more ;;
      match cells with
      | Some c => Ok (PDict c :: rest)
      | None => Ok rest
      end
  end.

(** A data editor is the user's edit of the rows it is shown. *)
Definition data_editor := list dict -> list dict.

Definition edit_rows (fields : list string) (editor : data_editor) (current : pyval)
  : result (list pyval) :=
  items <- py_iter current ;;
  rows <- rows_of fields items ;;
  complete_rows fields (editor rows).

Definition as_dict (v : pyval) : result dict :=
  match v with
  | PDict d => Ok d
  | _ => Raise AttributeError
  end.

(** [v[k] = x] *)
Definition py_setitem (v : pyval) (k : string) (x : pyval) : result pyval :=
  match v with
  | PDict d => Ok (PDict (dict_set k x d))
  | _ => Raise TypeError
  end.

Definition HISTORICAL : string := "historical_load_columns".

(** The closure [update_load_type] (lines 784-794), which reads and
    updates [tier2_meta]. *)
Definition update_load_type (tier2_meta : dict) : result dict :=
  load_type <- py_item (PDict tier2_meta) "load_type" ;;
  if pyval_eqb load_type (PStr "scd2")
     && (negb (dict_in HISTORICAL tier2_meta)
         || negb (truthy (dict_get HISTORICAL PNone tier2_meta)))
  then Ok (dict_set HISTORICAL default_historical_load_columns tier2_meta)
  else if negb (pyval_eqb load_type (PStr "scd2")) && dict_in HISTORICAL tier2_meta
  then Ok (dict_del HISTORICAL tier2_meta)
  else Ok tier2_meta.

Record tier1_ui : Type := {
  t1_load_type : option nat;
  t1_schema : option string;
  t1_table : option string;
  t1_partition_columns : option string;
  t1_technical_columns : data_editor
}.

Record tier2_ui : Type := {
  t2_load_type : option nat;
  t2_schema : option string;
  t2_table : option string;
  t2_primary_keys : option string;
  t2_partition_columns : option string;
  t2_technical_columns : data_editor;
  t2_historical_columns : data_editor
}.

(** Lines 698-770: the tier 1 form. *)
Definition render_tier1 (ui : tier1_ui) (tier1_meta : dict) : result dict :=
  let m := tier1_meta in
  let index :=
    if pyval_eqb (dict_get "load_type" (PStr "full_dump") m) (PStr "full_dump")
    then 0 else 1 in
  let m := dict_set "load_type"
             (PStr (selectbox ["full_dump"; "incremental"] index (t1_load_type ui))) m in
  schema <- text_input (t1_schema ui) (dict_get "schema" (PStr "t1_") m) ;;
  let m := dict_set "schema" (PStr schema) m in
  table <- text_input (t1_table ui) (dict_get "table" (PStr "") m) ;;
  let m := dict_set "table" (PStr table) m in
  partition_cols_str <- py_join ", " (dict_get "partition_columns" (PList []) m) ;;
  new_partition_cols <- text_input (t1_partition_columns ui) (PStr partition_cols_str) ;;
  let m := dict_set "partition_columns" (comma_list new_partition_cols) m in
  let m := if negb (dict_in "technical_columns" m)
           then dict_set "technical_columns" (PList []) m else m in
  tech <- edit_rows ["name"; "data_type"] (t1_technical_columns ui)
            (dict_get "technical_columns" (PList []) m) ;;
  Ok (dict_set "technical_columns" (PList tech) m).

(** Lines 799-809: the tier 2 load-type selector and the call of
    [update_load_type] when the selection differs from the stored value. *)
Definition select_load_type (user : option nat) (tier2_meta : dict) : result dict :=
  let previous_load_type := dict_get "load_type" (PStr "") tier2_meta in
  let index := if pyval_eqb previous_load_type (PStr "scd2") then 1 else 0 in
  let chosen := PStr (selectbox ["scd1"; "scd2"] index user) in
  let m := dict_set "load_type" chosen tier2_meta in
  if negb (pyval_eqb previous_load_type chosen) then update_load_type m
  else Ok m.

(** Lines 811-881: schema, table, primary keys, partition columns and
    technical columns of tier 2. *)
Definition render_tier2_fields (ui : tier2_ui) (m : dict) : result dict :=
  schema <- text_input (t2_schema ui) (dict_get "schema" (PStr "t2_") m) ;;
  let m := dict_set "schema" (PStr schema) m in
  table <- text_input (t2_table ui) (dict_get "table" (PStr "") m) ;;
  let m := dict_set "table" (PStr table) m in
  primary_keys_str <- py_join ", " (dict_get "primary_keys" (PList []) m) ;;
  new_primary_keys <- text_input (t2_primary_keys ui) (PStr primary_keys_str) ;;
  let m := dict_set "primary_keys" (comma_list new_primary_keys) m in
  partition_cols_str <- py_join ", " (dict_get "partition_columns" (PList []) m) ;;
  new_partition_cols <- text_input (t2_partition_columns ui) (PStr partition_cols_str) ;;
  let m := dict_set "partition_columns" (comma_list new_partition_cols) m in
  let m := if negb (dict_in "technical_columns" m)
           then dict_set "technical_columns" (PList []) m else m in
  tech <- edit_rows ["name"; "data_type"] (t2_technical_columns ui)
            (dict_get "technical_columns" (PList []) m) ;;
  Ok (dict_set "technical_columns" (PList tech) m).

(** Lines 883-925: the historical-column editor for SCD2, the removal of
    the key otherwise. *)
Definition render_historical (editor : data_editor) (m : dict) : result dict :=
  load_type <- py_item (PDict m) "load_type" ;;
  if pyval_eqb load_type (PStr "scd2") then
    let m := if negb (dict_in HISTORICAL m)
             then dict_set HISTORICAL (PList []) m else m in
    hist <- edit_rows ["name"; "data_type"] editor (dict_get HISTORICAL (PList []) m) ;;
    Ok (dict_set HISTORICAL (PList hist) m)
  else if dict_in HISTORICAL m then Ok (dict_del HISTORICAL m)
  else Ok m.

(** The tier 2 form as a whole. *)
Definition render_tier2 (ui : tier2_ui) (tier2_meta : dict) : result dict :=
  m <- select_load_type (t2_load_type ui) tier2_meta ;;
  m <- render_tier2_fields ui m ;;
  render_historical (t2_historical_columns ui) m.

(** [render_table_config] *)
Definition render_table_config (ui1 : tier1_ui) (ui2 : tier2_ui) (s : session)
  : result session :=
  let table_config := table_config s in
  has_metadata <- py_contains "metadata" table_config ;;
  table_config <-
    (if negb has_metadata
     then py_setitem table_config "metadata"
            (PDict [("tier1", PDict []); ("tier2", PDict [])])
     else Ok table_config) ;;
  metadata <- py_item table_config "metadata" ;;
  has_tier1 <- py_contains "tier1" metadata ;;
  metadata <- (if negb has_tier1 then py_setitem metadata "tier1" (PDict [])
               else Ok metadata) ;;
  tier1_meta <- py_item metadata "tier1" ;;
  tier1_meta <- as_dict tier1_meta ;;
  tier1_meta <- render_tier1 ui1 tier1_meta ;;
  metadata <- py_setitem metadata "tier1" (PDict tier1_meta) ;;
  has_tier2 <- py_contains "tier2" metadata ;;
  metadata <- (if negb has_tier2 then py_setitem metadata "tier2" (PDict [])
               else Ok metadata) ;;
  tier2_meta <- py_item metadata "tier2" ;;
  tier2_meta <- as_dict tier2_meta ;;
  tier2_meta <- render_tier2 ui2 tier2_meta ;;
  metadata <- py_setitem metadata "tier2" (PDict tier2_meta) ;;
  table_config <- py_setitem table_config "metadata" metadata ;;
  Ok (set_table_config table_config s).

(** ** Column mappings: [render_column_mappings] *)

(** A data frame as [pd.read_csv] returns it: the header and one record
    per row. *)
Record dataframe : Type := {
  df_columns : list string;
  df_rows : list dict
}.

Definition MAPPING_FIELDS : list string := ["tier_1"; "tier_2"; "data_type"].

(** [x in SUPPORTED_DATA_TYPES] for a cell. *)
Definition cell_supported (v : pyval) : bool :=
  match v with
  | PStr t => is_supported t
  | _ => false
  end.

(** [Series.unique()]: first occurrences, in order. *)
Fixpoint unique (seen l : list pyval) : list pyval :=
  match l with
  | [] => []
  | x :: more =>
      if existsb (pyval_eqb x) seen then unique seen more
      else x :: unique (x :: seen) more
  end.

Inductive bulk_outcome : Type :=
| BulkMissing (message : string)
| BulkUnsupported (message : string)
| BulkReady (bulk_columns : list pyval).

(** The checks on an uploaded frame (lines 986-1006). *)
Definition bulk_check (df_upload : dataframe) : result bulk_outcome :=
  let required_cols := MAPPING_FIELDS in
  let missing_cols :=
    filter (fun col => negb (existsb (String.eqb col) (df_columns df_upload)))
           required_cols in
  match missing_cols with
  | _ :: _ =>
      Ok (BulkMissing ("Missing required columns: " ++ String.concat ", " missing_cols))
  | [] =>
      let invalid_types :=
        filter (fun row => negb (cell_supported (dict_get "data_type" PNone row)))
               (df_rows df_upload) in
      match invalid_types with
      | _ :: _ =>
          names <- py_join ", "
                     (PList (unique [] (map (dict_get "data_type" PNone) invalid_types))) ;;
          Ok (BulkUnsupported ("Found unsupported data types: " ++ names))
      | [] =>
          Ok (BulkReady
                (map (fun row =>
                        PDict [ ("tier_1", dict_get "tier_1" PNone row);
                                ("tier_2", dict_get "tier_2" PNone row);
                                ("data_type", dict_get "data_type" PNone row) ])
                     (df_rows df_upload)))
      end
  end.

(** The mappings an upload contributes to the document. *)
Definition bulk_accepted (df_upload : dataframe) : list pyval :=
  match bulk_check df_upload with
  | Ok (BulkReady bulk_columns) => bulk_columns
  | _ => []
  end.

Definition nat_to_string (n : nat) : string :=
  DecimalString.NilEmpty.string_of_uint (Nat.to_uint n).

(** [list.extend] *)
Definition py_extend (v : pyval) (items : list pyval) : result pyval :=
  match v with
  | PList l => Ok (PList (l ++ items))
  | _ => Raise AttributeError
  end.

Record mappings_ui : Type := {
  ui_mappings_editor : data_editor;
  ui_uploaded_csv : option dataframe;
  ui_add_mappings : bool
}.

(** [render_column_mappings]: the editor over the stored mappings, then
    the bulk upload.  The rerun requested after a successful addition
    restarts the script and is not modelled. *)
Definition render_column_mappings (ui : mappings_ui) (s : session)
  : result (session * list ui_msg) :=
  columns <- py_get (table_config s) "columns" (PList []) ;;
  updated_columns <- edit_rows MAPPING_FIELDS (ui_mappings_editor ui) columns ;;
  tc <- py_setitem (table_config s) "columns" (PList updated_columns) ;;
  let s := set_table_config tc s in
  match ui_uploaded_csv ui with
  | None => Ok (s, [])
  | Some df_upload =>
      match bulk_check df_upload with
      | Raise e => Ok (s, [StErrorExn "Error processing CSV: " e])
      | Ok (BulkMissing m) => Ok (s, [StError m])
      | Ok (BulkUnsupported m) => Ok (s, [StError m])
      | Ok (BulkReady bulk_columns) =>
          if ui_add_mappings ui then
            match py_extend (PList updated_columns) bulk_columns with
            | Raise e => Ok (s, [StErrorExn "Error processing CSV: " e])
            | Ok cols =>
                tc <- py_setitem tc "columns" cols ;;
                Ok (set_table_config tc s,
                    [StSuccess ("Added " ++ nat_to_string (List.length bulk_columns)
                                ++ " column mappings!")])
            end
          else Ok (s, [])
      end
  end.

(** ** Helper: [sanitize_name] *)

(** A word character for [\W]: a letter, a digit or the underscore.  For
    characters outside ASCII Python consults Unicode categories, which
    byte strings do not carry; they count as non-word here, and the
    properties of [sanitize_name] are stated for ASCII names. *)
Definition is_word_char (c : ascii) : bool :=
  Yaml.is_letter c || Yaml.is_digit c || Ascii.eqb c "_"%char.

(** [re.sub(r'\W+', '_', name)]: every maximal run of non-word characters
    becomes one underscore.  [in_run] says that the previous character
    was part of such a run. *)
Fixpoint sub_nonword (in_run : bool) (name : string) : string :=
  match name with
  | EmptyString => EmptyString
  | String c r =>
      if is_word_char c then String c (sub_nonword false r)
      else if in_run then sub_nonword true r
      else String "_"%char (sub_nonword true r)
  end.

(** [c.lower()] on ASCII. *)
Definition lower_char (c : ascii) : ascii :=
  let n := nat_of_ascii c in
  if ((65 <=? n) && (n <=? 90))%nat then ascii_of_nat (n + 32) else c.

Fixpoint lower (s : string) : string :=
  match s with
  | EmptyString => EmptyString
  | String c r => String (lower_char c) (lower r)
  end.

(** [sanitize_name(name)] *)
Definition sanitize_name (name : string) : string :=
  lower (sub_nonword false name).

(** ** Source configuration: [render_source_config] *)

(** [st.checkbox(label, value=v)]: the value is cast to a boolean. *)
Definition checkbox (user : option bool) (value : pyval) : bool :=
  match user with
  | Some b => b
  | None => truthy value
  end.

(** The recurring statement
    [d[k] = st.text_input(label, value=d.get(k, default))]. *)
Definition text_field (user : option string) (k default : string) (d : dict)
  : result dict :=
  v <- text_input user (dict_get k (PStr default) d) ;;
  Ok (dict_set k (PStr v) d).

(** [d[k] = st.selectbox(label, options=['y', 'n'],
    index=0 if d.get(k, 'y') == 'y' else 1)] *)
Definition flag_field (user : option nat) (k : string) (d : dict) : dict :=
  let index := if pyval_eqb (dict_get k (PStr "y") d) (PStr "y") then 0 else 1 in
  dict_set k (PStr (selectbox ["y"; "n"] index user)) d.

(** [d[k] = st.checkbox(label, value=d.get(k, default))] *)
Definition checkbox_field (user : option bool) (k : string) (default : bool)
    (d : dict) : dict :=
  dict_set k (PBool (checkbox user (dict_get k (PBool default) d))) d.

Record source_ui : Type := {
  src_source_system : option string;
  src_catalog : option string;
  src_delay_day : option string;
  src_active_flag : option nat;
  src_landing_bucket : option string;
  src_persisted_bucket : option string;
  src_data_timezone : option string;
  src_control_file_landing_location : option string;
  src_data_file_landing_location : option string;
  src_control_file_regex : option string;
  src_data_file_regex : option string;
  src_control_header : option bool;
  src_control_delimiter : option string;
  src_data_header : option bool;
  src_data_delimiter : option string;
  src_quote : option string;
  src_escape : option string;
  src_charset : option string
}.

(** Lines 523-537: the control file format. *)
Definition render_control_format (ui : source_ui) (control_format : dict)
  : result dict :=
  let f := checkbox_field (src_control_header ui) "header" false control_format in
  text_field (src_control_delimiter ui) "delimiter" "|" f.

(** Lines 551-581: the data file format. *)
Definition render_data_format (ui : source_ui) (data_format : dict)
  : result dict :=
  let f := checkbox_field (src_data_header ui) "header" true data_format in
  f <- text_field (src_data_delimiter ui) "delimiter" "," f ;;
  f <- text_field (src_quote ui) "quote" dquote f ;;
  f <- text_field (src_escape ui) "escape" dquote f ;;
  text_field (src_charset ui) "charset" "utf-8" f.

(** The fields of the source section, in source order (lines 441-513). *)
Definition render_source_fields (ui : source_ui) (c : dict) : result dict :=
  c <- text_field (src_source_system ui) "source_system" "" c ;;
  c <- text_field (src_catalog ui) "catalog" "${catalog}" c ;;
  c <- text_field (src_delay_day ui) "delay_day" "1" c ;;
  let c := flag_field (src_active_flag ui) "active_flag" c in
  c <- text_field (src_landing_bucket ui) "landing_bucket" "${tier0_bucket}" c ;;
  c <- text_field (src_persisted_bucket ui) "persisted_bucket" "${tier1_bucket}" c ;;
  c <- text_field (src_data_timezone ui) "data_timezone" "UTC" c ;;
  c <- text_field (src_control_file_landing_location ui)
         "control_file_landing_location"
         "/ctl/${source_system}/${table}/${data_date}/" c ;;
  c <- text_field (src_data_file_landing_location ui)
         "data_file_landing_location"
         "/data/${source_system}/${table}/${data_date}/" c ;;
  c <- text_field (src_control_file_regex ui) "control_file_regex" "*.ctl" c ;;
  text_field (src_data_file_regex ui) "data_file_regex" "*.csv" c.

(** [render_source_config] *)
Definition render_source_config (ui : source_ui) (s : session) : result session :=
  c <- as_dict (source_config s) ;;
  c <- render_source_fields ui c ;;
  let c := if negb (dict_in "control_file_format" c)
           then dict_set "control_file_format"
                  (PDict [("header", PBool false); ("delimiter", PStr "|")]) c
           else c in
  control_format <- as_dict (dict_get "control_file_format" PNone c) ;;
  control_format <- render_control_format ui control_format ;;
  let c := dict_set "control_file_format" (PDict control_format) c in
  let c := if negb (dict_in "data_file_format" c)
           then dict_set "data_file_format"
                  (PDict [ ("header", PBool true); ("delimiter", PStr ",");
                           ("quote", PStr dquote); ("escape", PStr dquote);
                           ("charset", PStr "utf-8") ]) c
           else c in
  data_format <- as_dict (dict_get "data_file_format" PNone c) ;;
  data_format <- render_data_format ui data_format ;;
  let c := dict_set "data_file_format" (PDict data_format) c in
  Ok (set_source_config (PDict c) s).

(** ** Validator configuration: [render_validator_config] *)

(** The rows shown for the stored rules: the rule name and the columns,
    joined by [", "] when they are a list and passed as they are
    otherwise. *)
Fixpoint rule_rows (rules : list pyval) : result (list dict) :=
  match rules with
  | [] => Ok []
  | rule :: more =>
      rule_type <- py_get rule "rule" (PStr "") ;;
      columns <- py_get rule "column" (PList []) ;;
      columns_str <- match columns with
                     | PList _ => t <- py_join ", " columns ;; Ok (PStr t)
                     | _ => Ok columns
                     end ;;
      rows <- rule_rows more ;;
      Ok ([("rule", rule_type); ("columns", columns_str)] :: rows)
  end.

(** [row['columns'].split(',')], each part stripped. *)
Definition split_columns (v : pyval) : result pyval :=
  match v with
  | PStr t => Ok (PList (map (fun w => PStr (strip w)) (split_commas t)))
  | _ => Raise AttributeError
  end.

(** Reading the edited rules back: a row with a rule name and columns
    becomes a rule. *)
Fixpoint read_rules (rows : list dict) : result (list pyval) :=
  match rows with
  | [] => Ok []
  | row :: more =>
      rule <- py_item (PDict row) "rule" ;;
      kept <- (if truthy rule then
                 columns_str <- py_item (PDict row) "columns" ;;
                 if truthy columns_str then
                   columns <- split_columns columns_str ;;
                   Ok [PDict [("rule", rule); ("column", columns)]]
                 else Ok []
               else Ok []) ;;
      rest <- read_rules more ;;
      Ok (kept ++ rest)
  end.

(** The rule editor of one tier (lines 610-635 and 647-672). *)
Definition edit_rules (editor : data_editor) (tier_config : dict) : result dict :=
  items <- py_iter (dict_get "data_quality_rules" (PList []) tier_config) ;;
  rows <- rule_rows items ;;
  rules <- read_rules (editor rows) ;;
  Ok (dict_set "data_quality_rules" (PList rules) tier_config).

Record validator_ui : Type := {
  val_control_file_flag : option nat;
  val_tier1_rules : data_editor;
  val_tier2_rules : data_editor
}.

(** [render_validator_config] *)
Definition render_validator_config (ui : validator_ui) (s : session)
  : result session :=
  let validator_config := validator_config s in
  has_tier1 <- py_contains "tier1" validator_config ;;
  validator_config <-
    (if negb has_tier1
     then py_setitem validator_config "tier1"
            (PDict [ ("control_file_flag", PStr "y");
                     ("data_quality_rules", PList []) ])
     else Ok validator_config) ;;
  tier1_config <- py_item validator_config "tier1" ;;
  tier1_config <- as_dict tier1_config ;;
  let tier1_config :=
    flag_field (val_control_file_flag ui) "control_file_flag" tier1_config in
  tier1_config <- edit_rules (val_tier1_rules ui) tier1_config ;;
  validator_config <- py_setitem validator_config "tier1" (PDict tier1_config) ;;
  has_tier2 <- py_contains "tier2" validator_config ;;
  validator_config <-
    (if negb has_tier2
     then py_setitem validator_config "tier2"
            (PDict [("data_quality_rules", PList [])])
     else Ok validator_config) ;;
  tier2_config <- py_item validator_config "tier2" ;;
  tier2_config <- as_dict tier2_config ;;
  tier2_config <- edit_rules (val_tier2_rules ui) tier2_config ;;
  validator_config <- py_setitem validator_config "tier2" (PDict tier2_config) ;;
  Ok (set_validator_config validator_config s).

(** ** Entry point: [main] *)

Record main_ui : Type := {
  m_sidebar : sidebar_ui;
  m_source : source_ui;
  m_validator : validator_ui;
  m_tier1 : tier1_ui;
  m_tier2 : tier2_ui;
  m_mappings : mappings_ui;
  m_generate : generate_ui
}.

(** [main]: the sidebar, the output directory stored in the session, then
    the selected section. *)
Definition main (ui : main_ui) (s : session) (fs : filesystem)
  : result (session * list ui_msg * filesystem) :=
  r <- render_sidebar (m_sidebar ui) s ;;
  let '(s, msgs, (section, output_dir)) :=
    r : session * list ui_msg * (string * string) in
  let s := set_output_dir output_dir s in
  if section =? "Source Configuration" then
    s <- render_source_config (m_source ui) s ;; Ok (s, msgs, fs)
  else if section =? "Validator Configuration" then
    s <- render_validator_config (m_validator ui) s ;; Ok (s, msgs, fs)
  else if section =? "Table Configuration" then
    s <- render_table_config (m_tier1 ui) (m_tier2 ui) s ;; Ok (s, msgs, fs)
  else if section =? "Column Mappings" then
    r <- render_column_mappings (m_mappings ui) s ;;
    let (s, msgs') := r : session * list ui_msg in
    Ok (s, msgs ++ msgs', fs)
  else if section =? "Generate YAML" then
    r <- render_generate_yaml (m_generate ui) s fs ;;
    let '(s, msgs', fs) := r : session * list ui_msg * filesystem in
    Ok (s, msgs ++ msgs', fs)
  else Ok (s, msgs, fs).

(** ** Values and predicates the statements refer to *)

Definition tier2_table_path : list string := ["metadata"; "tier2"; "table"].
Definition tier1_table_path : list string := ["metadata"; "tier1"; "table"].

Definition is_dict_or_absent (o : option pyval) : bool :=
  match o with
  | Some (PDict _) | None => true
  | Some _ => false
  end.

(** The shape the export form expects: the source and table sections are
    dictionaries, and [metadata], [tier1], [tier2] are dictionaries
    where present. *)
Definition well_shaped (s : session) : bool :=
  match source_config s, table_config s with
  | PDict _, PDict _ =>
      is_dict_or_absent (py_path (table_config s) ["metadata"])
      && is_dict_or_absent (py_path (table_config s) ["metadata"; "tier1"])
      && is_dict_or_absent (py_path (table_config s) ["metadata"; "tier2"])
  | _, _ => false
  end.

Definition source_system_missing (s : session) : bool :=
  empty_or_absent (py_path (source_config s) ["source_system"]).
Definition tier1_table_missing (s : session) : bool :=
  empty_or_absent (py_path (table_config s) tier1_table_path).
Definition tier2_table_missing (s : session) : bool :=
  empty_or_absent (py_path (table_config s) tier2_table_path).
Definition columns_missing (s : session) : bool :=
  empty_or_absent (py_path (table_config s) ["columns"]).

(** The messages of the required-field checks, one per condition. *)
Definition expected_messages (s : session) : list string :=
  (if source_system_missing s then ["Source system is required"] else [])
  ++ (if tier1_table_missing s then ["Tier 1 table name is required"] else [])
  ++ (if tier2_table_missing s then ["Tier 2 table name is required"] else [])
  ++ (if columns_missing s then ["At least one column mapping is required"] else []).

(** The Sales Transaction document with the source section emptied: both
    table names and the column list are set, the source system is not. *)
Definition sales_without_source : session :=
  set_source_config (PDict []) (load_sales_transaction_template initial_session).

Definition save_pressed : generate_ui :=
  {| ui_filename := None; ui_download := false; ui_save := true |}.

Definition resolved_output_dir (s : session) : string :=
  match output_dir s with
  | Some d => d
  | None => "./pipeline_configs"
  end.

(** The upload of the specification's example: header
    [tier_1,tier_2,data_type], rows [a,b,string] and [c,d,notatype]. *)
Definition example_upload : dataframe :=
  {| df_columns := ["tier_1"; "tier_2"; "data_type"];
     df_rows := [ [ ("tier_1", PStr "a"); ("tier_2", PStr "b");
                    ("data_type", PStr "string") ];
                  [ ("tier_1", PStr "c"); ("tier_2", PStr "d");
                    ("data_type", PStr "notatype") ] ] |}.

Definition keep_rows : data_editor := fun rows => rows.

Definition row_supported (row : dict) : bool :=
  cell_supported (dict_get "data_type" PNone row).

Definition row_mapping (row : dict) : pyval :=
  PDict [ ("tier_1", dict_get "tier_1" PNone row);
          ("tier_2", dict_get "tier_2" PNone row);
          ("data_type", dict_get "data_type" PNone row) ].

Definition keep_all : tier2_ui :=
  {| t2_load_type := Some 1; t2_schema := None; t2_table := None;
     t2_primary_keys := None; t2_partition_columns := None;
     t2_technical_columns := keep_rows; t2_historical_columns := keep_rows |}.

(** The tier 2 record of the Sales Transaction template. *)
Definition sales_tier2 : dict :=
  [ ("load_type", PStr "scd1");
    ("schema", PStr "t2_pos");
    ("table", PStr "txn_sales_order_header");
    ("primary_keys",
     PList [PStr "branch_code"; PStr "shopping_card_id"; PStr "order_id"]);
    ("partition_columns", PList [PStr "source"]);
    ("technical_columns", standard_technical_columns) ].

(** A document whose sections are Python values (dictionary keys pairwise
    distinct) and whose table section is a dictionary. *)
Definition is_document (s : session) : bool :=
  Yaml.wf_val (source_config s) && Yaml.wf_val (validator_config s)
  && Yaml.wf_val (table_config s)
  && match table_config s with PDict _ => true | _ => false end.

(** ASCII text. *)
Definition is_ascii (s : string) : bool :=
  Yaml.string_forallb (fun c => (nat_of_ascii c <? 128)%nat) s.

(** A lower-case letter, a digit or the underscore. *)
Definition identifier_char (c : ascii) : bool :=
  let n := nat_of_ascii c in
  ((97 <=? n) && (n <=? 122))%nat || Yaml.is_digit c || Ascii.eqb c "_"%char.

(** A row has a cell for every field. *)
Definition has_fields (fields : list string) (row : dict) : bool :=
  forallb (fun f => dict_in f row) fields.

(** Every field of the row is true in Python's sense. *)
Definition row_complete (fields : list string) (row : dict) : bool :=
  forallb (fun f => truthy (dict_get f PNone row)) fields.

(** The row cut down to the fields, in their order. *)
Definition project_row (fields : list string) (row : dict) : dict :=
  map (fun f => (f, dict_get f PNone row)) fields.

(** A stored column mapping with its three fields, all non-empty. *)
Definition complete_mapping (v : pyval) : Prop :=
  exists a b c,
    v = PDict [("tier_1", a); ("tier_2", b); ("data_type", c)]
    /\ truthy a = true /\ truthy b = true /\ truthy c = true.

(** The columns held by a session's table section. *)
Definition stored_columns (s : session) : option pyval :=
  py_path (table_config s) ["columns"].

(** The text a field ends with: what the user typed, else the stored
    string, else the default. *)
Definition text_choice (user : option string) (k default : string) (d : dict)
  : string :=
  match user with
  | Some t => t
  | None =>
      match dict_lookup k d with
      | Some (PStr v) => v
      | _ => default
      end
  end.

(** The ten text fields of the source section: key, widget input and
    default (lines 441-513). *)
Definition source_text_fields
  : list (string * (source_ui -> option string) * string) :=
  [ ("source_system", src_source_system, "");
    ("catalog", src_catalog, "${catalog}");
    ("delay_day", src_delay_day, "1");
    ("landing_bucket", src_landing_bucket, "${tier0_bucket}");
    ("persisted_bucket", src_persisted_bucket, "${tier1_bucket}");
    ("data_timezone", src_data_timezone, "UTC");
    ("control_file_landing_location", src_control_file_landing_location,
     "/ctl/${source_system}/${table}/${data_date}/");
    ("data_file_landing_location", src_data_file_landing_location,
     "/data/${source_system}/${table}/${data_date}/");
    ("control_file_regex", src_control_file_regex, "*.ctl");
    ("data_file_regex", src_data_file_regex, "*.csv") ].

(** The source form with no widget touched. *)
Definition untouched_source : source_ui :=
  {| src_source_system := None; src_catalog := None; src_delay_day := None;
     src_active_flag := None; src_landing_bucket := None;
     src_persisted_bucket := None; src_data_timezone := None;
     src_control_file_landing_location := None;
     src_data_file_landing_location := None;
     src_control_file_regex := None; src_data_file_regex := None;
     src_control_header := None; src_control_delimiter := None;
     src_data_header := None; src_data_delimiter := None;
     src_quote := None; src_escape := None; src_charset := None |}.

Definition is_string_at (k : string) (d : dict) : Prop :=
  exists v, dict_lookup k d = Some (PStr v).

Definition is_bool_at (k : string) (d : dict) : Prop :=
  exists b, dict_lookup k d = Some (PBool b).

Definition is_flag_at (k : string) (d : dict) : Prop :=
  dict_lookup k d = Some (PStr "y") \/ dict_lookup k d = Some (PStr "n").

(** A source section as the form leaves it: every field present and of
    its type. *)
Definition source_settled (c : dict) : Prop :=
  (forall k get default,
      In (k, get, default) source_text_fields -> is_string_at k c)
  /\ is_flag_at "active_flag" c
  /\ (exists f, dict_lookup "control_file_format" c = Some (PDict f)
                /\ is_bool_at "header" f /\ is_string_at "delimiter" f)
  /\ (exists f, dict_lookup "data_file_format" c = Some (PDict f)
                /\ is_bool_at "header" f /\ is_string_at "delimiter" f
                /\ is_string_at "quote" f /\ is_string_at "escape" f
                /\ is_string_at "charset" f).

(** The keys the field part of the source form assigns. *)
Definition source_field_keys : list string :=
  "active_flag" :: map (fun f => fst (fst f)) source_text_fields.

(** The stored format record under [k], or the empty record when there is
    none. *)
Definition stored_format (k : string) (c : dict) : dict :=
  match dict_lookup k c with
  | Some (PDict f) => f
  | _ => []
  end.

(** A name that survives the comma-separated text box: no comma in it
    and no white space around it. *)
Definition plain_name (x : string) : bool :=
  Yaml.string_forallb (fun c => negb (Ascii.eqb c ","%char)) x
  && (strip x =? x).

(** A stored quality rule as the validator form writes it: a non-empty
    rule name and a non-empty list of column names. *)
Definition well_formed_rule (v : pyval) : Prop :=
  exists (rule : pyval) (columns : list string),
    v = PDict [("rule", rule); ("column", PList (map PStr columns))]
    /\ truthy rule = true /\ columns <> [].

(** The rules stored for a tier of the validator section. *)
Definition stored_rules (tier : string) (s : session) : option pyval :=
  py_path (validator_config s) [tier; "data_quality_rules"].

(** The record a lookup gives, or the empty record. *)
Definition record_of (o : option pyval) : dict :=
  match o with
  | Some (PDict d) => d
  | _ => []
  end.

(** The record stored for a tier of the table section, empty when there
    is none. *)
Definition stored_tier (tier : string) (s : session) : dict :=
  record_of (py_path (table_config s) ["metadata"; tier]).

(** A stored quality rule that the rule editor shows and reads back
    unchanged: a non-empty rule name and column names that survive the
    comma-separated cell, not all of them empty. *)
Definition plain_rule (v : pyval) : Prop :=
  exists (rule : pyval) (columns : list string),
    v = PDict [("rule", rule); ("column", PList (map PStr columns))]
    /\ truthy rule = true
    /\ forallb plain_name columns = true
    /\ String.concat ", " columns <> EmptyString.

(** A validator section as the form leaves it, with plain rules. *)
Definition validator_settled (vc : dict) : Prop :=
  exists (t1 t2 : dict) (r1 r2 : list pyval),
    dict_lookup "tier1" vc = Some (PDict t1)
    /\ dict_lookup "tier2" vc = Some (PDict t2)
    /\ is_flag_at "control_file_flag" t1
    /\ dict_lookup "data_quality_rules" t1 = Some (PList r1)
    /\ Forall plain_rule r1
    /\ dict_lookup "data_quality_rules" t2 = Some (PList r2)
    /\ Forall plain_rule r2.

(** The validator form left as it is shown. *)
Definition untouched_validator : validator_ui :=
  {| val_control_file_flag := None;
     val_tier1_rules := keep_rows;
     val_tier2_rules := keep_rows |}.

(** A value that is not a dictionary. *)
Definition not_a_dict (v : pyval) : bool :=
  match v with
  | PDict _ => false
  | _ => true
  end.

(** The session as the sidebar leaves it before the upload is read: with
    the template loaded when the button is pressed. *)
Definition after_template (ui : sidebar_ui) (s : session) : session :=
  fst (if ui_load_template ui
       then load_template (selectbox template_options 0 (ui_template_option ui)) s
       else (s, [])).

(** The page the sidebar's navigation selects. *)
Definition selected_section (ui : main_ui) : string :=
  selectbox sections 0 (ui_section (m_sidebar ui)).

(** The sidebar left alone: no template loaded and no file uploaded. *)
Definition sidebar_idle (ui : sidebar_ui) : bool :=
  negb (ui_load_template ui)
  && match ui_uploaded_file ui with None => true | Some _ => false end.

(** * Properties *)

(** ** The YAML codec *)

Module YamlFacts.
Import Yaml.

Lemma append_nil_r_local (s : string) : (s ++ "")%string = s.
Proof. induction s as [| c s IH]; cbn [append]; [| rewrite IH]; reflexivity. Qed.

Lemma append_assoc_local (a b c : string) :
  (a ++ (b ++ c))%string = ((a ++ b) ++ c)%string.
Proof. induction a as [| x a IH]; cbn [append]; [| rewrite IH]; reflexivity. Qed.

(** *** Characters *)

Lemma plain_char_not_colon (c : ascii) : plain_char c = true -> c <> colon.
Proof. intros H ->. discriminate H. Qed.

Lemma plain_char_not_newline (c : ascii) : plain_char c = true -> c <> newline.
Proof. intros H ->. discriminate H. Qed.

Lemma plain_first_char (c : ascii) :
  plain_first c = true ->
  plain_char c = true /\ c <> quote_char /\ c <> space /\ c <> "-"%char.
Proof.
  intro H. split; [| repeat split; intros ->; discriminate H].
  unfold plain_first in H. unfold plain_char.
  apply orb_prop in H as [H | H].
  - rewrite H. reflexivity.
  - simpl in H. simpl.
    destruct (Ascii.eqb c "_"); [rewrite ?orb_true_r; reflexivity |].
    destruct (Ascii.eqb c "/"); [rewrite ?orb_true_r; reflexivity |].
    destruct (Ascii.eqb c "$"); [rewrite ?orb_true_r; reflexivity |].
    discriminate H.
Qed.

Lemma plain_ok_inv (s : string) :
  plain_ok s = true ->
  exists c r,
    s = String c r /\ plain_first c = true
    /\ string_forallb plain_char s = true
    /\ resolve_plain s = PStr s.
Proof.
  destruct s as [| c r]; [discriminate |].
  unfold plain_ok. intro H.
  apply andb_prop in H as [H Hres]. apply andb_prop in H as [H _].
  apply andb_prop in H as [Hfirst Hrest].
  exists c, r. split; [reflexivity |]. split; [exact Hfirst |]. split.
  - cbn [string_forallb]. rewrite Hrest.
    destruct (plain_first_char c Hfirst) as [-> _]. reflexivity.
  - revert Hres. unfold resolve_plain.
    repeat (destruct (existsb _ _); [discriminate |]).
    repeat (destruct (_ =? _); [discriminate |]). reflexivity.
Qed.

(** *** Quoting *)

Lemma unquote_escape (s rest : string) :
  unquote (escape s ++ String quote_char rest) = Some (s, rest).
Proof.
  induction s as [| c s IH]; cbn [escape append unquote].
  - rewrite Ascii.eqb_refl. reflexivity.
  - destruct (Ascii.eqb c backslash) eqn:Eb.
    + apply Ascii.eqb_eq in Eb. subst c.
      cbn [append unquote]. 
      change (Ascii.eqb backslash quote_char) with false.
      rewrite Ascii.eqb_refl. cbv iota.
      change (Ascii.eqb backslash "n") with false. cbv iota.
      rewrite IH. reflexivity.
    + destruct (Ascii.eqb c quote_char) eqn:Eq.
      * apply Ascii.eqb_eq in Eq. subst c.
        cbn [append unquote].
        change (Ascii.eqb backslash quote_char) with false.
        rewrite Ascii.eqb_refl. cbv iota.
        change (Ascii.eqb quote_char "n") with false.
        change (Ascii.eqb quote_char backslash) with false.
        rewrite Ascii.eqb_refl. cbv iota.
        rewrite IH. reflexivity.
      * destruct (Ascii.eqb c newline) eqn:En.
        -- apply Ascii.eqb_eq in En. subst c.
           cbn [append unquote].
           change (Ascii.eqb backslash quote_char) with false.
           rewrite Ascii.eqb_refl. cbv iota.
           change (Ascii.eqb "n" "n") with true. cbv iota.
           rewrite IH. reflexivity.
        -- cbn [append unquote]. rewrite Eq, Eb, IH. reflexivity.
Qed.

Lemma scan_plain_key (s rest : string) :
  string_forallb plain_char s = true ->
  match rest with
  | EmptyString => True
  | String c _ => c = space
  end ->
  scan_plain (s ++ String colon rest) = (s, String colon rest).
Proof.
  intros Hs Hrest. induction s as [| c s IH]; cbn [append scan_plain].
  - rewrite Ascii.eqb_refl.
    destruct rest as [| c' r]; [reflexivity |].
    subst c'. rewrite Ascii.eqb_refl. reflexivity.
  - cbn [string_forallb] in Hs. apply andb_prop in Hs as [Hc Hs].
    assert (Hne : Ascii.eqb c colon = false).
    { apply Ascii.eqb_neq. apply plain_char_not_colon. exact Hc. }
    rewrite Hne. cbn [andb]. rewrite (IH Hs). reflexivity.
Qed.

Lemma scan_plain_all (s : string) :
  string_forallb plain_char s = true ->
  scan_plain s = (s, EmptyString).
Proof.
  intros Hs. induction s as [| c s IH]; cbn [scan_plain].
  - reflexivity.
  - cbn [string_forallb] in Hs. apply andb_prop in Hs as [Hc Hs].
    assert (Hne : Ascii.eqb c colon = false).
    { apply Ascii.eqb_neq. apply plain_char_not_colon. exact Hc. }
    rewrite Hne. cbn [andb]. rewrite (IH Hs). reflexivity.
Qed.

(** *** Tokens *)

Lemma read_tok_atom (s : string) :
  read_tok s
  = match read_atom s with
    | None => None
    | Some (is_quoted, a, rest) =>
        match rest with
        | EmptyString =>
            Some (TScalar (if is_quoted : bool then PStr a else resolve_plain a))
        | String ":" EmptyString => Some (TKey a)
        | String ":" (String " " r) =>
            match read_scalar r with
            | Some v => Some (TKeyVal a v)
            | None => None
            end
        | _ => None
        end
    end.
Proof. destruct s; reflexivity. Qed.

(** Reading back a string written by [str_text], whatever follows it in
    a key position. *)
Lemma read_atom_str (k rest : string) :
  rest = EmptyString
  \/ (exists r, rest = String colon r
                /\ match r with EmptyString => True | String c _ => c = space end) ->
  read_atom (str_text k ++ rest) = Some (negb (plain_ok k), k, rest).
Proof.
  intro Hrest. unfold str_text.
  destruct (plain_ok k) eqn:Hp.
  - destruct (plain_ok_inv k Hp) as (c & r & Hk & Hfirst & Hall & _).
    destruct (plain_first_char c Hfirst) as (_ & Hq & _).
    apply Ascii.eqb_neq in Hq.
    assert (Hscan : scan_plain (k ++ rest) = (k, rest)).
    { destruct Hrest as [-> | (r' & -> & Hr')].
      - rewrite append_nil_r_local. apply scan_plain_all. exact Hall.
      - apply scan_plain_key; assumption. }
    revert Hscan. rewrite Hk. cbn [append read_atom]. rewrite Hq.
    intros ->. reflexivity.
  - unfold quoted. cbn [append read_atom]. rewrite Ascii.eqb_refl.
    rewrite <- append_assoc_local. cbn [append].
    rewrite unquote_escape. reflexivity.
Qed.

Lemma str_text_first (k : string) :
  exists c r, str_text k = String c r
              /\ c <> space /\ c <> "-"%char /\ c <> newline.
Proof.
  unfold str_text. destruct (plain_ok k) eqn:Hp.
  - destruct (plain_ok_inv k Hp) as (c & r & Hk & Hfirst & _).
    destruct (plain_first_char c Hfirst) as (Hpc & _ & Hs & Hd).
    exists c, r. repeat split; try assumption.
    apply plain_char_not_newline. exact Hpc.
  - eexists _, _. split; [reflexivity |]. repeat split; discriminate.
Qed.

Lemma read_scalar_text (v : pyval) :
  is_block v = false -> read_scalar (scalar_text v) = Some v.
Proof.
  destruct v as [| [|] | s | [| x l] | [| kx d]]; try discriminate;
    intros _; try reflexivity.
  cbn [scalar_text]. unfold str_text.
  destruct (plain_ok s) eqn:Hp.
  - destruct (plain_ok_inv s Hp) as (c & r & Hk & Hfirst & _ & Hres).
    destruct (plain_first_char c Hfirst) as (_ & Hq & _).
    apply Ascii.eqb_neq in Hq.
    revert Hres. rewrite Hk. intro Hres.
    unfold read_scalar. rewrite Hq, Hres. reflexivity.
  - unfold quoted, read_scalar. rewrite Ascii.eqb_refl.
    rewrite unquote_escape. reflexivity.
Qed.

Lemma read_tok_text (t : tok) :
  match t with
  | TScalar v | TKeyVal _ v => is_block v = false
  | TKey _ => True
  end ->
  read_tok (tok_text t) = Some t.
Proof.
  destruct t as [v | k | k v]; intro Hok; rewrite read_tok_atom.
  - destruct v as [| [|] | s | [| x l] | [| kx d]]; try discriminate;
      try reflexivity.
    cbn [tok_text scalar_text].
    rewrite <- (append_nil_r_local (str_text s)).
    rewrite read_atom_str by (left; reflexivity).
    unfold str_text.
    destruct (plain_ok s) eqn:Hp; cbn [negb]; [| reflexivity].
    destruct (plain_ok_inv s Hp) as (c & r & _ & _ & _ & Hres).
    rewrite Hres. reflexivity.
  - cbn [tok_text].
    rewrite read_atom_str
      by (right; exists EmptyString; split; [reflexivity | exact I]).
    reflexivity.
  - cbn [tok_text].
    rewrite read_atom_str
      by (right; eexists; split; [reflexivity | reflexivity]).
    cbn [append]. change colon with ":"%char.
    rewrite (read_scalar_text v Hok). reflexivity.
Qed.

(** *** Lines *)

Lemma no_newline_app (a b : string) :
  no_newline (a ++ b) = no_newline a && no_newline b.
Proof.
  unfold no_newline. induction a as [| c a IH]; cbn [append string_forallb].
  - reflexivity.
  - rewrite IH, andb_assoc. reflexivity.
Qed.

Lemma no_newline_escape (s : string) : no_newline (escape s) = true.
Proof.
  unfold no_newline. induction s as [| c s IH]; cbn [escape string_forallb].
  - reflexivity.
  - destruct (Ascii.eqb c backslash) eqn:Eb; [exact IH |].
    destruct (Ascii.eqb c quote_char) eqn:Eq; [exact IH |].
    destruct (Ascii.eqb c newline) eqn:En; [exact IH |].
    cbn [string_forallb]. rewrite En. exact IH.
Qed.

Lemma no_newline_plain (s : string) :
  string_forallb plain_char s = true -> no_newline s = true.
Proof.
  unfold no_newline. induction s as [| c s IH]; cbn [string_forallb].
  - reflexivity.
  - intro H. apply andb_prop in H as [Hc Hs].
    rewrite (IH Hs), andb_true_r.
    apply negb_true_iff, Ascii.eqb_neq, plain_char_not_newline. exact Hc.
Qed.

Lemma no_newline_str_text (s : string) : no_newline (str_text s) = true.
Proof.
  unfold str_text. destruct (plain_ok s) eqn:Hp.
  - destruct (plain_ok_inv s Hp) as (c & r & _ & _ & Hall & _).
    apply no_newline_plain. exact Hall.
  - unfold quoted. change (String quote_char (escape s ++ String quote_char ""))
      with (String quote_char "" ++ (escape s ++ String quote_char ""))%string.
    rewrite !no_newline_app, no_newline_escape. reflexivity.
Qed.

Lemma no_newline_scalar_text (v : pyval) : no_newline (scalar_text v) = true.
Proof.
  destruct v as [| [|] | s | l | d]; try reflexivity.
  apply no_newline_str_text.
Qed.

Lemma no_newline_tok_text (t : tok) : no_newline (tok_text t) = true.
Proof.
  destruct t as [v | k | k v]; cbn [tok_text];
    rewrite ?no_newline_app, ?no_newline_str_text, ?no_newline_scalar_text;
    reflexivity.
Qed.

Lemma no_newline_spaces (n : nat) : no_newline (spaces n) = true.
Proof. induction n as [| n IH]; [reflexivity | exact IH]. Qed.

Lemma no_newline_dashes (k : nat) : no_newline (dashes k) = true.
Proof. induction k as [| k IH]; [reflexivity | exact IH]. Qed.

Lemma no_newline_line_text (l : pline) : no_newline (line_text l) = true.
Proof.
  unfold line_text.
  rewrite !no_newline_app, no_newline_spaces, no_newline_dashes,
    no_newline_tok_text. reflexivity.
Qed.

Lemma tok_text_first (t : tok) :
  exists c r, tok_text t = String c r /\ c <> space /\ c <> "-"%char.
Proof.
  destruct t as [v | k | k v]; cbn [tok_text].
  - destruct v as [| [|] | s | l | d]; cbn [scalar_text];
      try (eexists _, _; split; [reflexivity |]; split; discriminate).
    destruct (str_text_first s) as (c & r & -> & Hs & Hd & _).
    exists c, r. auto.
  - destruct (str_text_first k) as (c & r & -> & Hs & Hd & _).
    eexists c, _. split; [reflexivity | auto].
  - destruct (str_text_first k) as (c & r & -> & Hs & Hd & _).
    eexists c, _. split; [reflexivity | auto].
Qed.

Lemma strip_indent_spaces (n : nat) (c : ascii) (r : string) :
  c <> space ->
  strip_indent (spaces n ++ String c r) = (n, String c r).
Proof.
  intro Hc. apply Ascii.eqb_neq in Hc.
  induction n as [| n IH]; cbn [spaces append strip_indent].
  - rewrite Hc. reflexivity.
  - rewrite Ascii.eqb_refl, IH. reflexivity.
Qed.

Lemma strip_dashes_dashes (k : nat) (c : ascii) (r : string) :
  c <> "-"%char ->
  strip_dashes (dashes k ++ String c r) = (k, String c r).
Proof.
  intro Hc.
  induction k as [| k IH]; cbn [dashes append strip_dashes].
  - destruct c as [[] [] [] [] [] [] [] []]; try reflexivity.
    congruence.
  - rewrite IH. reflexivity.
Qed.

Lemma read_line_text (l : pline) :
  line_ok l = true -> read_line (line_text l) = Some l.
Proof.
  intro Hok. destruct l as [n k t]. unfold line_text, read_line.
  cbn [l_indent l_dashes l_tok].
  destruct (tok_text_first t) as (c & r & Ht & Hs & Hd).
  assert (Hbody : exists c' r', (dashes k ++ tok_text t)%string = String c' r'
                                /\ c' <> space).
  { destruct k as [| k]; cbn [dashes append].
    - exists c, r. auto.
    - eexists _, _. split; [reflexivity | discriminate]. }
  destruct Hbody as (c' & r' & Hb & Hs').
  rewrite Hb, (strip_indent_spaces n c' r' Hs'), <- Hb.
  rewrite Ht, (strip_dashes_dashes k c r Hd), <- Ht.
  rewrite read_tok_text; [reflexivity |].
  unfold line_ok in Hok. cbn [l_tok] in Hok.
  destruct t; [apply negb_true_iff; exact Hok | exact I
              | apply negb_true_iff; exact Hok].
Qed.

Lemma line_text_not_blank (l : pline) :
  string_forallb (Ascii.eqb space) (line_text l) = false.
Proof.
  destruct l as [n k t]. unfold line_text. cbn [l_indent l_dashes l_tok].
  destruct (tok_text_first t) as (c & r & Ht & Hs & Hd).
  assert (Hbody : exists c' r', (dashes k ++ tok_text t)%string = String c' r'
                                /\ c' <> space).
  { destruct k as [| k]; cbn [dashes append].
    - exists c, r. auto.
    - eexists _, _. split; [reflexivity | discriminate]. }
  destruct Hbody as (c' & r' & -> & Hs').
  induction n as [| n IH]; cbn [spaces append string_forallb].
  - assert (H : Ascii.eqb space c' = false).
    { apply Ascii.eqb_neq. congruence. }
    rewrite H. reflexivity.
  - rewrite IH, andb_false_r. reflexivity.
Qed.

Lemma split_lines_line (l rest : string) :
  no_newline l = true ->
  split_lines (l ++ String newline rest) = l :: split_lines rest.
Proof.
  unfold no_newline. induction l as [| c l IH];
    cbn [append split_lines string_forallb].
  - rewrite Ascii.eqb_refl. reflexivity.
  - intro H. apply andb_prop in H as [Hc Hl].
    apply negb_true_iff in Hc. rewrite Hc, (IH Hl). reflexivity.
Qed.

Lemma read_lines_text (ls : list pline) :
  forallb line_ok ls = true ->
  read_lines (split_lines (unlines (map line_text ls))) = Some ls.
Proof.
  induction ls as [| l ls IH]; cbn [map unlines forallb].
  - reflexivity.
  - intro H. apply andb_prop in H as [Hl Hls].
    rewrite split_lines_line by apply no_newline_line_text.
    cbn [read_lines]. rewrite line_text_not_blank.
    rewrite (read_line_text l Hl), (IH Hls). reflexivity.
Qed.

(** *** Structure *)

Lemma emit_list (n : nat) (x : pyval) (l : list pyval) :
  emit n (PList (x :: l)) = List.concat (map (item_lines n) (x :: l)).
Proof. reflexivity. Qed.

Lemma emit_dict (n : nat) (kx : string * pyval) (d : dict) :
  emit n (PDict (kx :: d)) = List.concat (map (entry_lines n) (kx :: d)).
Proof. reflexivity. Qed.

Lemma emit_scalar (n : nat) (v : pyval) :
  is_block v = false -> emit n v = [mkLine n 0 (TScalar v)].
Proof.
  destruct v as [| b | s | [| x l] | [| kx d]]; try discriminate; reflexivity.
Qed.

Lemma emit_head (v : pyval) :
  forall n, exists k t more,
    emit n v = mkLine n k t :: more
    /\ (match v with PList (_ :: _) => k <> 0 | _ => k = 0 end).
Proof.
  induction v using pyval_nested_ind; intro n;
    try (eexists 0, _, _; split; reflexivity).
  - destruct l as [| x l].
    + eexists 0, _, _; split; reflexivity.
    + rewrite emit_list. cbn [map List.concat]. unfold item_lines at 1.
      inversion H as [| ? ? Hx _]; subst.
      destruct (Hx (n + 2)) as (k & t & more & -> & _).
      cbn [add_dash l_dashes l_tok app].
      eexists (S k), t, _. split; [reflexivity | discriminate].
  - destruct d as [| [k x] d].
    + eexists 0, _, _; split; reflexivity.
    + rewrite emit_dict. cbn [map List.concat]. unfold entry_lines at 1.
      destruct (is_block x); eexists 0, _, _; split; reflexivity.
Qed.

Lemma item_lines_head (n : nat) (x : pyval) :
  exists k t more,
    item_lines n x = mkLine n (S k) t :: more
    /\ emit (n + 2) x = mkLine (n + 2) k t :: more.
Proof.
  unfold item_lines.
  destruct (emit_head x (n + 2)) as (k & t & more & -> & _).
  exists k, t, more. split; reflexivity.
Qed.

Lemma entry_lines_head (n : nat) (kx : string * pyval) :
  exists t more, entry_lines n kx = mkLine n 0 t :: more.
Proof.
  destruct kx as [k x]. unfold entry_lines.
  destruct (is_block x); eexists _, _; reflexivity.
Qed.

(** *** The parser, one step at a time *)

Lemma parse_value_scalar (f n : nat) (v : pyval) (rest : list pline) :
  parse_value (S f) n (mkLine n 0 (TScalar v) :: rest) = Some (v, rest).
Proof.
  cbn [parse_value l_indent l_dashes l_tok]. rewrite Nat.eqb_refl. reflexivity.
Qed.

Lemma parse_value_list (f n k : nat) (t : tok) (rest : list pline) :
  parse_value (S f) n (mkLine n (S k) t :: rest)
  = match parse_items f n (mkLine n (S k) t :: rest) with
    | Some (vs, rest') => Some (PList vs, rest')
    | None => None
    end.
Proof.
  cbn [parse_value l_indent l_dashes l_tok]. rewrite Nat.eqb_refl. reflexivity.
Qed.

Lemma parse_value_dict (f n : nat) (t : tok) (rest : list pline) :
  is_key t = true ->
  parse_value (S f) n (mkLine n 0 t :: rest)
  = match parse_entries f n (mkLine n 0 t :: rest) with
    | Some (es, rest') => Some (PDict (dict_of_entries es), rest')
    | None => None
    end.
Proof.
  intro Ht. cbn [parse_value l_indent l_dashes l_tok]. rewrite Nat.eqb_refl.
  destruct t; [discriminate Ht | reflexivity | reflexivity].
Qed.

Lemma parse_items_item (f n k : nat) (t : tok) (rest : list pline) :
  parse_items (S f) n (mkLine n (S k) t :: rest)
  = match parse_value f (n + 2) (mkLine (n + 2) k t :: rest) with
    | Some (v, rest1) =>
        match parse_items f n rest1 with
        | Some (vs, rest2) => Some (v :: vs, rest2)
        | None => None
        end
    | None => None
    end.
Proof.
  cbn [parse_items l_indent l_dashes l_tok]. rewrite Nat.eqb_refl. reflexivity.
Qed.

Lemma parse_items_stop (f n : nat) (rest : list pline) :
  list_end n rest -> parse_items (S f) n rest = Some ([], rest).
Proof.
  destruct rest as [| l rest]; [reflexivity |].
  cbn [list_end parse_items]. intros [Hlt | [_ Hz]].
  - destruct (l_dashes l); [reflexivity |].
    assert (H : (l_indent l =? n)%nat = false) by (apply Nat.eqb_neq; lia).
    rewrite H. reflexivity.
  - rewrite Hz. reflexivity.
Qed.

Lemma parse_entries_stop (f n : nat) (rest : list pline) :
  below n rest -> parse_entries (S f) n rest = Some ([], rest).
Proof.
  destruct rest as [| l rest]; [reflexivity |].
  cbn [below parse_entries]. intro Hlt.
  assert (H : (l_indent l =? n)%nat = false) by (apply Nat.eqb_neq; lia).
  rewrite H. reflexivity.
Qed.

Lemma parse_entries_keyval (f n : nat) (k : string) (v : pyval) (rest : list pline) :
  parse_entries (S f) n (mkLine n 0 (TKeyVal k v) :: rest)
  = match parse_entries f n rest with
    | Some (es, rest') => Some ((k, v) :: es, rest')
    | None => None
    end.
Proof.
  cbn [parse_entries l_indent l_dashes l_tok]. rewrite Nat.eqb_refl. reflexivity.
Qed.

Lemma parse_entries_key (f n : nat) (k : string) (l' : pline) (rest : list pline) :
  n < l_indent l' \/ (l_indent l' = n /\ l_dashes l' <> 0) ->
  parse_entries (S f) n (mkLine n 0 (TKey k) :: l' :: rest)
  = match parse_value f (l_indent l') (l' :: rest) with
    | Some (v, rest1) =>
        match parse_entries f n rest1 with
        | Some (es, rest2) => Some ((k, v) :: es, rest2)
        | None => None
        end
    | None => None
    end.
Proof.
  intro H. cbn [parse_entries l_indent l_dashes l_tok]. rewrite Nat.eqb_refl.
  cbn [negb].
  assert (Hc : ((n <? l_indent l') || ((l_indent l' =? n) && negb (l_dashes l' =? 0)))%nat
               = true).
  { destruct H as [H | [H1 H2]].
    - apply Nat.ltb_lt in H. rewrite H. reflexivity.
    - apply Nat.eqb_eq in H1. apply Nat.eqb_neq in H2.
      rewrite H1, H2. apply orb_true_r. }
  rewrite Hc. reflexivity.
Qed.

(** *** Mappings with distinct keys *)

Lemma distinct_NoDup (ks : list string) : distinct ks = true <-> NoDup ks.
Proof.
  induction ks as [| k ks IH]; cbn [distinct].
  - split; [constructor | reflexivity].
  - rewrite andb_true_iff, negb_true_iff, IH. split.
    + intros [Hk Hks]. constructor; [| exact Hks].
      intro Hin. apply Bool.not_true_iff_false in Hk. apply Hk.
      apply existsb_exists. exists k. split; [exact Hin | apply String.eqb_refl].
    + intro H. inversion H as [| ? ? Hk Hks]; subst. split; [| exact Hks].
      apply Bool.not_true_iff_false. intro Hex.
      apply existsb_exists in Hex as (k' & Hin & Heq).
      apply String.eqb_eq in Heq. subst k'. contradiction.
Qed.

Lemma dict_set_fresh (k : string) (v : pyval) (d : dict) :
  ~ In k (map fst d) -> dict_set k v d = d ++ [(k, v)].
Proof.
  induction d as [| [k' v'] d IH]; cbn [dict_set map fst app In].
  - reflexivity.
  - intro H. destruct (k' =? k) eqn:E.
    + apply String.eqb_eq in E. tauto.
    + rewrite IH by tauto. reflexivity.
Qed.

Lemma fold_dict_set (es acc : dict) :
  NoDup (map fst acc ++ map fst es) ->
  fold_left (fun d (kv : string * pyval) => dict_set (fst kv) (snd kv) d) es acc
  = acc ++ es.
Proof.
  revert acc. induction es as [| [k v] es IH]; intros acc Hnd; cbn [fold_left].
  - rewrite app_nil_r. reflexivity.
  - cbn [map fst snd] in *.
    pose proof (NoDup_remove_2 _ _ _ Hnd) as Hk.
    rewrite dict_set_fresh
      by (intro Hin; apply Hk; apply in_or_app; left; exact Hin).
    rewrite IH.
    + rewrite <- app_assoc. reflexivity.
    + rewrite map_app, <- app_assoc. exact Hnd.
Qed.

Lemma dict_of_entries_distinct (d : dict) :
  distinct (map fst d) = true -> dict_of_entries d = d.
Proof.
  intro H. unfold dict_of_entries. apply distinct_NoDup in H.
  rewrite fold_dict_set; [reflexivity | exact H].
Qed.

(** *** Reading back what was written *)

Lemma below_follow (v : pyval) (n : nat) (rest : list pline) :
  below n rest -> follow v n rest.
Proof.
  unfold follow. destruct v as [| | | [| x l] |]; try tauto.
  destruct rest; cbn [below list_end]; tauto.
Qed.

Lemma below_after_items (n : nat) (l : list pyval) (rest : list pline) :
  list_end n rest ->
  below (n + 2) (List.concat (map (item_lines n) l) ++ rest).
Proof.
  intro H. destruct l as [| x l]; cbn [map List.concat app].
  - destruct rest; cbn [below list_end] in *; [exact I | lia].
  - destruct (item_lines_head n x) as (k & t & more & -> & _).
    cbn [app below l_indent]. lia.
Qed.

Lemma below_after_entries (n : nat) (d : dict) (rest : list pline) :
  below n rest ->
  below (n + 2) (List.concat (map (entry_lines n) d) ++ rest)
  /\ list_end n (List.concat (map (entry_lines n) d) ++ rest).
Proof.
  intro H. destruct d as [| kx d]; cbn [map List.concat app].
  - destruct rest; cbn [below list_end] in *; [tauto | lia].
  - destruct (entry_lines_head n kx) as (t & more & ->).
    cbn [app below list_end l_indent l_dashes]. lia.
Qed.

Lemma parse_items_emit (n : nat) (l : list pyval) :
  Forall round_trips l ->
  forallb wf_val l = true ->
  forall (rest : list pline) (fuel : nat),
    S (items_size l) <= fuel ->
    list_end n rest ->
    parse_items fuel n (List.concat (map (item_lines n) l) ++ rest)
    = Some (l, rest).
Proof.
  induction l as [| x l IH]; intros Hall Hwf rest fuel Hfuel Hend.
  - destruct fuel as [| f]; [lia |].
    cbn [map List.concat app]. apply parse_items_stop. exact Hend.
  - inversion Hall as [| ? ? Hx Hl]; subst.
    cbn [forallb] in Hwf. apply andb_prop in Hwf as [Hwx Hwl].
    cbn [items_size fold_right] in Hfuel. fold (items_size l) in Hfuel.
    destruct fuel as [| f]; [lia |].
    cbn [map List.concat]. rewrite <- app_assoc.
    destruct (item_lines_head n x) as (k & t & more & Hitem & Hemit).
    rewrite Hitem. cbn [app]. rewrite parse_items_item.
    change (mkLine (n + 2) k t :: more ++ List.concat (map (item_lines n) l) ++ rest)
      with ((mkLine (n + 2) k t :: more)
            ++ List.concat (map (item_lines n) l) ++ rest).
    rewrite <- Hemit.
    rewrite (Hx Hwx (n + 2) _ f);
      [| lia | apply below_follow, below_after_items; exact Hend].
    rewrite (IH Hl Hwl rest f); [reflexivity | lia | exact Hend].
Qed.

Lemma parse_entries_emit (n : nat) (d : dict) :
  Forall (fun kx => round_trips (snd kx)) d ->
  forallb (fun kx => wf_val (snd kx)) d = true ->
  forall (rest : list pline) (fuel : nat),
    S (entries_size d) <= fuel ->
    below n rest ->
    parse_entries fuel n (List.concat (map (entry_lines n) d) ++ rest)
    = Some (d, rest).
Proof.
  induction d as [| [k x] d IH]; intros Hall Hwf rest fuel Hfuel Hend.
  - destruct fuel as [| f]; [lia |].
    cbn [map List.concat app]. apply parse_entries_stop. exact Hend.
  - inversion Hall as [| ? ? Hx Hd]; subst. cbn [snd] in Hx.
    cbn [forallb snd] in Hwf. apply andb_prop in Hwf as [Hwx Hwd].
    cbn [entries_size fold_right snd] in Hfuel. fold (entries_size d) in Hfuel.
    destruct fuel as [| f]; [lia |].
    cbn [map List.concat]. rewrite <- app_assoc.
    destruct (below_after_entries n d rest Hend) as [Hbelow Hlist].
    unfold entry_lines at 1.
    destruct (is_block x) eqn:Hblock.
    + set (n' := match x with PList _ => n | _ => n + 2 end).
      destruct (emit_head x n') as (k' & t' & more & Hemit & Hk').
      cbn [app]. rewrite Hemit. cbn [app].
      rewrite parse_entries_key.
      * cbn [l_indent].
        change (mkLine n' k' t' :: more ++ List.concat (map (entry_lines n) d) ++ rest)
          with ((mkLine n' k' t' :: more)
                ++ List.concat (map (entry_lines n) d) ++ rest).
        rewrite <- Hemit.
        rewrite (Hx Hwx n' _ f).
        -- rewrite (IH Hd Hwd rest f); [reflexivity | lia | exact Hend].
        -- lia.
        -- subst n'. destruct x as [| | | [| y l] | [| ky e]];
             try discriminate Hblock.
           ++ exact Hlist.
           ++ exact Hbelow.
      * cbn [l_indent l_dashes]. subst n'.
        destruct x as [| | | [| y l] | [| ky e]]; try discriminate Hblock.
        -- right. split; [reflexivity | exact Hk'].
        -- left. lia.
    + cbn [app]. rewrite parse_entries_keyval.
      rewrite (IH Hd Hwd rest f); [reflexivity | lia | exact Hend].
Qed.

Lemma parse_emit (v : pyval) : round_trips v.
Proof.
  induction v using pyval_nested_ind; unfold round_trips;
    intros Hwf n rest fuel Hfuel Hfollow;
    try (destruct fuel as [| f]; [cbn [size] in Hfuel; lia |];
         apply parse_value_scalar).
  - destruct l as [| x l].
    + destruct fuel as [| f]; [cbn [size] in Hfuel; lia |].
      apply parse_value_scalar.
    + cbn [wf_val] in Hwf. cbn [size] in Hfuel. fold (items_size (x :: l)) in Hfuel.
      destruct fuel as [| f]; [lia |].
      pose proof (parse_items_emit n (x :: l) H Hwf rest f) as Hitems.
      rewrite emit_list.
      destruct (item_lines_head n x) as (k & t & more & Hitem & _).
      revert Hitems. cbn [map List.concat]. rewrite Hitem. cbn [app].
      intro Hitems. rewrite parse_value_list.
      rewrite Hitems; [reflexivity | lia | exact Hfollow].
  - destruct d as [| [k x] d].
    + destruct fuel as [| f]; [cbn [size] in Hfuel; lia |].
      apply parse_value_scalar.
    + cbn [wf_val] in Hwf. apply andb_prop in Hwf as [Hkeys Hwf].
      cbn [size] in Hfuel. fold (entries_size ((k, x) :: d)) in Hfuel.
      destruct fuel as [| f]; [lia |].
      pose proof (parse_entries_emit n ((k, x) :: d) H Hwf rest f) as Hentries.
      rewrite emit_dict.
      assert (Hhead : exists t more,
                 entry_lines n (k, x) = mkLine n 0 t :: more /\ is_key t = true).
      { unfold entry_lines. destruct (is_block x); eexists _, _; split; reflexivity. }
      destruct Hhead as (t & more & Hentry & Hkey).
      revert Hentries. cbn [map List.concat]. rewrite Hentry. cbn [app].
      intro Hentries. rewrite (parse_value_dict f n t _ Hkey).
      rewrite Hentries; [| lia | exact Hfollow].
      rewrite (dict_of_entries_distinct _ Hkeys). reflexivity.
Qed.

(** *** Every written line can be read *)

Lemma forallb_concat {A : Type} (p : A -> bool) (ls : list (list A)) :
  forallb (forallb p) ls = true -> forallb p (List.concat ls) = true.
Proof.
  induction ls as [| l ls IH]; cbn [forallb List.concat].
  - reflexivity.
  - intro H. apply andb_prop in H as [Hl Hls].
    rewrite forallb_app, Hl, (IH Hls). reflexivity.
Qed.

Lemma emit_lines_ok (v : pyval) :
  forall n, forallb line_ok (emit n v) = true.
Proof.
  induction v using pyval_nested_ind; intro n; try reflexivity.
  - destruct l as [| x l]; [reflexivity |].
    rewrite emit_list. apply forallb_concat.
    rewrite forallb_forall. intros ls Hin.
    apply in_map_iff in Hin as (y & <- & Hy).
    rewrite Forall_forall in H. specialize (H y Hy (n + 2)).
    unfold item_lines. destruct (emit (n + 2) y) as [| l0 more]; [reflexivity |].
    cbn [add_dash forallb] in *. exact H.
  - destruct d as [| kx d]; [reflexivity |].
    rewrite emit_dict. apply forallb_concat.
    rewrite forallb_forall. intros ls Hin.
    apply in_map_iff in Hin as ([k y] & <- & Hy).
    rewrite Forall_forall in H. specialize (H (k, y) Hy). cbn [snd] in H.
    unfold entry_lines. destruct (is_block y) eqn:Hb.
    + cbn [forallb]. rewrite H. reflexivity.
    + cbn [forallb]. unfold line_ok. cbn [l_tok]. rewrite Hb. reflexivity.
Qed.

(** *** The fuel of the loader is enough *)

Lemma weight_app (a b : list pline) : weight (a ++ b) = weight a + weight b.
Proof.
  induction a as [| l a IH]; cbn [app weight]; [reflexivity | rewrite IH; lia].
Qed.

Lemma weight_item_lines (n : nat) (x : pyval) :
  weight (item_lines n x) = S (weight (emit (n + 2) x)).
Proof.
  destruct (item_lines_head n x) as (k & t & more & -> & ->).
  cbn [weight l_dashes]. lia.
Qed.

Lemma size_scalar_like (v : pyval) : is_block v = false -> size v <= 2.
Proof.
  destruct v as [| | | [| x l] | [| kx d]]; try discriminate; cbn [size fold_right]; lia.
Qed.

Lemma size_le_weight (v : pyval) :
  forall n, size v <= 5 * weight (emit n v).
Proof.
  induction v using pyval_nested_ind; intro n;
    try (cbn [size emit weight l_dashes]; lia).
  - destruct l as [| x l]; [cbn [size emit weight l_dashes fold_right]; lia |].
    rewrite emit_list. cbn [size]. fold (items_size (x :: l)).
    assert (Hsum : forall l', Forall (fun v => forall n, size v <= 5 * weight (emit n v)) l' ->
               items_size l' + 4 * List.length l'
               <= 5 * weight (List.concat (map (item_lines n) l'))).
    { induction l' as [| y l' IH]; intro Hall.
      - cbn; lia.
      - inversion Hall as [| ? ? Hy Hl']; subst.
        cbn [items_size fold_right map List.concat List.length].
        fold (items_size l').
        rewrite weight_app, weight_item_lines.
        specialize (Hy (n + 2)). specialize (IH Hl'). lia. }
    specialize (Hsum (x :: l) H). cbn [List.length] in Hsum. lia.
  - destruct d as [| kx d]; [cbn [size emit weight l_dashes fold_right]; lia |].
    rewrite emit_dict. cbn [size]. fold (entries_size (kx :: d)).
    assert (Hsum : forall d', Forall (fun kx => forall n, size (snd kx) <= 5 * weight (emit n (snd kx))) d' ->
               entries_size d' + 2 * List.length d'
               <= 5 * weight (List.concat (map (entry_lines n) d'))).
    { induction d' as [| [k y] d' IH]; intro Hall.
      - cbn; lia.
      - inversion Hall as [| ? ? Hy Hd']; subst. cbn [snd] in Hy.
        cbn [entries_size fold_right map List.concat List.length snd].
        fold (entries_size d').
        rewrite weight_app. specialize (IH Hd').
        unfold entry_lines at 1. destruct (is_block y) eqn:Hb.
        + cbn [weight l_dashes].
          specialize (Hy (match y with PList _ => n | _ => n + 2 end)). lia.
        + cbn [weight l_dashes]. pose proof (size_scalar_like y Hb). lia. }
    specialize (Hsum (kx :: d) H). cbn [List.length] in Hsum. lia.
Qed.

(** *** Round trip of the codec *)

Lemma safe_load_emit (v : pyval) :
  wf_val v = true ->
  safe_load (unlines (map line_text (emit 0 v))) = Ok v.
Proof.
  intro Hwf. unfold safe_load.
  rewrite read_lines_text by apply emit_lines_ok.
  destruct (emit_head v 0) as (k & t & more & Hemit & _).
  pose proof (parse_emit v Hwf 0 [] (8 * weight (emit 0 v))) as Hparse.
  rewrite app_nil_r in Hparse.
  rewrite Hemit in *. cbn [l_indent].
  rewrite Hparse; [reflexivity | |].
  - rewrite <- Hemit. pose proof (size_le_weight v 0). lia.
  - unfold follow. destruct v as [| | | [| ? ?] |]; exact I.
Qed.

(** *** Sorted keys *)

Example dump_block_style :
  dump false
    (PDict [ ("table_config",
              PDict [ ("columns", PList [column_mapping "a" "b" "string"]);
                      ("partition_columns", PList []) ]);
             ("source_config", PDict [("catalog", PStr "${catalog}")]) ])
  = "table_config:
  columns:
  - tier_1: a
    tier_2: b
    data_type: string
  partition_columns: []
source_config:
  catalog: ${catalog}
".
Proof. vm_compute. reflexivity. Qed.

Example dump_sorted_keys :
  dump true
    (PDict [ ("table_config",
              PDict [ ("columns", PList [column_mapping "a" "b" "string"]);
                      ("partition_columns", PList []) ]);
             ("source_config", PDict [("catalog", PStr "${catalog}")]) ])
  = "source_config:
  catalog: ${catalog}
table_config:
  columns:
  - data_type: string
    tier_1: a
    tier_2: b
  partition_columns: []
".
Proof. vm_compute. reflexivity. Qed.

Lemma insert_sorted_perm (kv : string * pyval) (d : dict) :
  Permutation (insert_sorted kv d) (kv :: d).
Proof.
  induction d as [| kv' d IH]; cbn [insert_sorted].
  - apply Permutation_refl.
  - destruct (String.leb (fst kv) (fst kv')).
    + apply Permutation_refl.
    + eapply Permutation_trans; [apply perm_skip, IH | apply perm_swap].
Qed.

Lemma sort_entries_perm (d : dict) : Permutation (sort_entries d) d.
Proof.
  induction d as [| kv d IH]; cbn [sort_entries fold_right].
  - apply Permutation_refl.
  - eapply Permutation_trans; [apply insert_sorted_perm | apply perm_skip, IH].
Qed.

Lemma wf_sort_keys (v : pyval) :
  wf_val v = true -> wf_val (sort_keys_rec v) = true.
Proof.
  induction v using pyval_nested_ind; intro Hwf; try reflexivity.
  - cbn [sort_keys_rec wf_val] in *.
    rewrite forallb_forall in *. intros y Hy.
    apply in_map_iff in Hy as (x & <- & Hx).
    rewrite Forall_forall in H. apply H; [exact Hx | apply Hwf; exact Hx].
  - cbn [sort_keys_rec wf_val] in *.
    apply andb_prop in Hwf as [Hkeys Hvals].
    set (d' := map (fun kx : string * pyval => (fst kx, sort_keys_rec (snd kx))) d).
    pose proof (sort_entries_perm d') as Hperm.
    apply andb_true_intro. split.
    + apply distinct_NoDup. apply distinct_NoDup in Hkeys.
      eapply Permutation_NoDup;
        [apply Permutation_sym, Permutation_map, Hperm |].
      unfold d'. rewrite map_map. cbn [fst]. exact Hkeys.
    + rewrite forallb_forall in *. intros kx Hin.
      apply (Permutation_in _ Hperm) in Hin. unfold d' in Hin.
      apply in_map_iff in Hin as (kx0 & <- & Hin0). cbn [snd].
      rewrite Forall_forall in H. apply H; [exact Hin0 | apply Hvals; exact Hin0].
Qed.

Lemma safe_load_dump (sort_keys : bool) (v : pyval) :
  wf_val v = true ->
  safe_load (dump sort_keys v) = Ok (if sort_keys then sort_keys_rec v else v).
Proof.
  intro Hwf. unfold dump. apply safe_load_emit.
  destruct sort_keys; [apply wf_sort_keys |]; exact Hwf.
Qed.

End YamlFacts.

(** ** Supported data types *)

(** C8, as the specification spells the list: the fifth entry is written
    there without a space, and that spelling is not in the program's
    list, so the two lists do not have the same members. *)
Lemma supported_types_spelling_differs :
  ~ (forall t : string,
        In t SUPPORTED_DATA_TYPES <->
        In t [ "string"; "int"; "bigint"; "smallint"; "decimal(18,4)";
               "timestamp"; "date"; "boolean"; "float"; "double" ]).
Proof.
  intro H.
  assert (Hin : In "decimal(18,4)" SUPPORTED_DATA_TYPES).
  { apply H. simpl. tauto. }
  unfold SUPPORTED_DATA_TYPES in Hin. simpl in Hin.
  repeat (destruct Hin as [Hin | Hin]; [discriminate Hin |]).
  exact Hin.
Qed.

(** C8 (amended): the supported data-type set is exactly the ten names
    string, int, bigint, smallint, decimal(18, 4), timestamp, date,
    boolean, float, double, the decimal entry being spelled with a space
    after the comma; the list has ten entries and no repetition. *)
Theorem supported_data_types_exact :
  (forall t : string,
      is_supported t = true <->
      t = "string" \/ t = "int" \/ t = "bigint" \/ t = "smallint"
      \/ t = "decimal(18, 4)" \/ t = "timestamp" \/ t = "date"
      \/ t = "boolean" \/ t = "float" \/ t = "double")
  /\ List.length SUPPORTED_DATA_TYPES = 10
  /\ NoDup SUPPORTED_DATA_TYPES.
Proof.
  split; [| split].
  - intro t. unfold is_supported. rewrite existsb_exists. split.
    + intros [x [Hin Heq]]. apply String.eqb_eq in Heq. subst x.
      simpl in Hin. intuition congruence.
    + intro H. exists t. split; [| apply String.eqb_refl].
      simpl. intuition auto.
  - reflexivity.
  - unfold SUPPORTED_DATA_TYPES.
    repeat (constructor; [simpl; intuition discriminate |]).
    constructor.
Qed.

(** ** Templates *)

(** C10: after either template is loaded, the column list holds the
    mapping lvheaderkey -> lvheader_key whose data type, decimal(13, 2),
    is not a supported type, and a bulk upload of that same row is
    turned down for its type. *)
Theorem templates_hold_unsupported_type :
  forall s : session,
    let m := column_mapping "lvheaderkey" "lvheader_key" "decimal(13, 2)" in
    (exists cols,
        py_path (table_config (load_sales_transaction_template s)) ["columns"]
        = Some (PList cols) /\ In m cols)
    /\ (exists cols,
        py_path (table_config (load_pos_branch_template s)) ["columns"]
        = Some (PList cols) /\ In m cols)
    /\ is_supported "decimal(13, 2)" = false
    /\ bulk_check
         {| df_columns := MAPPING_FIELDS;
            df_rows := [ [ ("tier_1", PStr "lvheaderkey");
                           ("tier_2", PStr "lvheader_key");
                           ("data_type", PStr "decimal(13, 2)") ] ] |}
       = Ok (BulkUnsupported "Found unsupported data types: decimal(13, 2)").
Proof.
  intros s m. repeat split.
  - exists sales_columns. split; [reflexivity |].
    unfold sales_columns, m. simpl. intuition auto 40.
  - exists sales_columns. split; [reflexivity |].
    unfold sales_columns, m. simpl. intuition auto 40.
Qed.

(** C6: what the POS Branch loader leaves in the session.  Its validator
    and table sections are the Sales Transaction ones: tier 2 is
    txn_sales_order_header with load type scd1 and no historical columns,
    and nothing of the branch table section set first remains. *)
Theorem pos_branch_template_overwritten :
  forall s : session,
    let pos := load_pos_branch_template s in
    let sales := load_sales_transaction_template s in
    validator_config pos = validator_config sales
    /\ table_config pos = table_config sales
    /\ py_path (table_config pos) tier2_table_path
       = Some (PStr "txn_sales_order_header")
    /\ py_path (table_config pos) ["metadata"; "tier2"; "load_type"]
       = Some (PStr "scd1")
    /\ py_path (table_config pos) ["metadata"; "tier2"; HISTORICAL] = None
    /\ table_config pos <> branch_table_config
    /\ validator_config pos <> branch_validator_config
    /\ source_config pos <> source_config sales.
Proof.
  intros s pos sales. repeat split; try discriminate.
Qed.

(** C7, as stated: every name outside the implemented templates ends in
    an error.  "Customer Master Template" is such a name and loading it
    shows no error. *)
Lemma unknown_template_is_not_an_error :
  ~ (forall (name : string) (s : session),
        name <> "POS Branch Template" ->
        name <> "Sales Transaction Template" ->
        existsb is_error (snd (load_template name s)) = true).
Proof.
  intro H.
  specialize (H "Customer Master Template" initial_session).
  simpl in H. discriminate H; discriminate.
Qed.

(** C7 (amended): loading a template name that is not one of the two
    implemented templates leaves the session as it was and raises no
    error; a name other than "None" gets the notice "<name> not
    implemented yet", and "None" gets no message at all. *)
Theorem unknown_template_leaves_session :
  forall (name : string) (s : session),
    name <> "POS Branch Template" ->
    name <> "Sales Transaction Template" ->
    load_template name s
    = (s, if name =? "None" then []
          else [SidebarInfo (name ++ " not implemented yet")])
    /\ existsb is_error (snd (load_template name s)) = false.
Proof.
  intros name s Hpos Hsales.
  unfold load_template.
  apply String.eqb_neq in Hpos. apply String.eqb_neq in Hsales.
  rewrite Hpos, Hsales.
  destruct (name =? "None"); simpl; split; reflexivity.
Qed.

Lemma unknown_template_leaves_session_witness :
  load_template "Customer Master Template" initial_session
  = (initial_session,
     [SidebarInfo "Customer Master Template not implemented yet"]).
Proof.
  apply (unknown_template_leaves_session "Customer Master Template"
           initial_session); discriminate.
Defined.

(** ** Export *)

Lemma dict_get_truthy (k : string) (d : dict) :
  truthy (dict_get k PNone d) = negb (empty_or_absent (dict_lookup k d)).
Proof.
  unfold dict_get. destruct (dict_lookup k d); simpl;
    [rewrite negb_involutive |]; reflexivity.
Qed.

Lemma dict_get_truthy_str (k : string) (d : dict) :
  truthy (dict_get k (PStr "") d) = negb (empty_or_absent (dict_lookup k d)).
Proof.
  unfold dict_get. destruct (dict_lookup k d); simpl;
    [rewrite negb_involutive |]; reflexivity.
Qed.

Lemma py_path_one (k : string) (d : dict) :
  py_path (PDict d) [k] = dict_lookup k d.
Proof.
  cbn [py_path]. destruct (dict_lookup k d); reflexivity.
Qed.

Lemma py_path_cons (k : string) (rest : list string) (d : dict) :
  py_path (PDict d) (k :: rest)
  = match dict_lookup k d with Some x => py_path x rest | None => None end.
Proof. reflexivity. Qed.

(** The lookups of the form, on a well-shaped session, agree with walking
    the paths. *)
Lemma tier_table_lookup (tier : string) (tc : dict) :
  is_dict_or_absent (py_path (PDict tc) ["metadata"]) = true ->
  is_dict_or_absent (py_path (PDict tc) ["metadata"; tier]) = true ->
  exists tier_meta,
    bind (py_get (PDict tc) "metadata" (PDict []))
         (fun metadata => py_get metadata tier (PDict []))
    = Ok (PDict tier_meta)
    /\ dict_lookup "table" tier_meta
       = py_path (PDict tc) ["metadata"; tier; "table"].
Proof.
  rewrite py_path_one, !py_path_cons.
  cbn [py_get bind]. unfold dict_get.
  destruct (dict_lookup "metadata" tc) as [md |].
  - destruct md; cbn [is_dict_or_absent py_get py_path]; try discriminate.
    intros _. unfold dict_get.
    destruct (dict_lookup tier d) as [tm |].
    + destruct tm; cbn [is_dict_or_absent py_path]; try discriminate.
      intros _. eexists; split; [reflexivity |].
      destruct (dict_lookup "table" _); reflexivity.
    + intros _. exists []. split; reflexivity.
  - intros _ _. exists []. split; reflexivity.
Qed.

Lemma well_shaped_inv (s : session) :
  well_shaped s = true ->
  exists sc tc,
    source_config s = PDict sc /\ table_config s = PDict tc
    /\ is_dict_or_absent (py_path (PDict tc) ["metadata"]) = true
    /\ is_dict_or_absent (py_path (PDict tc) ["metadata"; "tier1"]) = true
    /\ is_dict_or_absent (py_path (PDict tc) ["metadata"; "tier2"]) = true.
Proof.
  unfold well_shaped.
  destruct (source_config s) as [| | | |sc]; try discriminate.
  destruct (table_config s) as [| | | |tc]; try discriminate.
  intro H. apply andb_prop in H as [H H3]. apply andb_prop in H as [H1 H2].
  exists sc, tc. auto.
Qed.

Lemma check_required_fields_messages (s : session) :
  well_shaped s = true ->
  check_required_fields s
  = Ok (match expected_messages s with [] => true | _ => false end,
        expected_messages s).
Proof.
  intro Hs.
  destruct (well_shaped_inv s Hs) as (sc & tc & Hsc & Htc & Hmd & H1 & H2).
  destruct (tier_table_lookup "tier1" tc Hmd H1) as (t1 & Ht1 & Hl1).
  destruct (tier_table_lookup "tier2" tc Hmd H2) as (t2 & Ht2 & Hl2).
  unfold check_required_fields, expected_messages, source_system_missing,
    tier1_table_missing, tier2_table_missing, columns_missing,
    tier1_table_path, tier2_table_path.
  rewrite Hsc, Htc. rewrite <- Hl1, <- Hl2.
  unfold bind in Ht1, Ht2.
  change (py_get (PDict sc) "source_system" PNone)
    with (Ok (dict_get "source_system" PNone sc)).
  cbn [bind].
  destruct (py_get (PDict tc) "metadata" (PDict [])) as [md | e];
    [| discriminate Ht1].
  cbn [bind]. rewrite Ht1. cbn [bind]. rewrite Ht2. cbn [bind].
  change (py_get (PDict t1) "table" PNone) with (Ok (dict_get "table" PNone t1)).
  change (py_get (PDict t2) "table" PNone) with (Ok (dict_get "table" PNone t2)).
  change (py_get (PDict tc) "columns" PNone) with (Ok (dict_get "columns" PNone tc)).
  cbn [bind]. rewrite !dict_get_truthy, !negb_involutive, !py_path_one.
  destruct (empty_or_absent (dict_lookup "source_system" sc));
    destruct (empty_or_absent (dict_lookup "table" t1));
    destruct (empty_or_absent (dict_lookup "table" t2));
    destruct (empty_or_absent (dict_lookup "columns" tc)); reflexivity.
Qed.

(** C1, as stated: the issue list is non-empty exactly when one of the
    two table names or the column list is missing, and three issues are
    reported when all three are.  With only the source system missing the
    list is non-empty although none of the three is missing; and the
    initial document, where all three are missing, gets four issues. *)
Lemma validator_also_requires_source_system :
  check_required_fields sales_without_source
  = Ok (false, ["Source system is required"])
  /\ tier1_table_missing sales_without_source = false
  /\ tier2_table_missing sales_without_source = false
  /\ columns_missing sales_without_source = false
  /\ tier1_table_missing initial_session = true
  /\ tier2_table_missing initial_session = true
  /\ columns_missing initial_session = true
  /\ (exists flag msgs,
        check_required_fields initial_session = Ok (flag, msgs)
        /\ List.length msgs = 4).
Proof.
  repeat split.
  exists false. eexists. split; reflexivity.
Qed.

(** C1 (amended): on a well-shaped document the export-time validator
    returns a non-empty issue list if and only if at least one of
    source_system, tier1.table, tier2.table or the column-mapping list
    is empty or absent; it reports every violated condition at once, one
    message each, in that order; the flag it keeps says whether the list
    is empty.  A document in which both table names and the column list
    are empty gets exactly 3 issues when its source system is set, and 4
    when it is not. *)
Theorem validator_reports_every_missing_field :
  forall s : session,
    well_shaped s = true ->
    exists (flag : bool) (msgs : list string),
      check_required_fields s = Ok (flag, msgs)
      /\ msgs = expected_messages s
      /\ (flag = false <-> msgs <> [])
      /\ (msgs <> [] <->
          source_system_missing s = true \/ tier1_table_missing s = true
          \/ tier2_table_missing s = true \/ columns_missing s = true)
      /\ (tier1_table_missing s = true -> tier2_table_missing s = true ->
          columns_missing s = true ->
          List.length msgs = if source_system_missing s then 4 else 3).
Proof.
  intros s Hs.
  exists (match expected_messages s with [] => true | _ => false end),
         (expected_messages s).
  split; [apply check_required_fields_messages; exact Hs |].
  split; [reflexivity |].
  unfold expected_messages.
  destruct (source_system_missing s), (tier1_table_missing s),
    (tier2_table_missing s), (columns_missing s); simpl;
    repeat split; try discriminate; try congruence; try tauto;
    intuition discriminate.
Qed.

Lemma validator_reports_every_missing_field_witness :
  exists (flag : bool) (msgs : list string),
    check_required_fields sales_without_source = Ok (flag, msgs)
    /\ msgs = ["Source system is required"].
Proof.
  destruct (validator_reports_every_missing_field sales_without_source eq_refl)
    as (flag & msgs & Hrun & Hmsgs & _).
  exists flag, msgs. split; [exact Hrun | exact Hmsgs].
Defined.

(** C9: the default output file name.  When the source system and the
    tier 2 table name are both non-empty strings it is
    "<source_system>_<tier2_table>.yml"; on a well-shaped document where
    either is empty or absent it is "pipeline_config.yml". *)
Theorem default_filename_spec :
  forall s : session,
    (forall a b : string,
        py_path (source_config s) ["source_system"] = Some (PStr a) ->
        py_path (table_config s) tier2_table_path = Some (PStr b) ->
        a <> "" -> b <> "" ->
        default_filename s = Ok (a ++ "_" ++ b ++ ".yml")%string)
    /\ (well_shaped s = true ->
        source_system_missing s = true \/ tier2_table_missing s = true ->
        default_filename s = Ok "pipeline_config.yml").
Proof.
  intro s. split.
  - intros a b Ha Hb Hna Hnb.
    unfold default_filename, tier2_table_path in *.
    destruct (source_config s) as [| | | |sc]; try discriminate Ha.
    destruct (table_config s) as [| | | |tc]; try discriminate Hb.
    rewrite py_path_one in Ha. rewrite !py_path_cons in Hb.
    cbn [py_get bind]. unfold dict_get at 1 2. rewrite Ha.
    destruct (dict_lookup "metadata" tc) as [md |]; [| discriminate Hb].
    destruct md as [| | | |md]; try discriminate Hb.
    rewrite py_path_cons in Hb. cbn [py_get bind]. unfold dict_get at 1.
    destruct (dict_lookup "tier2" md) as [t2 |]; [| discriminate Hb].
    destruct t2 as [| | | |t2]; try discriminate Hb.
    rewrite py_path_one in Hb. cbn [py_get bind]. unfold dict_get.
    rewrite Hb. cbn [truthy].
    apply String.eqb_neq in Hna. apply String.eqb_neq in Hnb.
    rewrite Hna, Hnb. cbn [negb andb]. unfold dict_get. rewrite Ha.
    reflexivity.
  - intros Hs Hmiss.
    destruct (well_shaped_inv s Hs) as (sc & tc & Hsc & Htc & Hmd & _ & H2).
    destruct (tier_table_lookup "tier2" tc Hmd H2) as (t2 & Ht2 & Hl2).
    unfold default_filename, source_system_missing, tier2_table_missing,
      tier2_table_path in *.
    rewrite Hsc, Htc in *. rewrite <- Hl2 in Hmiss.
    rewrite py_path_one in Hmiss.
    change (py_get (PDict sc) "source_system" (PStr ""))
      with (Ok (dict_get "source_system" (PStr "") sc)).
    cbn [bind]. unfold bind in Ht2.
    destruct (py_get (PDict tc) "metadata" (PDict [])) as [md | e];
      [| discriminate Ht2].
    cbn [bind]. rewrite Ht2. cbn [bind py_get].
    rewrite !dict_get_truthy_str.
    destruct Hmiss as [H | H]; rewrite H; cbn [negb andb];
      [reflexivity | rewrite andb_false_r; reflexivity].
Qed.

Lemma default_filename_spec_witness :
  default_filename (load_sales_transaction_template initial_session)
  = Ok "pos_txn_sales_order_header.yml"
  /\ default_filename initial_session = Ok "pipeline_config.yml".
Proof.
  split.
  - apply (proj1 (default_filename_spec
                    (load_sales_transaction_template initial_session))
             "pos" "txn_sales_order_header");
      [reflexivity | reflexivity | discriminate | discriminate].
  - apply (proj2 (default_filename_spec initial_session));
      [reflexivity | left; reflexivity].
Defined.

(** C2, as stated: a document that violates the export-time invariant
    produces no serialized text and no file.  The initial document has no
    table names and no columns; exporting it with "Save to File" pressed
    shows the serialized text and writes it to the default file. *)
Lemma export_not_blocked_by_issues :
  exists (msgs : list string) (out : list ui_msg) (fs' : filesystem),
    check_required_fields initial_session = Ok (false, msgs)
    /\ msgs <> []
    /\ render_generate_yaml save_pressed initial_session empty_fs
       = Ok (initial_session, out, fs')
    /\ In (StCode (Yaml.dump false (combined_config initial_session))) out
    /\ file_lookup "./pipeline_configs/pipeline_config.yml" (fs_files fs')
       = Some (Yaml.dump false (combined_config initial_session)).
Proof.
  do 3 eexists.
  split; [reflexivity |].
  split; [discriminate |].
  split; [vm_compute; reflexivity |].
  split; [vm_compute; tauto | vm_compute; reflexivity].
Qed.

Lemma path_join_nonempty (a b : string) :
  a <> "" -> path_join a b <> "".
Proof.
  intro Ha. unfold path_join.
  destruct b as [| c b'].
  - cbn [String.prefix]. destruct ((a =? "") || ends_with_slash a).
    + destruct a; [congruence | discriminate].
    + destruct a; [congruence | discriminate].
  - destruct (String.prefix "/" (String c b')); [discriminate |].
    destruct ((a =? "") || ends_with_slash a);
      destruct a; try congruence; discriminate.
Qed.

Lemma is_dir_cons (p q : string) (dirs : list string) (files : list (string * string)) :
  is_dir p (mkFs (q :: dirs) files) = (p =? q) || is_dir p (mkFs dirs files).
Proof. reflexivity. Qed.

(** Saving into a directory that is free (or already a directory), under
    a file name that is not taken by a directory, writes the file. *)
Lemma save_to_file_writes (config : pyval) (filename dir : string) (fs : filesystem) :
  dir <> "" ->
  is_file dir fs = false ->
  path_join dir filename <> dir ->
  is_dir (path_join dir filename) fs = false ->
  exists fs',
    save_to_file config filename dir fs = (fs', Ok (path_join dir filename))
    /\ file_lookup (path_join dir filename) (fs_files fs')
       = Some (Yaml.dump false config).
Proof.
  intros Hdir Hfile Hneq Hnodir.
  pose proof (path_join_nonempty dir filename Hdir) as Hpath.
  apply String.eqb_neq in Hdir, Hneq, Hpath.
  unfold save_to_file, path_exists, create_yaml_file, makedirs, write_file.
  rewrite Hfile, Hdir, orb_false_r.
  destruct fs as [dirs files]. unfold is_file in *. cbn [fs_files fs_dirs] in *.
  destruct (is_dir dir (mkFs dirs files)) eqn:Hd; cbn [negb].
  - cbn [fs_files]. rewrite Hfile, Hd, Hpath, Hnodir.
    eexists. split; [reflexivity |].
    cbn [fs_files file_lookup]. rewrite String.eqb_refl. reflexivity.
  - cbn [fs_files fs_dirs]. rewrite Hfile.
    rewrite is_dir_cons, String.eqb_refl. cbn [orb].
    rewrite Hpath, is_dir_cons, Hneq, Hnodir. cbn [orb fs_files fs_dirs].
    eexists. split; [reflexivity |].
    cbn [fs_files file_lookup]. rewrite String.eqb_refl. reflexivity.
Qed.

(** C2 (amended): export-time violations are shown (a warning for each
    violated condition) but do not block serialization.  For every
    well-shaped document the serialized text is produced whatever the
    checks say; the file system is untouched unless "Save to File" is
    pressed, and when it is pressed the text is written under the chosen
    name as soon as the file system accepts it; the in-memory document is
    the same before and after. *)
Theorem export_proceeds_despite_issues :
  forall (ui : generate_ui) (s : session) (fs : filesystem) (name : string),
    well_shaped s = true ->
    default_filename s = Ok name ->
    let text := Yaml.dump false (combined_config s) in
    let filename := match ui_filename ui with Some t => t | None => name end in
    let path := path_join (resolved_output_dir s) filename in
    exists (out : list ui_msg) (fs' : filesystem),
      render_generate_yaml ui s fs = Ok (s, out, fs')
      /\ In (StCode text) out
      /\ (forall m, In m (expected_messages s) -> In (StWarning m) out)
      /\ (ui_save ui = false -> fs' = fs)
      /\ (ui_save ui = true ->
          resolved_output_dir s <> "" ->
          is_file (resolved_output_dir s) fs = false ->
          path <> resolved_output_dir s ->
          is_dir path fs = false ->
          file_lookup path (fs_files fs') = Some text
          /\ In (StSuccess ("Configuration saved to " ++ path)) out).
Proof.
  intros ui s fs name Hs Hname text filename path.
  unfold render_generate_yaml.
  rewrite (check_required_fields_messages s Hs), Hname.
  cbn [bind].
  assert (Hinput : text_input (ui_filename ui) (PStr name) = Ok filename).
  { unfold filename. destruct (ui_filename ui); reflexivity. }
  rewrite Hinput. cbn [bind].
  fold (resolved_output_dir s). fold text.
  assert (Hwarn : forall (m : string) (rest : list ui_msg),
             In m (expected_messages s) ->
             In (StWarning m)
                ((if negb match expected_messages s with
                          | [] => true | _ :: _ => false end
                  then StError "Please fix the following errors:"
                       :: map StWarning (expected_messages s)
                  else []) ++ rest)).
  { intros m rest Hin. apply in_or_app. left.
    destruct (expected_messages s) as [| m0 l]; [destruct Hin |].
    cbn [negb]. right. apply in_map. exact Hin. }
  destruct (ui_save ui) eqn:Hsave.
  - destruct (save_to_file (combined_config s) filename (resolved_output_dir s) fs)
      as [fs' [file_path | e]] eqn:Hrun.
    + eexists. exists fs'. split; [reflexivity |].
      split; [apply in_or_app; right; left; reflexivity |].
      split; [intros m Hin; apply Hwarn; exact Hin |].
      split; [discriminate |].
      intros _ Hdir Hfile Hneq Hnodir.
      destruct (save_to_file_writes (combined_config s) filename
                  (resolved_output_dir s) fs Hdir Hfile Hneq Hnodir)
        as (fs2 & Hrun2 & Hlook).
      rewrite Hrun in Hrun2. injection Hrun2 as -> ->.
      split; [exact Hlook |].
      apply in_or_app. right. apply in_or_app. right.
      apply in_or_app. right. left. reflexivity.
    + eexists. exists fs'. split; [reflexivity |].
      split; [apply in_or_app; right; left; reflexivity |].
      split; [intros m Hin; apply Hwarn; exact Hin |].
      split; [discriminate |].
      intros _ Hdir Hfile Hneq Hnodir.
      destruct (save_to_file_writes (combined_config s) filename
                  (resolved_output_dir s) fs Hdir Hfile Hneq Hnodir)
        as (fs2 & Hrun2 & Hlook).
      rewrite Hrun in Hrun2. discriminate Hrun2.
  - eexists. exists fs. split; [reflexivity |].
    split; [apply in_or_app; right; left; reflexivity |].
    split; [intros m Hin; apply Hwarn; exact Hin |].
    split; [reflexivity | discriminate].
Qed.

Lemma export_proceeds_despite_issues_witness :
  exists (out : list ui_msg) (fs' : filesystem),
    render_generate_yaml save_pressed initial_session empty_fs
    = Ok (initial_session, out, fs')
    /\ In (StCode (Yaml.dump false (combined_config initial_session))) out
    /\ In (StWarning "Tier 1 table name is required") out
    /\ file_lookup "./pipeline_configs/pipeline_config.yml" (fs_files fs')
       = Some (Yaml.dump false (combined_config initial_session)).
Proof.
  destruct (export_proceeds_despite_issues save_pressed initial_session
              empty_fs "pipeline_config.yml" eq_refl eq_refl)
    as (out & fs' & Hrun & Hcode & Hwarn & _ & Hsave).
  exists out, fs'.
  split; [exact Hrun |].
  split; [exact Hcode |].
  split; [apply Hwarn; simpl; tauto |].
  apply Hsave; [reflexivity | discriminate | reflexivity | discriminate | reflexivity].
Defined.

(** ** Bulk import of column mappings *)

(** C4, as stated: the example upload yields the one accepted mapping
    (a, b, string) next to an error for the other row.  The upload is
    turned down as a whole: nothing is accepted, the message names the
    type and no row, and the document's columns stay as they were even
    with the confirmation pressed. *)
Lemma bulk_import_accepts_no_valid_row :
  bulk_accepted example_upload <> [column_mapping "a" "b" "string"]
  /\ bulk_accepted example_upload = []
  /\ bulk_check example_upload
     = Ok (BulkUnsupported "Found unsupported data types: notatype")
  /\ exists s',
       render_column_mappings
         {| ui_mappings_editor := keep_rows;
            ui_uploaded_csv := Some example_upload;
            ui_add_mappings := true |}
         (load_sales_transaction_template initial_session)
       = Ok (s', [StError "Found unsupported data types: notatype"])
       /\ py_path (table_config s') ["columns"] = Some (PList sales_columns).
Proof.
  split; [discriminate |].
  split; [reflexivity |].
  split; [reflexivity |].
  eexists. split; vm_compute; reflexivity.
Qed.

Lemma filter_negb_nil {A : Type} (p : A -> bool) (l : list A) :
  filter (fun x => negb (p x)) l = [] <-> forallb p l = true.
Proof.
  induction l as [| x l IH]; simpl.
  - tauto.
  - destruct (p x); simpl.
    + exact IH.
    + split; discriminate.
Qed.

Lemma required_columns_present (df : dataframe) :
  (forall c, In c MAPPING_FIELDS -> In c (df_columns df)) ->
  filter (fun col => negb (existsb (String.eqb col) (df_columns df))) MAPPING_FIELDS
  = [].
Proof.
  intro H. apply filter_negb_nil. apply forallb_forall.
  intros c Hc. apply existsb_exists. exists c.
  split; [apply H; exact Hc | apply String.eqb_refl].
Qed.

(** C4 (amended): bulk import is all-or-nothing.  For an upload that has
    the three required columns: when every row's data type is supported,
    every row is accepted, in order; when some row's data type is not,
    no row is accepted and the one error lists the distinct unsupported
    type names (not the rows they occur in). *)
Theorem bulk_import_all_or_nothing :
  forall df : dataframe,
    (forall c, In c MAPPING_FIELDS -> In c (df_columns df)) ->
    (forallb row_supported (df_rows df) = true ->
     bulk_check df = Ok (BulkReady (map row_mapping (df_rows df)))
     /\ bulk_accepted df = map row_mapping (df_rows df))
    /\ (forallb row_supported (df_rows df) = false ->
        bulk_accepted df = []
        /\ forall names : string,
            py_join ", "
              (PList (unique []
                        (map (dict_get "data_type" PNone)
                             (filter (fun row => negb (row_supported row))
                                     (df_rows df)))))
            = Ok names ->
            bulk_check df
            = Ok (BulkUnsupported ("Found unsupported data types: " ++ names))).
Proof.
  intros df Hcols.
  pose proof (required_columns_present df Hcols) as Hmissing.
  unfold bulk_accepted, bulk_check. rewrite Hmissing.
  change (fun row : dict => negb (cell_supported (dict_get "data_type" PNone row)))
    with (fun row : dict => negb (row_supported row)).
  split; intro Hrows.
  - apply filter_negb_nil in Hrows. rewrite Hrows. split; reflexivity.
  - destruct (filter (fun row => negb (row_supported row)) (df_rows df))
      as [| bad more] eqn:Hbad.
    + apply filter_negb_nil in Hbad. congruence.
    + split.
      * destruct (py_join _ _); reflexivity.
      * intros names Hnames. rewrite Hnames. reflexivity.
Qed.

Lemma bulk_import_all_or_nothing_witness :
  bulk_accepted example_upload = []
  /\ bulk_check example_upload
     = Ok (BulkUnsupported "Found unsupported data types: notatype").
Proof.
  assert (Hcols : forall c, In c MAPPING_FIELDS -> In c (df_columns example_upload)).
  { intros c Hc. exact Hc. }
  destruct (proj2 (bulk_import_all_or_nothing example_upload Hcols) eq_refl)
    as [Hnone Hmsg].
  split; [exact Hnone |].
  apply (Hmsg "notatype"). reflexivity.
Defined.

(** ** Load type of tier 2 *)

Section DictFacts.

Variables (k : string) (v : pyval).

Lemma dict_lookup_set_same (d : dict) :
  dict_lookup k (dict_set k v d) = Some v.
Proof.
  induction d as [| [k' v'] d IH]; simpl.
  - rewrite String.eqb_refl. reflexivity.
  - destruct (k' =? k) eqn:E; simpl.
    + rewrite String.eqb_refl. reflexivity.
    + rewrite E. exact IH.
Qed.

Lemma dict_lookup_set_other (k2 : string) (d : dict) :
  k <> k2 -> dict_lookup k2 (dict_set k v d) = dict_lookup k2 d.
Proof.
  intro Hne. induction d as [| [k' v'] d IH]; simpl.
  - apply String.eqb_neq in Hne. rewrite Hne. reflexivity.
  - destruct (k' =? k) eqn:E; simpl.
    + apply String.eqb_eq in E. subst k'.
      apply String.eqb_neq in Hne. rewrite Hne. reflexivity.
    + rewrite IH. reflexivity.
Qed.

Lemma dict_lookup_del_same (d : dict) :
  dict_lookup k (dict_del k d) = None.
Proof.
  induction d as [| [k' v'] d IH]; simpl.
  - reflexivity.
  - destruct (k' =? k) eqn:E; simpl.
    + exact IH.
    + rewrite E. exact IH.
Qed.

Lemma dict_lookup_del_other (k2 : string) (d : dict) :
  k <> k2 -> dict_lookup k2 (dict_del k d) = dict_lookup k2 d.
Proof.
  intro Hne. induction d as [| [k' v'] d IH]; simpl.
  - reflexivity.
  - destruct (k' =? k) eqn:E; simpl.
    + apply String.eqb_eq in E. subst k'.
      apply String.eqb_neq in Hne. rewrite Hne. exact IH.
    + rewrite IH. reflexivity.
Qed.

End DictFacts.

Lemma dict_in_set_same (k : string) (v : pyval) (d : dict) :
  dict_in k (dict_set k v d) = true.
Proof. unfold dict_in. rewrite dict_lookup_set_same. reflexivity. Qed.

Lemma dict_in_del_same (k : string) (d : dict) :
  dict_in k (dict_del k d) = false.
Proof. unfold dict_in. rewrite dict_lookup_del_same. reflexivity. Qed.

Lemma pyval_eqb_str (v : pyval) (t : string) :
  pyval_eqb v (PStr t) = true <-> v = PStr t.
Proof.
  destruct v; simpl; split; try discriminate.
  - intro H. apply String.eqb_eq in H. congruence.
  - intro H. injection H as ->. apply String.eqb_refl.
Qed.

(** What [update_load_type] does, case by case on the stored load type. *)
Lemma update_load_type_cases (m : dict) (lt : pyval) :
  dict_lookup "load_type" m = Some lt ->
  update_load_type m
  = Ok (if pyval_eqb lt (PStr "scd2")
        then if empty_or_absent (dict_lookup HISTORICAL m)
             then dict_set HISTORICAL default_historical_load_columns m
             else m
        else if dict_in HISTORICAL m then dict_del HISTORICAL m else m).
Proof.
  intro Hlt. unfold update_load_type. cbn [py_item]. rewrite Hlt. cbn [bind].
  unfold dict_in, dict_get.
  destruct (pyval_eqb lt (PStr "scd2")); cbn [negb andb].
  - destruct (dict_lookup HISTORICAL m) as [h |]; cbn [negb orb empty_or_absent].
    + destruct (truthy h); reflexivity.
    + reflexivity.
  - destruct (dict_lookup HISTORICAL m); reflexivity.
Qed.

Lemma update_load_type_keeps_load_type (m m' : dict) :
  update_load_type m = Ok m' ->
  dict_lookup "load_type" m' = dict_lookup "load_type" m.
Proof.
  unfold update_load_type. cbn [py_item].
  destruct (dict_lookup "load_type" m) as [lt |] eqn:Hlt; [| discriminate].
  cbn [bind].
  destruct (_ && _).
  - intro H. injection H as <-.
    rewrite dict_lookup_set_other by discriminate. exact Hlt.
  - destruct (_ && _); intro H; injection H as <-.
    + rewrite dict_lookup_del_other by discriminate. exact Hlt.
    + exact Hlt.
Qed.

(** After [update_load_type] the key is there exactly for SCD2. *)
Lemma update_load_type_invariant (m : dict) (lt : pyval) :
  dict_lookup "load_type" m = Some lt ->
  exists m',
    update_load_type m = Ok m'
    /\ dict_lookup "load_type" m' = Some lt
    /\ (dict_in HISTORICAL m' = true <-> lt = PStr "scd2").
Proof.
  intro Hlt. eexists. split; [apply update_load_type_cases; exact Hlt |].
  destruct (pyval_eqb lt (PStr "scd2")) eqn:E.
  - apply pyval_eqb_str in E.
    destruct (empty_or_absent (dict_lookup HISTORICAL m)) eqn:Hh.
    + rewrite dict_lookup_set_other by discriminate.
      rewrite dict_in_set_same. tauto.
    + split; [exact Hlt |]. unfold dict_in.
      destruct (dict_lookup HISTORICAL m); [tauto | discriminate Hh].
  - assert (Hne : lt <> PStr "scd2").
    { intro H. apply pyval_eqb_str in H. congruence. }
    destruct (dict_in HISTORICAL m) eqn:Hin.
    + rewrite dict_lookup_del_other by discriminate.
      rewrite dict_in_del_same. split; [exact Hlt |]. split; [discriminate | tauto].
    + split; [exact Hlt |]. rewrite Hin. split; [discriminate | tauto].
Qed.

Lemma selectbox_load_type (index : nat) (user : option nat) :
  index < 2 ->
  selectbox ["scd1"; "scd2"] index user = "scd1"
  \/ selectbox ["scd1"; "scd2"] index user = "scd2".
Proof.
  intro Hi. unfold selectbox.
  destruct index as [| [| ?]]; [| | lia];
    (destruct user as [[| [| [| ?]]] |]; simpl; auto).
Qed.

(** After the selector the stored load type is one of the two options. *)
Lemma select_load_type_result (user : option nat) (m m' : dict) :
  select_load_type user m = Ok m' ->
  dict_lookup "load_type" m' = Some (PStr "scd1")
  \/ dict_lookup "load_type" m' = Some (PStr "scd2").
Proof.
  unfold select_load_type.
  set (index := if pyval_eqb (dict_get "load_type" (PStr "") m) (PStr "scd2")
                then 1 else 0).
  assert (Hi : index < 2) by (unfold index; destruct (pyval_eqb _ _); lia).
  intro H.
  assert (Hset : dict_lookup "load_type" m'
                 = Some (PStr (selectbox ["scd1"; "scd2"] index user))).
  { destruct (negb _) in H.
    - rewrite (update_load_type_keeps_load_type _ _ H).
      apply dict_lookup_set_same.
    - injection H as <-. apply dict_lookup_set_same. }
  rewrite Hset.
  destruct (selectbox_load_type index user Hi) as [-> | ->]; auto.
Qed.

(** The fields between the selector and the historical editor leave the
    load type and the historical columns alone. *)
Lemma render_tier2_fields_frame (ui : tier2_ui) (m m' : dict) :
  render_tier2_fields ui m = Ok m' ->
  dict_lookup "load_type" m' = dict_lookup "load_type" m
  /\ dict_lookup HISTORICAL m' = dict_lookup HISTORICAL m.
Proof.
  unfold render_tier2_fields.
  destruct (text_input (t2_schema ui) _) as [schema |]; [| discriminate].
  cbn [bind].
  destruct (text_input (t2_table ui) _) as [table |]; [| discriminate].
  cbn [bind].
  destruct (py_join _ _) as [pk |]; [| discriminate]. cbn [bind].
  destruct (text_input (t2_primary_keys ui) _) as [npk |]; [| discriminate].
  cbn [bind].
  destruct (py_join _ _) as [pc |]; [| discriminate]. cbn [bind].
  destruct (text_input (t2_partition_columns ui) _) as [npc |]; [| discriminate].
  cbn [bind].
  destruct (edit_rows _ _ _) as [tech |]; [| discriminate]. cbn [bind].
  intro H. injection H as <-.
  destruct (negb _);
    repeat (rewrite dict_lookup_set_other by discriminate); split; reflexivity.
Qed.

(** After the historical editor the key is there exactly for SCD2. *)
Lemma render_historical_invariant (editor : data_editor) (m m' : dict) (lt : pyval) :
  dict_lookup "load_type" m = Some lt ->
  render_historical editor m = Ok m' ->
  dict_lookup "load_type" m' = Some lt
  /\ (dict_in HISTORICAL m' = true <-> lt = PStr "scd2").
Proof.
  intros Hlt. unfold render_historical. cbn [py_item]. rewrite Hlt. cbn [bind].
  destruct (pyval_eqb lt (PStr "scd2")) eqn:E.
  - apply pyval_eqb_str in E.
    destruct (edit_rows _ _ _) as [hist |]; [| discriminate]. cbn [bind].
    intro H. injection H as <-.
    rewrite dict_in_set_same, dict_lookup_set_other by discriminate.
    destruct (negb _);
      [rewrite dict_lookup_set_other by discriminate |]; tauto.
  - assert (Hne : lt <> PStr "scd2").
    { intro H. apply pyval_eqb_str in H. congruence. }
    destruct (dict_in HISTORICAL m) eqn:Hin; intro H; injection H as <-.
    + rewrite dict_lookup_del_other by discriminate.
      rewrite dict_in_del_same. split; [exact Hlt |]. split; [discriminate | tauto].
    + rewrite Hin. split; [exact Hlt |]. split; [discriminate | tauto].
Qed.

Lemma select_scd2_creates_default (m : dict) :
  dict_get "load_type" (PStr "") m <> PStr "scd2" ->
  empty_or_absent (dict_lookup HISTORICAL m) = true ->
  exists m',
    select_load_type (Some 1) m = Ok m'
    /\ dict_lookup "load_type" m' = Some (PStr "scd2")
    /\ dict_lookup HISTORICAL m' = Some default_historical_load_columns.
Proof.
  intros Hprev Hnone. unfold select_load_type.
  destruct (pyval_eqb (dict_get "load_type" (PStr "") m) (PStr "scd2")) eqn:E.
  { apply pyval_eqb_str in E. contradiction. }
  cbv [selectbox nth]. rewrite E. cbn [negb].
  rewrite (update_load_type_cases _ (PStr "scd2"))
    by apply dict_lookup_set_same.
  change (pyval_eqb (PStr "scd2") (PStr "scd2")) with true. cbv iota.
  rewrite dict_lookup_set_other by discriminate. rewrite Hnone.
  eexists. split; [reflexivity |]. split.
  - rewrite dict_lookup_set_other by discriminate. apply dict_lookup_set_same.
  - apply dict_lookup_set_same.
Qed.

Lemma select_scd1_removes (m : dict) :
  dict_lookup "load_type" m = Some (PStr "scd2") ->
  exists m',
    select_load_type (Some 0) m = Ok m'
    /\ dict_lookup "load_type" m' = Some (PStr "scd1")
    /\ dict_in HISTORICAL m' = false.
Proof.
  intro Hprev. unfold select_load_type, dict_get. rewrite Hprev.
  change (pyval_eqb (PStr "scd2") (PStr "scd2")) with true.
  cbv [selectbox nth].
  change (negb (pyval_eqb (PStr "scd2") (PStr "scd1"))) with true.
  cbv iota.
  destruct (update_load_type_invariant
              (dict_set "load_type" (PStr "scd1") m) (PStr "scd1")
              (dict_lookup_set_same _ _ _)) as (m' & Hrun & Hlt & Hinv).
  exists m'. split; [exact Hrun |]. split; [exact Hlt |].
  destruct (dict_in HISTORICAL m'); [| reflexivity].
  assert (H : PStr "scd1" = PStr "scd2") by (apply Hinv; reflexivity).
  discriminate H.
Qed.

(** C3: the load-type transition of tier 2.  [update_load_type], run on a
    record whose load type has just been set: (1) to scd2 with no
    historical columns before (key absent or value empty), stores
    exactly the three default columns; (2) to scd1, removes the key;
    (3) for either value, leaves the key present exactly when the load
    type is scd2.  Through the form: (4) choosing scd2 on a record that
    was not scd2 and had no historical columns stores the three default
    columns, and choosing scd1 on an scd2 record removes the key;
    (5) after every pass of the tier 2 form the stored load type is scd1
    or scd2 and the key is present exactly for scd2; (6) when the user
    leaves the historical editor as shown, the pass that switches to
    scd2 ends with exactly the three default columns. *)
Theorem load_type_transition :
  (forall m : dict,
      empty_or_absent (dict_lookup HISTORICAL m) = true ->
      exists m',
        update_load_type (dict_set "load_type" (PStr "scd2") m) = Ok m'
        /\ dict_lookup HISTORICAL m' = Some default_historical_load_columns)
  /\ (forall m : dict,
      exists m',
        update_load_type (dict_set "load_type" (PStr "scd1") m) = Ok m'
        /\ dict_in HISTORICAL m' = false)
  /\ (forall (m : dict) (lt : string),
      lt = "scd1" \/ lt = "scd2" ->
      exists m',
        update_load_type (dict_set "load_type" (PStr lt) m) = Ok m'
        /\ dict_lookup "load_type" m' = Some (PStr lt)
        /\ (dict_in HISTORICAL m' = true <-> lt = "scd2"))
  /\ (forall m : dict,
      (dict_get "load_type" (PStr "") m <> PStr "scd2" ->
       empty_or_absent (dict_lookup HISTORICAL m) = true ->
       exists m',
         select_load_type (Some 1) m = Ok m'
         /\ dict_lookup "load_type" m' = Some (PStr "scd2")
         /\ dict_lookup HISTORICAL m' = Some default_historical_load_columns)
      /\ (dict_lookup "load_type" m = Some (PStr "scd2") ->
          exists m',
            select_load_type (Some 0) m = Ok m'
            /\ dict_lookup "load_type" m' = Some (PStr "scd1")
            /\ dict_in HISTORICAL m' = false))
  /\ (forall (ui : tier2_ui) (m m' : dict),
      render_tier2 ui m = Ok m' ->
      exists lt : string,
        dict_lookup "load_type" m' = Some (PStr lt)
        /\ (lt = "scd1" \/ lt = "scd2")
        /\ (dict_in HISTORICAL m' = true <-> lt = "scd2"))
  /\ (forall (ui : tier2_ui) (m m' : dict),
      t2_load_type ui = Some 1 ->
      t2_historical_columns ui = keep_rows ->
      dict_get "load_type" (PStr "") m <> PStr "scd2" ->
      empty_or_absent (dict_lookup HISTORICAL m) = true ->
      render_tier2 ui m = Ok m' ->
      dict_lookup "load_type" m' = Some (PStr "scd2")
      /\ dict_lookup HISTORICAL m' = Some default_historical_load_columns).
Proof.
  split; [| split; [| split; [| split; [| split]]]].
  - intros m Hnone.
    rewrite (update_load_type_cases _ (PStr "scd2")) by apply dict_lookup_set_same.
    change (pyval_eqb (PStr "scd2") (PStr "scd2")) with true. cbv iota.
    rewrite dict_lookup_set_other by discriminate. rewrite Hnone.
    eexists. split; [reflexivity | apply dict_lookup_set_same].
  - intro m.
    destruct (update_load_type_invariant
                (dict_set "load_type" (PStr "scd1") m) (PStr "scd1")
                (dict_lookup_set_same _ _ _)) as (m' & Hrun & _ & Hinv).
    exists m'. split; [exact Hrun |].
    destruct (dict_in HISTORICAL m'); [| reflexivity].
    assert (H : PStr "scd1" = PStr "scd2") by (apply Hinv; reflexivity).
    discriminate H.
  - intros m lt Hlt.
    destruct (update_load_type_invariant
                (dict_set "load_type" (PStr lt) m) (PStr lt)
                (dict_lookup_set_same _ _ _)) as (m' & Hrun & Hkeep & Hinv).
    exists m'. split; [exact Hrun |]. split; [exact Hkeep |].
    rewrite Hinv. split; [intro H; injection H as ->; reflexivity | congruence].
  - intro m. split.
    + apply select_scd2_creates_default.
    + apply select_scd1_removes.
  - intros ui m m' Hrun. unfold render_tier2 in Hrun.
    destruct (select_load_type (t2_load_type ui) m) as [m1 |] eqn:H1;
      [| discriminate]. cbn [bind] in Hrun.
    destruct (render_tier2_fields ui m1) as [m2 |] eqn:H2;
      [| discriminate]. cbn [bind] in Hrun.
    destruct (render_tier2_fields_frame ui m1 m2 H2) as [Hlt2 _].
    destruct (select_load_type_result _ _ _ H1) as [Hlt | Hlt];
      rewrite <- Hlt2 in Hlt;
      destruct (render_historical_invariant _ _ _ _ Hlt Hrun) as [Hkeep Hinv].
    + exists "scd1". split; [exact Hkeep |]. split; [auto |].
      rewrite Hinv. split; [discriminate | discriminate].
    + exists "scd2". split; [exact Hkeep |]. split; [auto |].
      rewrite Hinv. split; reflexivity.
  - intros ui m m' Hsel Hed Hprev Hnone Hrun. unfold render_tier2 in Hrun.
    rewrite Hsel, Hed in Hrun.
    destruct (select_scd2_creates_default m Hprev Hnone)
      as (m1 & H1 & Hlt1 & Hh1).
    rewrite H1 in Hrun. cbn [bind] in Hrun.
    destruct (render_tier2_fields ui m1) as [m2 |] eqn:H2;
      [| discriminate]. cbn [bind] in Hrun.
    destruct (render_tier2_fields_frame ui m1 m2 H2) as [Hlt2 Hh2].
    rewrite Hlt1 in Hlt2. rewrite Hh1 in Hh2.
    unfold render_historical in Hrun. cbn [py_item] in Hrun.
    rewrite Hlt2 in Hrun. cbn [bind] in Hrun.
    change (pyval_eqb (PStr "scd2") (PStr "scd2")) with true in Hrun.
    cbv iota in Hrun.
    unfold dict_in, dict_get in Hrun. rewrite Hh2 in Hrun.
    cbn [negb] in Hrun. rewrite Hh2 in Hrun.
    change (edit_rows ["name"; "data_type"] keep_rows default_historical_load_columns)
      with (Ok [ technical_column "is_current" "string";
                 technical_column "effective_start_date" "date";
                 technical_column "effective_end_date" "date" ]) in Hrun.
    cbn [bind] in Hrun. injection Hrun as <-.
    split.
    + rewrite dict_lookup_set_other by discriminate. exact Hlt2.
    + apply dict_lookup_set_same.
Qed.

Lemma load_type_transition_witness :
  (exists m',
      render_tier2 keep_all sales_tier2 = Ok m'
      /\ dict_lookup "load_type" m' = Some (PStr "scd2")
      /\ dict_lookup HISTORICAL m' = Some default_historical_load_columns)
  /\ (exists m',
      update_load_type (dict_set "load_type" (PStr "scd2") sales_tier2) = Ok m'
      /\ dict_lookup HISTORICAL m' = Some default_historical_load_columns).
Proof.
  destruct load_type_transition as (H1 & _ & _ & _ & _ & H6).
  split.
  - eexists. split; [vm_compute; reflexivity |].
    apply (H6 keep_all sales_tier2);
      [reflexivity | reflexivity | discriminate | reflexivity
       | vm_compute; reflexivity].
  - apply (H1 sales_tier2). reflexivity.
Defined.

(** ** Saving and loading *)

Lemma is_document_inv (s : session) :
  is_document s = true ->
  Yaml.wf_val (combined_config s) = true
  /\ exists tc, table_config s = PDict tc.
Proof.
  unfold is_document. intro H.
  apply andb_prop in H as [H Hdict]. apply andb_prop in H as [H Htc].
  apply andb_prop in H as [Hsc Hvc].
  split.
  - unfold combined_config. cbn [Yaml.wf_val map fst snd forallb].
    rewrite Hsc, Hvc, Htc. reflexivity.
  - destruct (table_config s) as [| | | | tc]; try discriminate Hdict.
    exists tc. reflexivity.
Qed.

(** Loading the combined document of [s] into any session gives a session
    with the three sections of [s]. *)
Lemma load_combined_config (s s0 : session) :
  (exists tc, table_config s = PDict tc) ->
  exists s1,
    load_config_into_session (combined_config s) s0 = Ok s1
    /\ source_config s1 = source_config s
    /\ validator_config s1 = validator_config s
    /\ table_config s1 = table_config s.
Proof.
  intros [tc Htc]. unfold load_config_into_session, combined_config.
  rewrite Htc. cbn [py_contains py_item bind].
  change (dict_in "source_config" _) with true.
  change (dict_in "validator_config" _) with true.
  change (dict_in "table_config" _) with true.
  cbv iota. cbn [dict_lookup bind].
  change ("source_config" =? "source_config") with true.
  change ("source_config" =? "validator_config") with false.
  change ("validator_config" =? "validator_config") with true.
  change ("source_config" =? "table_config") with false.
  change ("validator_config" =? "table_config") with false.
  change ("table_config" =? "table_config") with true.
  cbv iota. cbn [bind]. unfold py_contains, py_item, dict_in.
  destruct (dict_lookup "columns" tc) as [cols |]; cbn [bind];
    eexists; (split; [reflexivity |]); rewrite ?Htc; repeat split.
Qed.

Lemma create_yaml_file_content (config : pyval) (filename dir path : string)
    (fs fs' : filesystem) :
  create_yaml_file config filename dir fs = (fs', Ok path) ->
  file_lookup path (fs_files fs') = Some (Yaml.dump false config).
Proof.
  unfold create_yaml_file.
  destruct (makedirs true dir fs) as [fs1 | e]; [| discriminate].
  unfold write_file.
  destruct (path_join dir filename =? ""); [discriminate |].
  destruct (is_dir (path_join dir filename) fs1); [discriminate |].
  intro H. injection H as <- <-.
  cbn [fs_files file_lookup]. rewrite String.eqb_refl. reflexivity.
Qed.

Lemma sorted_combined_config_differs (s : session) :
  Yaml.sort_keys_rec (combined_config s) <> combined_config s.
Proof.
  unfold combined_config. cbn [Yaml.sort_keys_rec map fst snd].
  unfold Yaml.sort_entries. cbn [fold_right].
  cbv [Yaml.insert_sorted fst].
  change ("table_config" <=? "validator_config")%string with true.
  cbv iota.
  change ("source_config" <=? "table_config")%string with true.
  cbv iota.
  intro H. injection H as _ H _. discriminate H.
Qed.

(** C5: the round trip of a document through the YAML file.  For every
    document [s] (sections with pairwise distinct dictionary keys, the
    table section a dictionary): the text written by [create_yaml_file]
    loads back, with [load_existing_config], as the combined document,
    without any message; loading it into any session, directly or as an
    uploaded file, gives a session whose source, validator and table
    sections are those of [s], every dictionary in the order [s] holds
    its keys; placeholders are strings like any other and come back
    unchanged.  The keys are not sorted: the sorted form of the combined
    document is a different value, which is what would be loaded had the
    text been written with [sort_keys=True]. *)
Theorem save_then_load_round_trip :
  forall (s s0 : session) (filename dir path : string) (fs fs' : filesystem),
    is_document s = true ->
    create_yaml_file (combined_config s) filename dir fs = (fs', Ok path) ->
    Yaml.safe_load (Yaml.dump false (combined_config s)) = Ok (combined_config s)
    /\ load_existing_config path fs' = (combined_config s, [])
    /\ (exists s1,
          load_config_into_session (combined_config s) s0 = Ok s1
          /\ source_config s1 = source_config s
          /\ validator_config s1 = validator_config s
          /\ table_config s1 = table_config s)
    /\ (exists s1,
          load_uploaded_file (Yaml.dump false (combined_config s)) s0
          = Ok (s1, [SidebarSuccess "Configuration loaded successfully!"])
          /\ source_config s1 = source_config s
          /\ validator_config s1 = validator_config s
          /\ table_config s1 = table_config s)
    /\ Yaml.safe_load (Yaml.dump true (combined_config s))
       = Ok (Yaml.sort_keys_rec (combined_config s))
    /\ Yaml.sort_keys_rec (combined_config s) <> combined_config s.
Proof.
  intros s s0 filename dir path fs fs' Hdoc Hsave.
  destruct (is_document_inv s Hdoc) as [Hwf Htc].
  pose proof (YamlFacts.safe_load_dump false _ Hwf) as Hload.
  cbv iota in Hload.
  destruct (load_combined_config s s0 Htc) as (s1 & Hs1 & Hsections).
  split; [exact Hload |].
  split.
  { unfold load_existing_config.
    rewrite (create_yaml_file_content _ _ _ _ _ _ Hsave), Hload. reflexivity. }
  split; [exists s1; split; assumption |].
  split.
  { exists s1. split; [| exact Hsections].
    unfold load_uploaded_file, load_existing_config.
    cbn [fs_files file_lookup]. rewrite String.eqb_refl, Hload.
    change (truthy (combined_config s)) with true. cbv iota.
    rewrite Hs1. reflexivity. }
  split.
  - exact (YamlFacts.safe_load_dump true _ Hwf).
  - apply sorted_combined_config_differs.
Qed.

Lemma save_then_load_round_trip_witness :
  let s := load_sales_transaction_template initial_session in
  py_path (source_config s) ["catalog"] = Some (PStr "${catalog}")
  /\ load_existing_config "./pipeline_configs/pos_txn_sales_order_header.yml"
       (fst (create_yaml_file (combined_config s)
               "pos_txn_sales_order_header.yml" "./pipeline_configs" empty_fs))
     = (combined_config s, [])
  /\ exists s1,
       load_config_into_session (combined_config s) initial_session = Ok s1
       /\ source_config s1 = source_config s
       /\ validator_config s1 = validator_config s
       /\ table_config s1 = table_config s.
Proof.
  intro s.
  destruct (save_then_load_round_trip s initial_session
              "pos_txn_sales_order_header.yml" "./pipeline_configs"
              "./pipeline_configs/pos_txn_sales_order_header.yml" empty_fs
              (fst (create_yaml_file (combined_config s)
                      "pos_txn_sales_order_header.yml" "./pipeline_configs"
                      empty_fs)))
    as (_ & Hfile & Hsession & _).
  - vm_compute. reflexivity.
  - vm_compute. reflexivity.
  - split; [reflexivity |]. split; [exact Hfile | exact Hsession].
Defined.

(** * Further properties of the program *)

(** ** [sanitize_name] *)

Lemma sub_nonword_word_chars (name : string) :
  forall in_run,
    Yaml.string_forallb is_word_char (sub_nonword in_run name) = true.
Proof.
  induction name as [| c r IH]; intro in_run; cbn [sub_nonword].
  - reflexivity.
  - destruct (is_word_char c) eqn:Hc.
    + cbn [Yaml.string_forallb]. rewrite Hc. apply IH.
    + destruct in_run; [apply IH |].
      cbn [Yaml.string_forallb]. apply IH.
Qed.

Lemma lower_char_identifier (c : ascii) :
  is_word_char c = true -> identifier_char (lower_char c) = true.
Proof.
  destruct c as [[] [] [] [] [] [] [] []]; vm_compute; intro H;
    first [reflexivity | discriminate H].
Qed.

Lemma identifier_char_fixed (c : ascii) :
  identifier_char c = true -> is_word_char c = true /\ lower_char c = c.
Proof.
  destruct c as [[] [] [] [] [] [] [] []]; vm_compute; intro H;
    first [discriminate H | split; reflexivity].
Qed.

Lemma lower_identifier (t : string) :
  Yaml.string_forallb is_word_char t = true ->
  Yaml.string_forallb identifier_char (lower t) = true.
Proof.
  induction t as [| c r IH]; cbn [Yaml.string_forallb lower].
  - reflexivity.
  - intro H. apply andb_prop in H as [Hc Hr].
    rewrite (lower_char_identifier c Hc), (IH Hr). reflexivity.
Qed.

Lemma sanitize_name_fixed (t : string) :
  Yaml.string_forallb identifier_char t = true -> sanitize_name t = t.
Proof.
  unfold sanitize_name.
  induction t as [| c r IH]; cbn [Yaml.string_forallb sub_nonword lower].
  - reflexivity.
  - intro H. apply andb_prop in H as [Hc Hr].
    destruct (identifier_char_fixed c Hc) as [Hw Hl].
    rewrite Hw. cbn [lower]. rewrite Hl, (IH Hr). reflexivity.
Qed.

Lemma lower_length (t : string) : String.length (lower t) = String.length t.
Proof.
  induction t as [| c r IH]; cbn [lower String.length]; [| rewrite IH]; reflexivity.
Qed.

Lemma sub_nonword_length (name : string) :
  forall in_run,
    String.length (sub_nonword in_run name) <= String.length name.
Proof.
  induction name as [| c r IH]; intro in_run; cbn [sub_nonword String.length].
  - lia.
  - destruct (is_word_char c); [| destruct in_run]; cbn [String.length];
      try (specialize (IH false); lia); specialize (IH true); lia.
Qed.

(** X1: for an ASCII name, [sanitize_name] returns only lower-case
    letters, digits and underscores, never a longer string, and applying
    it to its own result changes nothing. *)
Theorem sanitize_name_normal_form :
  forall name : string,
    is_ascii name = true ->
    Yaml.string_forallb identifier_char (sanitize_name name) = true
    /\ String.length (sanitize_name name) <= String.length name
    /\ sanitize_name (sanitize_name name) = sanitize_name name.
Proof.
  intros name _.
  assert (H : Yaml.string_forallb identifier_char (sanitize_name name) = true).
  { unfold sanitize_name. apply lower_identifier, sub_nonword_word_chars. }
  split; [exact H |]. split.
  - unfold sanitize_name. rewrite lower_length. apply sub_nonword_length.
  - apply sanitize_name_fixed. exact H.
Qed.

Lemma sanitize_name_normal_form_witness :
  sanitize_name "POS Branch -- 2024!" = "pos_branch_2024_"
  /\ sanitize_name (sanitize_name "POS Branch -- 2024!")
     = sanitize_name "POS Branch -- 2024!".
Proof.
  split; [reflexivity |].
  apply (sanitize_name_normal_form "POS Branch -- 2024!"). reflexivity.
Defined.

(** ** Loading a configuration *)

(** Loading a dictionary whose table section, if any, is a dictionary. *)
Lemma load_config_into_session_sections (config : dict) (s : session) :
  is_dict_or_absent (dict_lookup "table_config" config) = true ->
  exists s1,
    load_config_into_session (PDict config) s = Ok s1
    /\ source_config s1 = dict_get "source_config" (source_config s) config
    /\ validator_config s1
       = dict_get "validator_config" (validator_config s) config
    /\ table_config s1 = dict_get "table_config" (table_config s) config
    /\ column_mappings s1
       = match py_path (PDict config) ["table_config"; "columns"] with
         | Some cols => cols
         | None => column_mappings s
         end
    /\ output_dir s1 = output_dir s.
Proof.
  intros Htable.
  unfold load_config_into_session, py_contains, py_item, dict_in, dict_get.
  rewrite py_path_cons.
  destruct (dict_lookup "source_config" config) as [sc |];
    destruct (dict_lookup "validator_config" config) as [vc |];
    destruct (dict_lookup "table_config" config) as [tc |];
    cbn [bind];
    try (destruct tc as [| | | | tc]; try discriminate Htable;
         rewrite py_path_one;
         destruct (dict_lookup "columns" tc) as [cols |]; cbn [bind]);
    eexists; (split; [reflexivity |]); repeat split.
Qed.

(** X2: a partial document is merged section by section.  For a loaded
    dictionary whose table section, if any, is a dictionary,
    [load_config_into_session] replaces exactly the sections the
    dictionary has and keeps the session's value for the others; the
    stored column mappings follow the table section's [columns] when it
    has that key; the output directory is not touched. *)
Theorem load_config_merges_sections :
  forall (config : dict) (s : session),
    is_dict_or_absent (dict_lookup "table_config" config) = true ->
    exists s1,
      load_config_into_session (PDict config) s = Ok s1
      /\ source_config s1 = dict_get "source_config" (source_config s) config
      /\ validator_config s1
         = dict_get "validator_config" (validator_config s) config
      /\ table_config s1 = dict_get "table_config" (table_config s) config
      /\ column_mappings s1
         = match py_path (PDict config) ["table_config"; "columns"] with
           | Some cols => cols
           | None => column_mappings s
           end
      /\ output_dir s1 = output_dir s.
Proof.
  intros config s Htable.
  exact (load_config_into_session_sections config s Htable).
Qed.

Lemma load_config_merges_sections_witness :
  exists s1,
    load_config_into_session
      (PDict [("source_config", PDict [("source_system", PStr "pos")])])
      (load_sales_transaction_template initial_session) = Ok s1
    /\ source_config s1 = PDict [("source_system", PStr "pos")]
    /\ table_config s1 = sales_table_config.
Proof.
  destruct (load_config_merges_sections
              [("source_config", PDict [("source_system", PStr "pos")])]
              (load_sales_transaction_template initial_session) eq_refl)
    as (s1 & Hrun & Hsc & _ & Htc & _).
  exists s1. split; [exact Hrun |]. split; [exact Hsc | exact Htc].
Defined.

(** X3: a table section that is [None] or a boolean (as an empty
    [table_config:] entry of an uploaded file loads) makes
    [load_config_into_session] raise [TypeError] at the test for
    [columns], whatever the other sections are. *)
Theorem load_config_null_table_raises :
  forall (config : dict) (s : session) (v : pyval),
    dict_lookup "table_config" config = Some v ->
    v = PNone \/ (exists b, v = PBool b) ->
    load_config_into_session (PDict config) s = Raise TypeError.
Proof.
  intros config s v Hv Hnull.
  unfold load_config_into_session, py_contains, py_item, dict_in.
  destruct (dict_lookup "source_config" config);
    destruct (dict_lookup "validator_config" config);
    rewrite Hv; cbn [bind];
    (destruct Hnull as [-> | [b ->]]; reflexivity).
Qed.

Lemma load_config_null_table_raises_witness :
  load_config_into_session
    (PDict [("source_config", PDict []); ("table_config", PNone)])
    initial_session = Raise TypeError.
Proof.
  apply (load_config_null_table_raises _ initial_session PNone);
    [reflexivity | left; reflexivity].
Defined.

(** X4: an uploaded file that does not parse, or parses to an empty
    value (an empty file loads as [None]), leaves the session exactly as
    it was: a parse failure is reported with one error message, an empty
    value with no message at all, and neither shows the success notice. *)
Theorem failed_upload_keeps_session :
  forall (content : string) (s : session),
    (forall e, Yaml.safe_load content = Raise e ->
               load_uploaded_file content s
               = Ok (s, [StErrorExn "Error loading configuration file: " e]))
    /\ (forall v, Yaml.safe_load content = Ok v -> truthy v = false ->
                  load_uploaded_file content s = Ok (s, [])).
Proof.
  intros content s.
  unfold load_uploaded_file, load_existing_config.
  cbn [fs_files file_lookup]. rewrite String.eqb_refl.
  split.
  - intros e He. rewrite He. reflexivity.
  - intros v Hv Hfalse. rewrite Hv, Hfalse. reflexivity.
Qed.

Lemma failed_upload_keeps_session_witness :
  load_uploaded_file "" (load_sales_transaction_template initial_session)
  = Ok (load_sales_transaction_template initial_session, []).
Proof.
  apply (proj2 (failed_upload_keeps_session ""
                  (load_sales_transaction_template initial_session)) PNone);
    reflexivity.
Defined.

(** ** The column-mapping editor *)

Lemma complete_rows_filter (fields : list string) (rows : list dict) :
  forallb (has_fields fields) rows = true ->
  complete_rows fields rows
  = Ok (map (fun row => PDict (project_row fields row))
            (filter (row_complete fields) rows)).
Proof.
  induction rows as [| row rows IH]; cbn [forallb]; intro H.
  - reflexivity.
  - apply andb_prop in H as [Hrow Hrows].
    cbn [complete_rows filter]. rewrite (IH Hrows).
    match goal with
    | |- context [bind (?c fields) _] => set (cells := c)
    end.
    assert (Hcells : forall fs,
               forallb (fun f => dict_in f row) fs = true ->
               cells fs = Ok (if row_complete fs row
                              then Some (project_row fs row) else None)).
    { induction fs as [| f fs IHf]; [reflexivity |].
      cbn [forallb]. intro Hfs. apply andb_prop in Hfs as [Hf Hfs].
      assert (Hstep : cells (f :: fs)
                      = (x <- py_item (PDict row) f ;;
                         if truthy x
                         then r <- cells fs ;; Ok (option_map (cons (f, x)) r)
                         else Ok None)) by reflexivity.
      rewrite Hstep, (IHf Hfs).
      unfold row_complete, project_row. cbn [py_item forallb map].
      unfold dict_in in Hf.
      destruct (dict_lookup f row) as [x |] eqn:Hx; [| discriminate Hf].
      assert (Hget : dict_get f PNone row = x)
        by (unfold dict_get; rewrite Hx; reflexivity).
      rewrite !Hget. cbn [bind]. destruct (truthy x); [| reflexivity].
      cbn [bind andb].
      destruct (forallb (fun f0 => truthy (dict_get f0 PNone row)) fs);
        reflexivity. }
    rewrite (Hcells fields Hrow). cbn [bind].
    destruct (row_complete fields row); reflexivity.
Qed.

Lemma dict_lookup_columns_set (cols : pyval) (tc : dict) :
  py_path (PDict (dict_set "columns" cols tc)) ["columns"] = Some cols.
Proof. rewrite py_path_one. apply dict_lookup_set_same. Qed.

(** X5: what the mapping editor saves.  When the edited rows all carry
    the three cells, the stored columns are exactly the rows whose
    tier_1, tier_2 and data_type are all non-empty, in the order of the
    editor and each cut down to those three fields: incomplete rows are
    dropped without a message and equal rows are all kept. *)
Theorem editor_drops_incomplete_rows :
  forall (ui : mappings_ui) (s : session) (tc : dict)
         (items : list pyval) (shown : list dict),
    ui_uploaded_csv ui = None ->
    table_config s = PDict tc ->
    py_iter (dict_get "columns" (PList []) tc) = Ok items ->
    rows_of MAPPING_FIELDS items = Ok shown ->
    forallb (has_fields MAPPING_FIELDS) (ui_mappings_editor ui shown) = true ->
    exists s',
      render_column_mappings ui s = Ok (s', [])
      /\ stored_columns s'
         = Some (PList (map (fun row => PDict (project_row MAPPING_FIELDS row))
                            (filter (row_complete MAPPING_FIELDS)
                                    (ui_mappings_editor ui shown))))
      /\ source_config s' = source_config s
      /\ validator_config s' = validator_config s.
Proof.
  intros ui s tc items shown Hup Htc Hitems Hshown Hcells.
  unfold render_column_mappings, edit_rows. rewrite Htc, Hup.
  cbn [py_get bind]. rewrite Hitems. cbn [bind]. rewrite Hshown. cbn [bind].
  rewrite (complete_rows_filter _ _ Hcells). cbn [bind py_setitem].
  eexists. split; [reflexivity |].
  split; [| split; reflexivity].
  unfold stored_columns. cbn [table_config set_table_config].
  apply dict_lookup_columns_set.
Qed.

Lemma editor_drops_incomplete_rows_witness :
  exists s',
    render_column_mappings
      {| ui_mappings_editor :=
           fun rows =>
             rows ++ [ [("tier_1", PStr "x"); ("tier_2", PStr "");
                        ("data_type", PStr "string")];
                       [("tier_1", PStr "a"); ("tier_2", PStr "b");
                        ("data_type", PStr "string")];
                       [("tier_1", PStr "a"); ("tier_2", PStr "b");
                        ("data_type", PStr "string")] ];
         ui_uploaded_csv := None;
         ui_add_mappings := false |}
      initial_session = Ok (s', [])
    /\ stored_columns s'
       = Some (PList [ column_mapping "a" "b" "string";
                       column_mapping "a" "b" "string" ]).
Proof.
  destruct (editor_drops_incomplete_rows
              {| ui_mappings_editor :=
                   fun rows =>
                     rows ++ [ [("tier_1", PStr "x"); ("tier_2", PStr "");
                                ("data_type", PStr "string")];
                               [("tier_1", PStr "a"); ("tier_2", PStr "b");
                                ("data_type", PStr "string")];
                               [("tier_1", PStr "a"); ("tier_2", PStr "b");
                                ("data_type", PStr "string")] ];
                 ui_uploaded_csv := None;
                 ui_add_mappings := false |}
              initial_session _ [] [] eq_refl eq_refl eq_refl eq_refl eq_refl)
    as (s' & Hrun & Hcols & _).
  exists s'. split; [exact Hrun | exact Hcols].
Defined.

Lemma dict_set_twice (k : string) (v w : pyval) (d : dict) :
  dict_set k w (dict_set k v d) = dict_set k w d.
Proof.
  induction d as [| [k' v'] d IH]; cbn [dict_set].
  - rewrite String.eqb_refl. reflexivity.
  - destruct (k' =? k) eqn:E; cbn [dict_set].
    + rewrite String.eqb_refl. reflexivity.
    + rewrite E, IH. reflexivity.
Qed.

Lemma dict_set_present (k : string) (v : pyval) (d : dict) :
  dict_lookup k d = Some v -> dict_set k v d = d.
Proof.
  induction d as [| [k' v'] d IH]; cbn [dict_lookup dict_set].
  - discriminate.
  - destruct (k' =? k) eqn:E.
    + apply String.eqb_eq in E. intro H. injection H as ->. subst k'. reflexivity.
    + intro H. rewrite (IH H). reflexivity.
Qed.

Lemma complete_rows_mappings (rows : list dict) :
  forall out,
    complete_rows MAPPING_FIELDS rows = Ok out -> Forall complete_mapping out.
Proof.
  induction rows as [| row rows IH]; intros out Hrun.
  - injection Hrun as <-. constructor.
  - cbn [complete_rows MAPPING_FIELDS] in Hrun.
    cbn [py_item] in Hrun.
    destruct (dict_lookup "tier_1" row) as [a |]; [| discriminate Hrun].
    cbn [bind] in Hrun.
    destruct (truthy a) eqn:Ha.
    + destruct (dict_lookup "tier_2" row) as [b |]; [| discriminate Hrun].
      cbn [bind] in Hrun.
      destruct (truthy b) eqn:Hb.
      * destruct (dict_lookup "data_type" row) as [c |]; [| discriminate Hrun].
        cbn [bind] in Hrun.
        destruct (truthy c) eqn:Hc; cbn [bind option_map] in Hrun;
          (destruct (complete_rows MAPPING_FIELDS rows) as [rest | e];
           [| discriminate Hrun]); cbn [bind] in Hrun;
          injection Hrun as <-.
        -- constructor; [| apply IH; reflexivity].
           exists a, b, c. auto.
        -- apply IH. reflexivity.
      * cbn [bind] in Hrun.
        destruct (complete_rows MAPPING_FIELDS rows) as [rest | e];
          [| discriminate Hrun]. cbn [bind] in Hrun.
        injection Hrun as <-. apply IH. reflexivity.
    + cbn [bind] in Hrun.
      destruct (complete_rows MAPPING_FIELDS rows) as [rest | e];
        [| discriminate Hrun]. cbn [bind] in Hrun.
      injection Hrun as <-. apply IH. reflexivity.
Qed.

Lemma edit_keeps_complete_mappings (cols : list pyval) :
  Forall complete_mapping cols ->
  edit_rows MAPPING_FIELDS keep_rows (PList cols) = Ok cols.
Proof.
  intro Hall. unfold edit_rows, keep_rows. cbn [py_iter bind].
  assert (Hrows : exists rows,
             rows_of MAPPING_FIELDS cols = Ok rows
             /\ complete_rows MAPPING_FIELDS rows = Ok cols).
  { induction Hall as [| v cols (a & b & c & -> & Ha & Hb & Hc) _ IH].
    - exists []. split; reflexivity.
    - destruct IH as (rows & Hrows & Hback).
      exists ([("tier_1", a); ("tier_2", b); ("data_type", c)] :: rows).
      split.
      + cbn [rows_of MAPPING_FIELDS]. rewrite Hrows. reflexivity.
      + cbn [complete_rows MAPPING_FIELDS]. rewrite Hback.
        cbn [py_item dict_lookup].
        change ("tier_1" =? "tier_1") with true.
        change ("tier_1" =? "tier_2") with false.
        change ("tier_2" =? "tier_2") with true.
        change ("tier_1" =? "data_type") with false.
        change ("tier_2" =? "data_type") with false.
        change ("data_type" =? "data_type") with true.
        cbv iota. cbn [bind]. rewrite Ha. cbn [bind]. rewrite Hb.
        cbn [bind]. rewrite Hc. reflexivity. }
  destruct Hrows as (rows & -> & Hback). cbn [bind]. exact Hback.
Qed.

(** X6: after a pass of the mapping form without an upload, every stored
    column mapping has exactly the fields tier_1, tier_2 and data_type,
    all non-empty; and a further pass in which the user leaves the editor
    as shown gives the same session again. *)
Theorem mapping_form_stable :
  forall (ui : mappings_ui) (s s' : session) (msgs : list ui_msg),
    ui_uploaded_csv ui = None ->
    render_column_mappings ui s = Ok (s', msgs) ->
    (exists cols,
        stored_columns s' = Some (PList cols) /\ Forall complete_mapping cols)
    /\ render_column_mappings
         {| ui_mappings_editor := keep_rows;
            ui_uploaded_csv := None;
            ui_add_mappings := ui_add_mappings ui |} s'
       = Ok (s', []).
Proof.
  intros ui s s' msgs Hup Hrun.
  unfold render_column_mappings in Hrun. rewrite Hup in Hrun.
  destruct (table_config s) as [| | | | tc] eqn:Htc; try discriminate Hrun.
  cbn [py_get bind] in Hrun.
  destruct (edit_rows MAPPING_FIELDS (ui_mappings_editor ui) _)
    as [updated | e] eqn:Hedit; [| discriminate Hrun].
  cbn [bind py_setitem] in Hrun. injection Hrun as <- <-.
  assert (Hall : Forall complete_mapping updated).
  { unfold edit_rows in Hedit.
    destruct (py_iter _) as [items |]; [| discriminate Hedit].
    cbn [bind] in Hedit.
    destruct (rows_of _ _) as [rows |]; [| discriminate Hedit].
    cbn [bind] in Hedit. exact (complete_rows_mappings _ _ Hedit). }
  split.
  - exists updated. split; [| exact Hall].
    unfold stored_columns. cbn [table_config set_table_config].
    apply dict_lookup_columns_set.
  - unfold render_column_mappings.
    cbn [ui_mappings_editor ui_uploaded_csv table_config set_table_config
         py_get bind].
    unfold dict_get. rewrite dict_lookup_set_same.
    rewrite (edit_keeps_complete_mappings updated Hall).
    cbn [bind py_setitem]. rewrite dict_set_twice. reflexivity.
Qed.

Lemma mapping_form_stable_witness :
  render_column_mappings
    {| ui_mappings_editor := keep_rows; ui_uploaded_csv := None;
       ui_add_mappings := false |}
    (load_sales_transaction_template initial_session)
  = Ok (load_sales_transaction_template initial_session, []).
Proof.
  assert (Hrun : render_column_mappings
                   {| ui_mappings_editor := keep_rows; ui_uploaded_csv := None;
                      ui_add_mappings := false |}
                   (load_sales_transaction_template initial_session)
                 = Ok (load_sales_transaction_template initial_session, []))
    by (vm_compute; reflexivity).
  exact (proj2 (mapping_form_stable
                  {| ui_mappings_editor := keep_rows; ui_uploaded_csv := None;
                     ui_add_mappings := false |}
                  (load_sales_transaction_template initial_session)
                  (load_sales_transaction_template initial_session) []
                  eq_refl Hrun)).
Defined.

(** ** Bulk upload *)

(** The mapping form without the upload: what the editor alone stores. *)
Lemma mapping_form_editor_only (editor : data_editor) (pressed : bool)
    (s s' : session) (msgs : list ui_msg) :
  render_column_mappings
    {| ui_mappings_editor := editor; ui_uploaded_csv := None;
       ui_add_mappings := pressed |} s = Ok (s', msgs) ->
  exists tc updated,
    table_config s = PDict tc
    /\ edit_rows MAPPING_FIELDS editor (dict_get "columns" (PList []) tc)
       = Ok updated
    /\ s' = set_table_config (PDict (dict_set "columns" (PList updated) tc)) s
    /\ msgs = [].
Proof.
  unfold render_column_mappings. cbn [ui_mappings_editor ui_uploaded_csv].
  destruct (table_config s) as [| | | | tc]; try discriminate.
  cbn [py_get bind].
  destruct (edit_rows MAPPING_FIELDS editor _) as [updated | e] eqn:Hedit;
    [| discriminate].
  cbn [bind py_setitem]. intro H. injection H as <- <-.
  exists tc, updated. repeat split. exact Hedit.
Qed.

(** X7: an upload that lacks one of the columns tier_1, tier_2,
    data_type is turned down before any row is looked at: the one error
    names every missing column, in that order, and the form stores what
    the editor alone would have stored, pressed button or not. *)
Theorem bulk_missing_columns_reported :
  forall (df : dataframe) (editor : data_editor) (pressed : bool)
         (s s' : session) (msgs : list ui_msg),
    let missing :=
      filter (fun col => negb (existsb (String.eqb col) (df_columns df)))
             MAPPING_FIELDS in
    missing <> [] ->
    render_column_mappings
      {| ui_mappings_editor := editor; ui_uploaded_csv := None;
         ui_add_mappings := pressed |} s = Ok (s', msgs) ->
    bulk_check df
    = Ok (BulkMissing ("Missing required columns: " ++ String.concat ", " missing))
    /\ (forall c, In c missing <->
                  In c MAPPING_FIELDS /\ ~ In c (df_columns df))
    /\ render_column_mappings
         {| ui_mappings_editor := editor; ui_uploaded_csv := Some df;
            ui_add_mappings := pressed |} s
       = Ok (s', [StError ("Missing required columns: "
                           ++ String.concat ", " missing)]).
Proof.
  intros df editor pressed s s' msgs missing Hmissing Hrun.
  assert (Hcheck : bulk_check df
                   = Ok (BulkMissing ("Missing required columns: "
                                      ++ String.concat ", " missing))).
  { unfold bulk_check. fold missing.
    destruct missing as [| c more]; [congruence | reflexivity]. }
  split; [exact Hcheck |]. split.
  - intro c. unfold missing. rewrite filter_In, negb_true_iff.
    split; intros [Hin Hnot]; (split; [exact Hin |]).
    + intro Hc. apply Bool.not_true_iff_false in Hnot. apply Hnot.
      apply existsb_exists. exists c. split; [exact Hc | apply String.eqb_refl].
    + apply Bool.not_true_iff_false. intro Hex.
      apply existsb_exists in Hex as (c' & Hc' & Heq).
      apply String.eqb_eq in Heq. subst c'. contradiction.
  - destruct (mapping_form_editor_only _ _ _ _ _ Hrun)
      as (tc & updated & Htc & Hedit & -> & _).
    unfold render_column_mappings.
    cbn [ui_mappings_editor ui_uploaded_csv]. rewrite Htc.
    cbn [py_get bind]. rewrite Hedit. cbn [bind py_setitem].
    rewrite Hcheck. reflexivity.
Qed.

Lemma bulk_missing_columns_reported_witness :
  bulk_check {| df_columns := ["tier_2"; "comment"]; df_rows := [] |}
  = Ok (BulkMissing "Missing required columns: tier_1, data_type").
Proof.
  assert (Hrun : render_column_mappings
                   {| ui_mappings_editor := keep_rows; ui_uploaded_csv := None;
                      ui_add_mappings := true |} initial_session
                 = Ok (initial_session, [])) by reflexivity.
  exact (proj1 (bulk_missing_columns_reported
                  {| df_columns := ["tier_2"; "comment"]; df_rows := [] |}
                  keep_rows true initial_session initial_session []
                  ltac:(discriminate) Hrun)).
Defined.

(** X8: an upload with the three columns and only supported data types
    changes nothing until "Add these mappings" is pressed; when it is,
    its rows are appended, in order and without any check against the
    mappings already there, after what the editor stored, and the notice
    gives their number. *)
Theorem bulk_rows_appended :
  forall (df : dataframe) (editor : data_editor) (s s' : session)
         (msgs : list ui_msg),
    (forall c, In c MAPPING_FIELDS -> In c (df_columns df)) ->
    forallb row_supported (df_rows df) = true ->
    render_column_mappings
      {| ui_mappings_editor := editor; ui_uploaded_csv := None;
         ui_add_mappings := false |} s = Ok (s', msgs) ->
    render_column_mappings
      {| ui_mappings_editor := editor; ui_uploaded_csv := Some df;
         ui_add_mappings := false |} s = Ok (s', [])
    /\ exists cols s'',
        stored_columns s' = Some (PList cols)
        /\ render_column_mappings
             {| ui_mappings_editor := editor; ui_uploaded_csv := Some df;
                ui_add_mappings := true |} s
           = Ok (s'', [StSuccess ("Added "
                                  ++ nat_to_string (List.length (df_rows df))
                                  ++ " column mappings!")])
        /\ stored_columns s''
           = Some (PList (cols ++ map row_mapping (df_rows df)))
        /\ source_config s'' = source_config s
        /\ validator_config s'' = validator_config s.
Proof.
  intros df editor s s' msgs Hcols Hrows Hrun.
  destruct (mapping_form_editor_only _ _ _ _ _ Hrun)
    as (tc & updated & Htc & Hedit & -> & _).
  assert (Hcheck : bulk_check df = Ok (BulkReady (map row_mapping (df_rows df)))).
  { unfold bulk_check. rewrite (required_columns_present df Hcols).
    change (fun row : dict => negb (cell_supported (dict_get "data_type" PNone row)))
      with (fun row : dict => negb (row_supported row)).
    apply filter_negb_nil in Hrows. rewrite Hrows. reflexivity. }
  unfold render_column_mappings.
  cbn [ui_mappings_editor ui_uploaded_csv ui_add_mappings]. rewrite Htc.
  cbn [py_get bind]. rewrite Hedit. cbn [bind py_setitem]. rewrite Hcheck.
  split; [reflexivity |].
  cbn [py_extend bind py_setitem]. rewrite length_map.
  exists updated. eexists. split; [| split; [reflexivity | split]].
  - unfold stored_columns. cbn [table_config set_table_config].
    apply dict_lookup_columns_set.
  - unfold stored_columns. cbn [table_config set_table_config].
    apply dict_lookup_columns_set.
  - split; reflexivity.
Qed.

Lemma bulk_rows_appended_witness :
  exists s'',
    render_column_mappings
      {| ui_mappings_editor := keep_rows;
         ui_uploaded_csv :=
           Some {| df_columns := ["tier_1"; "tier_2"; "data_type"];
                   df_rows := [ [ ("tier_1", PStr "site");
                                  ("tier_2", PStr "site_name");
                                  ("data_type", PStr "string") ] ] |};
         ui_add_mappings := true |}
      (load_sales_transaction_template initial_session)
    = Ok (s'', [StSuccess "Added 1 column mappings!"])
    /\ stored_columns s''
       = Some (PList (sales_columns ++ [column_mapping "site" "site_name" "string"])).
Proof.
  assert (Hrun : render_column_mappings
                   {| ui_mappings_editor := keep_rows; ui_uploaded_csv := None;
                      ui_add_mappings := false |}
                   (load_sales_transaction_template initial_session)
                 = Ok (load_sales_transaction_template initial_session, []))
    by (vm_compute; reflexivity).
  destruct (bulk_rows_appended
              {| df_columns := ["tier_1"; "tier_2"; "data_type"];
                 df_rows := [ [ ("tier_1", PStr "site");
                                ("tier_2", PStr "site_name");
                                ("data_type", PStr "string") ] ] |}
              keep_rows _ _ [] (fun c H => H) eq_refl Hrun)
    as (_ & cols & s'' & Hcols & Hadd & Hstored & _).
  exists s''. split; [exact Hadd |].
  rewrite Hstored. injection Hcols as <-. reflexivity.
Defined.

(** ** The source form *)

Lemma text_field_inv (user : option string) (k default : string) (d d' : dict) :
  text_field user k default d = Ok d' ->
  d' = dict_set k (PStr (text_choice user k default d)) d.
Proof.
  unfold text_field, text_choice, text_input, dict_get.
  destruct user as [t |].
  - cbn [bind]. intro H. injection H as <-. reflexivity.
  - destruct (dict_lookup k d) as [[| | v | |] |]; cbn [bind];
      try discriminate; intro H; injection H as <-; reflexivity.
Qed.

Lemma text_choice_set_other (user : option string) (k default k' : string)
    (v : pyval) (d : dict) :
  k' <> k ->
  text_choice user k default (dict_set k' v d) = text_choice user k default d.
Proof.
  intro Hne. unfold text_choice.
  rewrite dict_lookup_set_other by exact Hne. reflexivity.
Qed.

Lemma text_field_settled (k default : string) (d : dict) :
  is_string_at k d -> text_field None k default d = Ok d.
Proof.
  intros [v Hv]. unfold text_field, text_input, dict_get. rewrite Hv.
  cbn [bind]. rewrite (dict_set_present _ _ _ Hv). reflexivity.
Qed.

Lemma flag_field_settled (k : string) (d : dict) :
  is_flag_at k d -> flag_field None k d = d.
Proof.
  unfold flag_field, dict_get. intros [H | H]; rewrite H.
  - apply (dict_set_present _ _ _ H).
  - apply (dict_set_present _ _ _ H).
Qed.

Lemma flag_field_is_flag (user : option nat) (k : string) (d : dict) :
  is_flag_at k (flag_field user k d).
Proof.
  unfold flag_field, is_flag_at. rewrite dict_lookup_set_same.
  destruct (pyval_eqb _ _);
    destruct user as [[| [| [| ?]]] |]; cbn; auto.
Qed.

Lemma checkbox_field_settled (k : string) (default : bool) (d : dict) :
  is_bool_at k d -> checkbox_field None k default d = d.
Proof.
  intros [b Hb]. unfold checkbox_field, checkbox, dict_get. rewrite Hb.
  cbn [truthy]. apply (dict_set_present _ _ _ Hb).
Qed.

Ltac step_text H :=
  match type of H with
  | context [bind (text_field ?u ?k ?d ?c) _] =>
      let c1 := fresh "c" in
      let E := fresh "E" in
      destruct (text_field u k d c) as [c1 |] eqn:E; [| discriminate H];
      cbn [bind] in H; apply text_field_inv in E; subst c1
  end.

Ltac lookup_through_sets :=
  repeat (rewrite dict_lookup_set_other by discriminate);
  rewrite ?dict_lookup_set_same;
  unfold flag_field;
  repeat (rewrite text_choice_set_other by discriminate);
  repeat (rewrite dict_lookup_set_other by discriminate);
  rewrite ?dict_lookup_set_same.

Lemma render_source_fields_inv (ui : source_ui) (c c' : dict) :
  render_source_fields ui c = Ok c' ->
  (forall k get default,
      In (k, get, default) source_text_fields ->
      dict_lookup k c' = Some (PStr (text_choice (get ui) k default c)))
  /\ is_flag_at "active_flag" c'
  /\ (forall k, ~ In k source_field_keys -> dict_lookup k c' = dict_lookup k c).
Proof.
  intro H. unfold render_source_fields in H.
  repeat step_text H. apply text_field_inv in H. subst c'.
  split; [| split].
  - intros k get default Hin. cbn [source_text_fields In] in Hin.
    repeat (destruct Hin as [Heq | Hin];
            [injection Heq as <- <- <-; lookup_through_sets; reflexivity |]).
    destruct Hin.
  - unfold is_flag_at.
    repeat (rewrite dict_lookup_set_other by discriminate).
    apply flag_field_is_flag.
  - intros k Hk. cbn [source_field_keys source_text_fields map fst In] in Hk.
    unfold flag_field.
    repeat (rewrite dict_lookup_set_other by (intro Heq; apply Hk; subst k; tauto)).
    reflexivity.
Qed.

Lemma render_control_format_inv (ui : source_ui) (f f' : dict) :
  render_control_format ui f = Ok f' ->
  dict_lookup "header" f'
  = Some (PBool (checkbox (src_control_header ui) (dict_get "header" (PBool false) f)))
  /\ dict_lookup "delimiter" f'
     = Some (PStr (text_choice (src_control_delimiter ui) "delimiter" "|" f)).
Proof.
  unfold render_control_format. intro H. apply text_field_inv in H. subst f'.
  unfold checkbox_field. split; lookup_through_sets; reflexivity.
Qed.

Lemma render_data_format_inv (ui : source_ui) (f f' : dict) :
  render_data_format ui f = Ok f' ->
  dict_lookup "header" f'
  = Some (PBool (checkbox (src_data_header ui) (dict_get "header" (PBool true) f)))
  /\ dict_lookup "delimiter" f'
     = Some (PStr (text_choice (src_data_delimiter ui) "delimiter" "," f))
  /\ dict_lookup "quote" f'
     = Some (PStr (text_choice (src_quote ui) "quote" dquote f))
  /\ dict_lookup "escape" f'
     = Some (PStr (text_choice (src_escape ui) "escape" dquote f))
  /\ dict_lookup "charset" f'
     = Some (PStr (text_choice (src_charset ui) "charset" "utf-8" f)).
Proof.
  unfold render_data_format. intro H.
  repeat step_text H. apply text_field_inv in H. subst f'.
  unfold checkbox_field. repeat split; lookup_through_sets; reflexivity.
Qed.

(** The two format blocks of [render_source_config], read as one step on
    the section: the record under [k] is created when absent and then
    edited. *)
Lemma format_block_inv (k : string) (default : pyval)
    (edit : dict -> result dict) (c : dict) (f' : dict) :
  bind (as_dict (dict_get k PNone
                   (if negb (dict_in k c) then dict_set k default c else c)))
       edit = Ok f' ->
  exists f,
    edit f = Ok f'
    /\ (dict_lookup k c = Some (PDict f)
        \/ (dict_lookup k c = None /\ default = PDict f)).
Proof.
  unfold dict_in, dict_get.
  destruct (dict_lookup k c) as [v |] eqn:Hk; cbn [negb].
  - rewrite Hk. destruct v as [| | | | f]; cbn [as_dict bind]; try discriminate.
    intro H. exists f. auto.
  - rewrite dict_lookup_set_same.
    destruct default as [| | | | f]; cbn [as_dict bind]; try discriminate.
    intro H. exists f. auto.
Qed.

Lemma as_dict_inv (v : pyval) (d : dict) : as_dict v = Ok d -> v = PDict d.
Proof. destruct v; cbn [as_dict]; try discriminate. intro H. congruence. Qed.

Lemma stored_or_default (k : string) (default : dict) (c : dict) (f : dict) :
  dict_get k PNone
    (if negb (dict_in k c) then dict_set k (PDict default) c else c)
  = PDict f ->
  (dict_lookup k c = Some (PDict f) /\ stored_format k c = f)
  \/ (dict_lookup k c = None /\ stored_format k c = [] /\ f = default).
Proof.
  unfold dict_in, dict_get, stored_format.
  destruct (dict_lookup k c) as [v |] eqn:Hk; cbn [negb].
  - rewrite Hk. intros ->. left. auto.
  - rewrite dict_lookup_set_same. intro H. injection H as <-. right. auto.
Qed.

(** What a pass of the source form stores, field by field. *)
Lemma render_source_config_inv :
  forall (ui : source_ui) (s s' : session) (c : dict),
    source_config s = PDict c ->
    render_source_config ui s = Ok s' ->
    exists c',
      source_config s' = PDict c'
      /\ (forall k get default,
             In (k, get, default) source_text_fields ->
             dict_lookup k c' = Some (PStr (text_choice (get ui) k default c)))
      /\ is_flag_at "active_flag" c'
      /\ (exists f',
             dict_lookup "control_file_format" c' = Some (PDict f')
             /\ dict_lookup "header" f'
                = Some (PBool (checkbox (src_control_header ui)
                                 (dict_get "header" (PBool false)
                                    (stored_format "control_file_format" c))))
             /\ dict_lookup "delimiter" f'
                = Some (PStr (text_choice (src_control_delimiter ui) "delimiter"
                                "|" (stored_format "control_file_format" c))))
      /\ (exists f',
             dict_lookup "data_file_format" c' = Some (PDict f')
             /\ dict_lookup "header" f'
                = Some (PBool (checkbox (src_data_header ui)
                                 (dict_get "header" (PBool true)
                                    (stored_format "data_file_format" c))))
             /\ dict_lookup "delimiter" f'
                = Some (PStr (text_choice (src_data_delimiter ui) "delimiter"
                                "," (stored_format "data_file_format" c)))
             /\ dict_lookup "quote" f'
                = Some (PStr (text_choice (src_quote ui) "quote" dquote
                                (stored_format "data_file_format" c)))
             /\ dict_lookup "escape" f'
                = Some (PStr (text_choice (src_escape ui) "escape" dquote
                                (stored_format "data_file_format" c)))
             /\ dict_lookup "charset" f'
                = Some (PStr (text_choice (src_charset ui) "charset" "utf-8"
                                (stored_format "data_file_format" c))))
      /\ validator_config s' = validator_config s
      /\ table_config s' = table_config s.
Proof.
  intros ui s s' c Hc Hrun. unfold render_source_config in Hrun.
  rewrite Hc in Hrun. cbn [as_dict bind] in Hrun.
  destruct (render_source_fields ui c) as [c1 |] eqn:Hfields;
    [| discriminate Hrun]. cbn [bind] in Hrun.
  destruct (render_source_fields_inv ui c c1 Hfields) as (Htext & Hflag & Hframe).
  remember (if negb (dict_in "control_file_format" c1)
            then dict_set "control_file_format"
                   (PDict [("header", PBool false); ("delimiter", PStr "|")]) c1
            else c1) as cA eqn:HcA.
  destruct (as_dict (dict_get "control_file_format" PNone cA)) as [cf |] eqn:Hcf;
    [| discriminate Hrun]. cbn [bind] in Hrun.
  destruct (render_control_format ui cf) as [cf' |] eqn:Hcf';
    [| discriminate Hrun]. cbn [bind] in Hrun.
  remember (dict_set "control_file_format" (PDict cf') cA) as cB eqn:HcB.
  remember (if negb (dict_in "data_file_format" cB)
            then dict_set "data_file_format"
                   (PDict [ ("header", PBool true); ("delimiter", PStr ",");
                            ("quote", PStr dquote); ("escape", PStr dquote);
                            ("charset", PStr "utf-8") ]) cB
            else cB) as cC eqn:HcC.
  destruct (as_dict (dict_get "data_file_format" PNone cC)) as [df |] eqn:Hdf;
    [| discriminate Hrun]. cbn [bind] in Hrun.
  destruct (render_data_format ui df) as [df' |] eqn:Hdf';
    [| discriminate Hrun]. cbn [bind] in Hrun.
  injection Hrun as <-.
  (* lookups through the two format blocks *)
  assert (HA : forall k, k <> "control_file_format" ->
                         dict_lookup k cA = dict_lookup k c1).
  { intros k Hk. rewrite HcA.
    destruct (negb (dict_in "control_file_format" c1)); [| reflexivity].
    apply dict_lookup_set_other. congruence. }
  assert (HB : forall k, k <> "control_file_format" ->
                         dict_lookup k cB = dict_lookup k c1).
  { intros k Hk. rewrite HcB. rewrite dict_lookup_set_other by congruence.
    apply HA. exact Hk. }
  assert (HC : forall k, k <> "data_file_format" ->
                         dict_lookup k cC = dict_lookup k cB).
  { intros k Hk. rewrite HcC.
    destruct (negb (dict_in "data_file_format" cB)); [| reflexivity].
    apply dict_lookup_set_other. congruence. }
  assert (Hfinal : forall k, k <> "data_file_format" ->
                             k <> "control_file_format" ->
                             dict_lookup k (dict_set "data_file_format" (PDict df') cC)
                             = dict_lookup k c1).
  { intros k Hd Hk. rewrite dict_lookup_set_other by congruence.
    rewrite HC by exact Hd. apply HB. exact Hk. }
  (* the stored formats *)
  apply as_dict_inv in Hcf, Hdf.
  rewrite HcA in Hcf. apply stored_or_default in Hcf.
  rewrite HcC in Hdf. apply stored_or_default in Hdf.
  rewrite (Hframe "control_file_format") in Hcf
    by (cbn; intuition discriminate).
  assert (Hsf : stored_format "control_file_format" c1
                = stored_format "control_file_format" c).
  { unfold stored_format. rewrite (Hframe "control_file_format")
      by (cbn; intuition discriminate). reflexivity. }
  assert (Hsd : stored_format "data_file_format" cB
                = stored_format "data_file_format" c).
  { unfold stored_format. rewrite HB by discriminate.
    rewrite (Hframe "data_file_format") by (cbn; intuition discriminate).
    reflexivity. }
  rewrite Hsf in Hcf. rewrite Hsd in Hdf.
  destruct (render_control_format_inv ui cf cf' Hcf') as (Hh & Hd).
  destruct (render_data_format_inv ui df df' Hdf') as (Hh2 & Hd2 & Hq & He & Hch).
  eexists. split; [reflexivity |].
  split.
  { intros k get default Hin. rewrite Hfinal.
    - apply (Htext k get default Hin).
    - cbn [source_text_fields In] in Hin.
      intro Hk. subst k. intuition discriminate.
    - cbn [source_text_fields In] in Hin.
      intro Hk. subst k. intuition discriminate. }
  split.
  { unfold is_flag_at. rewrite Hfinal by discriminate. exact Hflag. }
  split.
  { exists cf'. split.
    - rewrite dict_lookup_set_other by discriminate.
      rewrite HC by discriminate. rewrite HcB. apply dict_lookup_set_same.
    - destruct Hcf as [[_ <-] | (_ & -> & ->)]; split; assumption. }
  split.
  { exists df'. split; [apply dict_lookup_set_same |].
    destruct Hdf as [[_ <-] | (_ & -> & ->)]; repeat split; assumption. }
  split; reflexivity.
Qed.

(** X9: what a pass of the source form stores.  Each of the ten text
    fields ends with what the user typed, else with the string already
    stored, else with its default; the two format records are created
    when absent and filled the same way (header: the box as ticked, else
    the stored value, else false for control files and true for data
    files); the flag is 'y' or 'n'.  The validator and table sections
    are not touched. *)
Theorem source_form_values :
  forall (ui : source_ui) (s s' : session) (c : dict),
    source_config s = PDict c ->
    render_source_config ui s = Ok s' ->
    exists c',
      source_config s' = PDict c'
      /\ (forall k get default,
             In (k, get, default) source_text_fields ->
             dict_lookup k c' = Some (PStr (text_choice (get ui) k default c)))
      /\ is_flag_at "active_flag" c'
      /\ (exists f',
             dict_lookup "control_file_format" c' = Some (PDict f')
             /\ dict_lookup "header" f'
                = Some (PBool (checkbox (src_control_header ui)
                                 (dict_get "header" (PBool false)
                                    (stored_format "control_file_format" c))))
             /\ dict_lookup "delimiter" f'
                = Some (PStr (text_choice (src_control_delimiter ui) "delimiter"
                                "|" (stored_format "control_file_format" c))))
      /\ (exists f',
             dict_lookup "data_file_format" c' = Some (PDict f')
             /\ dict_lookup "header" f'
                = Some (PBool (checkbox (src_data_header ui)
                                 (dict_get "header" (PBool true)
                                    (stored_format "data_file_format" c))))
             /\ dict_lookup "delimiter" f'
                = Some (PStr (text_choice (src_data_delimiter ui) "delimiter"
                                "," (stored_format "data_file_format" c)))
             /\ dict_lookup "quote" f'
                = Some (PStr (text_choice (src_quote ui) "quote" dquote
                                (stored_format "data_file_format" c)))
             /\ dict_lookup "escape" f'
                = Some (PStr (text_choice (src_escape ui) "escape" dquote
                                (stored_format "data_file_format" c)))
             /\ dict_lookup "charset" f'
                = Some (PStr (text_choice (src_charset ui) "charset" "utf-8"
                                (stored_format "data_file_format" c))))
      /\ validator_config s' = validator_config s
      /\ table_config s' = table_config s.
Proof.
  intros ui s s' c Hc Hrun.
  exact (render_source_config_inv ui s s' c Hc Hrun).
Qed.

Lemma source_form_values_witness :
  exists s' c',
    render_source_config untouched_source initial_session = Ok s'
    /\ source_config s' = PDict c'
    /\ dict_lookup "catalog" c' = Some (PStr "${catalog}")
    /\ dict_lookup "data_file_regex" c' = Some (PStr "*.csv").
Proof.
  assert (Hrun : exists s',
             render_source_config untouched_source initial_session = Ok s')
    by (eexists; vm_compute; reflexivity).
  destruct Hrun as [s' Hrun].
  destruct (source_form_values untouched_source initial_session s' []
              eq_refl Hrun) as (c' & Hc' & Htext & _).
  exists s', c'. split; [exact Hrun |]. split; [exact Hc' |]. split.
  - apply (Htext "catalog" src_catalog "${catalog}").
    cbn [source_text_fields In]. tauto.
  - apply (Htext "data_file_regex" src_data_file_regex "*.csv").
    cbn [source_text_fields In]. tauto.
Defined.

Lemma render_source_config_settles (ui : source_ui) (s s' : session) :
  render_source_config ui s = Ok s' ->
  exists c', source_config s' = PDict c' /\ source_settled c'.
Proof.
  intro Hrun.
  assert (Hc : exists c, source_config s = PDict c).
  { unfold render_source_config in Hrun.
    destruct (source_config s) as [| | | | c]; try discriminate Hrun.
    exists c. reflexivity. }
  destruct Hc as [c Hc].
  destruct (render_source_config_inv ui s s' c Hc Hrun)
    as (c' & Hc' & Htext & Hflag & (cf & Hcf & Hh & Hd)
        & (df & Hdf & Hh2 & Hd2 & Hq & He & Hch) & _).
  exists c'. split; [exact Hc' |].
  split; [| split; [exact Hflag | split]].
  - intros k get default Hin. eexists. apply (Htext k get default Hin).
  - exists cf. split; [exact Hcf |]. split; eexists; eassumption.
  - exists df. split; [exact Hdf |]. repeat split; eexists; eassumption.
Qed.

Lemma settled_source_is_fixed (s : session) (c : dict) :
  source_config s = PDict c ->
  source_settled c ->
  render_source_config untouched_source s = Ok s.
Proof.
  intros Hc (Htext & Hflag & (cf & Hcf & Hh & Hd)
             & (df & Hdf & Hh2 & Hd2 & Hq & He & Hch)).
  assert (Hfields : render_source_fields untouched_source c = Ok c).
  { unfold render_source_fields, untouched_source.
    cbn [src_source_system src_catalog src_delay_day src_active_flag
         src_landing_bucket src_persisted_bucket src_data_timezone
         src_control_file_landing_location src_data_file_landing_location
         src_control_file_regex src_data_file_regex].
    repeat (rewrite text_field_settled
              by (eapply Htext; cbn [source_text_fields In]; tauto);
            cbn [bind]).
    rewrite (flag_field_settled _ _ Hflag).
    repeat (rewrite text_field_settled
              by (eapply Htext; cbn [source_text_fields In]; tauto);
            cbn [bind]).
    reflexivity. }
  unfold render_source_config. rewrite Hc. cbn [as_dict bind].
  rewrite Hfields. cbn [bind].
  unfold dict_in, dict_get. rewrite Hcf. cbn [negb as_dict bind]. rewrite Hcf.
  cbn [as_dict bind].
  unfold render_control_format, untouched_source.
  cbn [src_control_header src_control_delimiter].
  rewrite (checkbox_field_settled _ _ _ Hh), (text_field_settled _ _ _ Hd).
  cbn [bind]. rewrite (dict_set_present _ _ _ Hcf).
  rewrite Hdf. cbn [negb as_dict bind]. rewrite Hdf. cbn [as_dict bind].
  unfold render_data_format.
  cbn [src_data_header src_data_delimiter src_quote src_escape src_charset].
  rewrite (checkbox_field_settled _ _ _ Hh2), (text_field_settled _ _ _ Hd2).
  cbn [bind].
  rewrite (text_field_settled _ _ _ Hq). cbn [bind].
  rewrite (text_field_settled _ _ _ He). cbn [bind].
  rewrite (text_field_settled _ _ _ Hch). cbn [bind].
  rewrite (dict_set_present _ _ _ Hdf).
  rewrite <- Hc. destruct s. reflexivity.
Qed.

(** X10: the source form reaches a fixed point in one pass.  After any
    successful pass every field is present and of its type (ten strings,
    a flag that is 'y' or 'n', two format records with a boolean header
    and string entries), and a further pass with no widget touched
    returns the same session. *)
Theorem source_form_idempotent :
  forall (ui : source_ui) (s s' : session),
    render_source_config ui s = Ok s' ->
    (exists c', source_config s' = PDict c' /\ source_settled c')
    /\ render_source_config untouched_source s' = Ok s'.
Proof.
  intros ui s s' Hrun.
  destruct (render_source_config_settles ui s s' Hrun) as (c' & Hc' & Hsettled).
  split.
  - exists c'. split; assumption.
  - exact (settled_source_is_fixed s' c' Hc' Hsettled).
Qed.

Lemma source_form_idempotent_witness :
  exists s',
    render_source_config untouched_source initial_session = Ok s'
    /\ render_source_config untouched_source s' = Ok s'.
Proof.
  assert (Hrun : exists s',
             render_source_config untouched_source initial_session = Ok s')
    by (eexists; vm_compute; reflexivity).
  destruct Hrun as [s' Hrun]. exists s'. split; [exact Hrun |].
  exact (proj2 (source_form_idempotent untouched_source initial_session s' Hrun)).
Defined.

(** ** Comma-separated lists *)

Lemma split_commas_nonempty (t : string) : split_commas t <> [].
Proof.
  destruct t as [| c r]; cbn [split_commas]; [discriminate |].
  destruct (Ascii.eqb c ","); [discriminate |].
  destruct (split_commas r); discriminate.
Qed.

Lemma split_commas_no_comma (x : string) :
  Yaml.string_forallb (fun c => negb (Ascii.eqb c ","%char)) x = true ->
  split_commas x = [x].
Proof.
  induction x as [| c r IH]; cbn [Yaml.string_forallb split_commas].
  - reflexivity.
  - intro H. apply andb_prop in H as [Hc Hr]. apply negb_true_iff in Hc.
    rewrite Hc, (IH Hr). reflexivity.
Qed.

Lemma split_commas_app (x r : string) :
  Yaml.string_forallb (fun c => negb (Ascii.eqb c ","%char)) x = true ->
  split_commas (x ++ String ","%char r) = x :: split_commas r.
Proof.
  induction x as [| c x IH]; cbn [Yaml.string_forallb append split_commas].
  - intros _. reflexivity.
  - intro H. apply andb_prop in H as [Hc Hx]. apply negb_true_iff in Hc.
    rewrite Hc, (IH Hx). reflexivity.
Qed.

Lemma plain_name_inv (x : string) :
  plain_name x = true ->
  Yaml.string_forallb (fun c => negb (Ascii.eqb c ","%char)) x = true
  /\ strip x = x.
Proof.
  unfold plain_name. intro H. apply andb_prop in H as [H1 H2].
  apply String.eqb_eq in H2. auto.
Qed.

Lemma strip_after_space (y : string) :
  strip (String " "%char y) = strip y.
Proof. reflexivity. Qed.

(** Splitting the joined text gives the first name as it is and every
    other name behind one space. *)
Lemma split_joined (x : string) (l : list string) :
  forallb plain_name (x :: l) = true ->
  map strip (split_commas (String.concat ", " (x :: l))) = x :: l.
Proof.
  revert x. induction l as [| y l IH]; intros x H.
  - cbn [forallb] in H. apply andb_prop in H as [Hx _].
    destruct (plain_name_inv x Hx) as [Hc Hs].
    cbn [String.concat]. rewrite (split_commas_no_comma x Hc).
    cbn [map]. rewrite Hs. reflexivity.
  - cbn [forallb] in H. apply andb_prop in H as [Hx Hl].
    destruct (plain_name_inv x Hx) as [Hc Hs].
    change (String.concat ", " (x :: y :: l))
      with (x ++ String ","%char (String " "%char (String.concat ", " (y :: l))))%string.
    rewrite (split_commas_app x _ Hc). cbn [map]. rewrite Hs. f_equal.
    specialize (IH y Hl).
    (* a leading space joins the first part and is stripped from it *)
    assert (Hlead : forall t,
               map strip (split_commas (String " "%char t))
               = map strip (split_commas t)).
    { intro t. cbn [split_commas].
      change (Ascii.eqb " " ",") with false. cbv iota.
      destruct (split_commas t) as [| w more] eqn:Hw.
      - destruct (split_commas_nonempty t Hw).
      - cbn [map]. rewrite strip_after_space. reflexivity. }
    rewrite Hlead. exact IH.
Qed.

Lemma concat_empty (l : list string) :
  forallb plain_name l = true ->
  String.concat ", " l = EmptyString -> l = [] \/ l = [EmptyString].
Proof.
  destruct l as [| x [| y l]]; intros _ H.
  - left. reflexivity.
  - right. cbn [String.concat] in H. rewrite H. reflexivity.
  - cbn [String.concat] in H. destruct x; discriminate H.
Qed.

Lemma comma_list_joined (l : list string) :
  forallb plain_name l = true ->
  l <> [EmptyString] ->
  comma_list (String.concat ", " l) = PList (map PStr l).
Proof.
  intros Hall Hne. unfold comma_list.
  destruct (String.concat ", " l =? "") eqn:E.
  - apply String.eqb_eq in E.
    destruct (concat_empty l Hall E) as [-> | ->]; [reflexivity | congruence].
  - destruct l as [| x l]; [discriminate E |].
    rewrite <- (split_joined x l Hall) at 2.
    rewrite map_map. reflexivity.
Qed.

Lemma all_strings_map (l : list string) : all_strings (map PStr l) = Ok l.
Proof.
  induction l as [| x l IH]; cbn [map all_strings]; [| rewrite IH]; reflexivity.
Qed.

Lemma py_join_names (l : list string) :
  py_join ", " (PList (map PStr l)) = Ok (String.concat ", " l).
Proof.
  unfold py_join. cbn [py_iter bind]. rewrite all_strings_map. reflexivity.
Qed.

(** X11: the comma-separated text boxes.  A list of names is shown
    joined by ", " and read back by splitting at commas and stripping
    each part; the two are inverse on names that have no comma and no
    white space around them, except for the list that holds only the
    empty name, which reads back as the empty list.  So a pass of the
    tier 1 form with the partition box untouched keeps such a stored list
    as it is, and likewise the primary keys and partition columns of
    tier 2. *)
Theorem comma_box_round_trip :
  (forall l : list string,
      forallb plain_name l = true ->
      l <> [EmptyString] ->
      comma_list (String.concat ", " l) = PList (map PStr l))
  /\ comma_list (String.concat ", " [EmptyString]) = PList []
  /\ (forall (ui : tier1_ui) (m m' : dict) (l : list string),
         t1_partition_columns ui = None ->
         dict_lookup "partition_columns" m = Some (PList (map PStr l)) ->
         forallb plain_name l = true ->
         l <> [EmptyString] ->
         render_tier1 ui m = Ok m' ->
         dict_lookup "partition_columns" m' = Some (PList (map PStr l)))
  /\ (forall (ui : tier2_ui) (m m' : dict) (keys parts : list string),
         t2_primary_keys ui = None ->
         t2_partition_columns ui = None ->
         dict_lookup "primary_keys" m = Some (PList (map PStr keys)) ->
         dict_lookup "partition_columns" m = Some (PList (map PStr parts)) ->
         forallb plain_name keys = true -> keys <> [EmptyString] ->
         forallb plain_name parts = true -> parts <> [EmptyString] ->
         render_tier2_fields ui m = Ok m' ->
         dict_lookup "primary_keys" m' = Some (PList (map PStr keys))
         /\ dict_lookup "partition_columns" m' = Some (PList (map PStr parts))).
Proof.
  split; [exact comma_list_joined |]. split; [reflexivity |]. split.
  - intros ui m m' l Hui Hstored Hall Hne Hrun.
    unfold render_tier1 in Hrun. rewrite Hui in Hrun.
    destruct (text_input (t1_schema ui) _) as [schema |]; [| discriminate Hrun].
    cbn [bind] in Hrun.
    destruct (text_input (t1_table ui) _) as [table |]; [| discriminate Hrun].
    cbn [bind] in Hrun.
    unfold dict_get at 1 in Hrun.
    repeat (rewrite dict_lookup_set_other in Hrun by discriminate).
    rewrite Hstored, py_join_names in Hrun.
    cbn [bind text_input] in Hrun.
    rewrite (comma_list_joined l Hall Hne) in Hrun.
    destruct (edit_rows _ _ _) as [tech |]; [| discriminate Hrun].
    cbn [bind] in Hrun. injection Hrun as <-.
    rewrite dict_lookup_set_other by discriminate.
    destruct (negb _);
      [rewrite dict_lookup_set_other by discriminate |];
      apply dict_lookup_set_same.
  - intros ui m m' keys parts Hk Hp Hkeys Hparts Hak Hnk Hap Hnp Hrun.
    unfold render_tier2_fields in Hrun. rewrite Hk, Hp in Hrun.
    destruct (text_input (t2_schema ui) _) as [schema |]; [| discriminate Hrun].
    cbn [bind] in Hrun.
    destruct (text_input (t2_table ui) _) as [table |]; [| discriminate Hrun].
    cbn [bind] in Hrun.
    unfold dict_get at 1 in Hrun.
    repeat (rewrite dict_lookup_set_other in Hrun by discriminate).
    rewrite Hkeys, py_join_names in Hrun.
    cbn [bind text_input] in Hrun.
    rewrite (comma_list_joined keys Hak Hnk) in Hrun.
    unfold dict_get at 1 in Hrun.
    repeat (rewrite dict_lookup_set_other in Hrun by discriminate).
    rewrite Hparts, py_join_names in Hrun.
    cbn [bind text_input] in Hrun.
    rewrite (comma_list_joined parts Hap Hnp) in Hrun.
    destruct (edit_rows _ _ _) as [tech |]; [| discriminate Hrun].
    cbn [bind] in Hrun. injection Hrun as <-.
    split.
    + rewrite dict_lookup_set_other by discriminate.
      destruct (negb _);
        [rewrite dict_lookup_set_other by discriminate |];
        (rewrite dict_lookup_set_other by discriminate);
        apply dict_lookup_set_same.
    + rewrite dict_lookup_set_other by discriminate.
      destruct (negb _);
        [rewrite dict_lookup_set_other by discriminate |];
        apply dict_lookup_set_same.
Qed.

Lemma comma_box_round_trip_witness :
  comma_list (String.concat ", " ["branch_code"; "plant_code"; "site_name"])
  = PList [PStr "branch_code"; PStr "plant_code"; PStr "site_name"].
Proof.
  apply (proj1 comma_box_round_trip ["branch_code"; "plant_code"; "site_name"]);
    [reflexivity | discriminate].
Defined.

(** ** The validator form *)

Lemma read_rules_well_formed (rows : list dict) :
  forall out, read_rules rows = Ok out -> Forall well_formed_rule out.
Proof.
  induction rows as [| row rows IH]; intros out Hrun.
  - injection Hrun as <-. constructor.
  - cbn [read_rules] in Hrun.
    destruct (py_item (PDict row) "rule") as [rule |]; [| discriminate Hrun].
    cbn [bind] in Hrun.
    destruct (truthy rule) eqn:Hrule.
    + destruct (py_item (PDict row) "columns") as [cols |]; [| discriminate Hrun].
      cbn [bind] in Hrun.
      destruct (truthy cols) eqn:Hcols.
      * destruct cols as [| | t | |]; try discriminate Hrun.
        cbn [split_columns bind] in Hrun.
        destruct (read_rules rows) as [rest |]; [| discriminate Hrun].
        cbn [bind app] in Hrun. injection Hrun as <-.
        constructor; [| apply IH; reflexivity].
        exists rule, (map strip (split_commas t)).
        rewrite map_map. split; [reflexivity |]. split; [exact Hrule |].
        intro Hnil. apply map_eq_nil in Hnil.
        exact (split_commas_nonempty t Hnil).
      * cbn [bind] in Hrun.
        destruct (read_rules rows) as [rest |]; [| discriminate Hrun].
        cbn [bind app] in Hrun. injection Hrun as <-. apply IH. reflexivity.
    + cbn [bind] in Hrun.
      destruct (read_rules rows) as [rest |]; [| discriminate Hrun].
      cbn [bind app] in Hrun. injection Hrun as <-. apply IH. reflexivity.
Qed.

Lemma edit_rules_well_formed (editor : data_editor) (tier tier' : dict) :
  edit_rules editor tier = Ok tier' ->
  (exists rules,
      dict_lookup "data_quality_rules" tier' = Some (PList rules)
      /\ Forall well_formed_rule rules)
  /\ (forall k, k <> "data_quality_rules" ->
                dict_lookup k tier' = dict_lookup k tier).
Proof.
  unfold edit_rules. intro Hrun.
  destruct (py_iter _) as [items |]; [| discriminate Hrun]. cbn [bind] in Hrun.
  destruct (rule_rows items) as [rows |]; [| discriminate Hrun].
  cbn [bind] in Hrun.
  destruct (read_rules (editor rows)) as [rules |] eqn:Hread;
    [| discriminate Hrun].
  cbn [bind] in Hrun. injection Hrun as <-. split.
  - exists rules. split; [apply dict_lookup_set_same |].
    exact (read_rules_well_formed _ _ Hread).
  - intros k Hk. apply dict_lookup_set_other. congruence.
Qed.

(** X12: what the validator form leaves behind.  After any successful
    pass both tiers exist, the control-file flag of tier 1 is 'y' or
    'n', and every stored rule of either tier has a non-empty rule name
    and a non-empty list of column names: rows without a rule name or
    without columns are dropped without a message.  The source and table
    sections are not touched. *)
Theorem validator_form_rules :
  forall (ui : validator_ui) (s s' : session),
    render_validator_config ui s = Ok s' ->
    (exists t1,
        py_path (validator_config s') ["tier1"] = Some (PDict t1)
        /\ is_flag_at "control_file_flag" t1)
    /\ (exists rules,
           stored_rules "tier1" s' = Some (PList rules)
           /\ Forall well_formed_rule rules)
    /\ (exists rules,
           stored_rules "tier2" s' = Some (PList rules)
           /\ Forall well_formed_rule rules)
    /\ source_config s' = source_config s
    /\ table_config s' = table_config s.
Proof.
  intros ui s s' Hrun. unfold render_validator_config in Hrun.
  destruct (validator_config s) as [| b | t | l | vc];
    cbn [py_contains bind] in Hrun;
    [ discriminate Hrun | discriminate Hrun
    | match type of Hrun with context [negb ?b] => destruct b end;
      cbn [negb py_setitem py_item bind] in Hrun; discriminate Hrun
    | match type of Hrun with context [negb ?b] => destruct b end;
      cbn [negb py_setitem py_item bind] in Hrun; discriminate Hrun
    | ].
  remember (if negb (dict_in "tier1" vc)
            then py_setitem (PDict vc) "tier1"
                   (PDict [ ("control_file_flag", PStr "y");
                            ("data_quality_rules", PList []) ])
            else Ok (PDict vc)) as step1 eqn:Hstep1.
  assert (H1 : exists vc1, step1 = Ok (PDict vc1) /\ dict_in "tier1" vc1 = true).
  { rewrite Hstep1. destruct (dict_in "tier1" vc) eqn:Hin; cbn [negb py_setitem].
    - exists vc. auto.
    - eexists. split; [reflexivity | apply dict_in_set_same]. }
  destruct H1 as (vc1 & -> & Hin1). cbn [bind py_item] in Hrun.
  unfold dict_in in Hin1.
  destruct (dict_lookup "tier1" vc1) as [t1v |]; [| discriminate Hin1].
  cbn [bind] in Hrun.
  destruct (as_dict t1v) as [t1 |]; [| discriminate Hrun]. cbn [bind] in Hrun.
  destruct (edit_rules (val_tier1_rules ui) _) as [t1' |] eqn:Hedit1;
    [| discriminate Hrun].
  cbn [bind py_setitem py_contains] in Hrun.
  destruct (edit_rules_well_formed _ _ _ Hedit1) as ((rules1 & Hr1 & Hwf1) & Hframe1).
  remember (dict_set "tier1" (PDict t1') vc1) as vc2 eqn:Hvc2.
  remember (if negb (dict_in "tier2" vc2)
            then Ok (PDict (dict_set "tier2"
                              (PDict [("data_quality_rules", PList [])]) vc2))
            else Ok (PDict vc2)) as step2 eqn:Hstep2.
  assert (H2 : exists vc3,
             step2 = Ok (PDict vc3) /\ dict_in "tier2" vc3 = true
             /\ dict_lookup "tier1" vc3 = Some (PDict t1')).
  { rewrite Hstep2. destruct (dict_in "tier2" vc2) eqn:Hin; cbn [negb py_setitem].
    - exists vc2. split; [reflexivity |]. split; [exact Hin |].
      rewrite Hvc2. apply dict_lookup_set_same.
    - eexists. split; [reflexivity |]. split; [apply dict_in_set_same |].
      rewrite dict_lookup_set_other by discriminate.
      rewrite Hvc2. apply dict_lookup_set_same. }
  destruct H2 as (vc3 & -> & Hin2 & Ht1). cbn [bind py_item] in Hrun.
  unfold dict_in in Hin2.
  destruct (dict_lookup "tier2" vc3) as [t2v |]; [| discriminate Hin2].
  cbn [bind] in Hrun.
  destruct (as_dict t2v) as [t2 |]; [| discriminate Hrun]. cbn [bind] in Hrun.
  destruct (edit_rules (val_tier2_rules ui) _) as [t2' |] eqn:Hedit2;
    [| discriminate Hrun].
  cbn [bind py_setitem] in Hrun. injection Hrun as <-.
  destruct (edit_rules_well_formed _ _ _ Hedit2) as ((rules2 & Hr2 & Hwf2) & _).
  cbn [validator_config source_config table_config set_validator_config].
  split.
  { exists t1'. split.
    - rewrite py_path_one. rewrite dict_lookup_set_other by discriminate.
      exact Ht1.
    - unfold is_flag_at. rewrite !Hframe1 by discriminate.
      apply flag_field_is_flag. }
  split.
  { exists rules1. split; [| exact Hwf1].
    unfold stored_rules. cbn [validator_config set_validator_config].
    rewrite py_path_cons.
    rewrite dict_lookup_set_other by discriminate. rewrite Ht1.
    rewrite py_path_one. exact Hr1. }
  split.
  { exists rules2. split; [| exact Hwf2].
    unfold stored_rules. cbn [validator_config set_validator_config].
    rewrite py_path_cons.
    rewrite dict_lookup_set_same. rewrite py_path_one. exact Hr2. }
  split; reflexivity.
Qed.

Lemma validator_form_rules_witness :
  exists s' rules,
    render_validator_config
      {| val_control_file_flag := None;
         val_tier1_rules :=
           fun rows => rows ++ [ [("rule", PStr "check_null"); ("columns", PStr "")];
                                 [("rule", PStr "check_null");
                                  ("columns", PStr "a, b")] ];
         val_tier2_rules := keep_rows |}
      initial_session = Ok s'
    /\ stored_rules "tier1" s' = Some (PList rules)
    /\ Forall well_formed_rule rules.
Proof.
  assert (Hrun : exists s',
             render_validator_config
               {| val_control_file_flag := None;
                  val_tier1_rules :=
                    fun rows =>
                      rows ++ [ [("rule", PStr "check_null"); ("columns", PStr "")];
                                [("rule", PStr "check_null");
                                 ("columns", PStr "a, b")] ];
                  val_tier2_rules := keep_rows |}
               initial_session = Ok s')
    by (eexists; vm_compute; reflexivity).
  destruct Hrun as [s' Hrun].
  destruct (validator_form_rules _ _ _ Hrun) as (_ & (rules & Hr & Hwf) & _).
  exists s', rules. auto.
Defined.

(** ** The table form *)

Lemma selectbox_two (a b : string) (index : nat) (user : option nat) :
  index < 2 ->
  selectbox [a; b] index user = a \/ selectbox [a; b] index user = b.
Proof.
  intro Hi. unfold selectbox.
  destruct index as [| [| ?]]; [| | lia];
    (destruct user as [[| [| [| ?]]] |]; simpl; auto).
Qed.

Lemma render_tier1_inv (ui : tier1_ui) (m m' : dict) :
  render_tier1 ui m = Ok m' ->
  dict_lookup "load_type" m'
  = Some (PStr (selectbox ["full_dump"; "incremental"]
                  (if pyval_eqb (dict_get "load_type" (PStr "full_dump") m)
                                (PStr "full_dump") then 0 else 1)
                  (t1_load_type ui)))
  /\ (exists schema, dict_lookup "schema" m' = Some (PStr schema))
  /\ (exists table, dict_lookup "table" m' = Some (PStr table))
  /\ (exists tech, dict_lookup "technical_columns" m' = Some (PList tech)).
Proof.
  unfold render_tier1. intro Hrun.
  destruct (text_input (t1_schema ui) _) as [schema |]; [| discriminate Hrun].
  cbn [bind] in Hrun.
  destruct (text_input (t1_table ui) _) as [table |]; [| discriminate Hrun].
  cbn [bind] in Hrun.
  destruct (py_join _ _) as [joined |]; [| discriminate Hrun].
  cbn [bind] in Hrun.
  destruct (text_input (t1_partition_columns ui) _) as [parts |];
    [| discriminate Hrun].
  cbn [bind] in Hrun.
  destruct (edit_rows _ _ _) as [tech |]; [| discriminate Hrun].
  cbn [bind] in Hrun. injection Hrun as <-.
  split; [| split; [| split]].
  - rewrite dict_lookup_set_other by discriminate.
    destruct (negb _);
      repeat (rewrite dict_lookup_set_other by discriminate);
      apply dict_lookup_set_same.
  - exists schema. rewrite dict_lookup_set_other by discriminate.
    destruct (negb _);
      repeat (rewrite dict_lookup_set_other by discriminate);
      apply dict_lookup_set_same.
  - exists table. rewrite dict_lookup_set_other by discriminate.
    destruct (negb _);
      repeat (rewrite dict_lookup_set_other by discriminate);
      apply dict_lookup_set_same.
  - exists tech. apply dict_lookup_set_same.
Qed.

(** X13: the tier 1 load type is always one of the two options.  After
    any successful pass of the tier 1 form the stored load type is
    'full_dump' or 'incremental'; with the selector untouched it is
    'full_dump' when the stored value was 'full_dump' or absent, and
    'incremental' for every other stored value. *)
Theorem tier1_load_type_normalised :
  forall (ui : tier1_ui) (m m' : dict),
    render_tier1 ui m = Ok m' ->
    (dict_lookup "load_type" m' = Some (PStr "full_dump")
     \/ dict_lookup "load_type" m' = Some (PStr "incremental"))
    /\ (t1_load_type ui = None ->
        dict_lookup "load_type" m'
        = Some (PStr (match dict_lookup "load_type" m with
                      | None => "full_dump"
                      | Some v => if pyval_eqb v (PStr "full_dump")
                                  then "full_dump" else "incremental"
                      end))).
Proof.
  intros ui m m' Hrun.
  destruct (render_tier1_inv ui m m' Hrun) as (Hlt & _).
  rewrite Hlt. split.
  - assert (Hi : (if pyval_eqb (dict_get "load_type" (PStr "full_dump") m)
                                (PStr "full_dump") then 0 else 1) < 2)
      by (destruct (pyval_eqb _ _); lia).
    destruct (selectbox_two "full_dump" "incremental" _ (t1_load_type ui) Hi)
      as [-> | ->]; auto.
  - intros ->. unfold dict_get.
    destruct (dict_lookup "load_type" m) as [v |]; [| reflexivity].
    destruct (pyval_eqb v (PStr "full_dump")); reflexivity.
Qed.

Lemma tier1_load_type_normalised_witness :
  exists m',
    render_tier1
      {| t1_load_type := None; t1_schema := None; t1_table := None;
         t1_partition_columns := None; t1_technical_columns := keep_rows |}
      [("load_type", PStr "append")] = Ok m'
    /\ dict_lookup "load_type" m' = Some (PStr "incremental").
Proof.
  assert (Hrun : exists m',
             render_tier1
               {| t1_load_type := None; t1_schema := None; t1_table := None;
                  t1_partition_columns := None;
                  t1_technical_columns := keep_rows |}
               [("load_type", PStr "append")] = Ok m')
    by (eexists; vm_compute; reflexivity).
  destruct Hrun as [m' Hrun]. exists m'. split; [exact Hrun |].
  exact (proj2 (tier1_load_type_normalised _ _ _ Hrun) eq_refl).
Defined.

(** ** Writing the file *)

Lemma file_lookup_filter_other (p q : string) (files : list (string * string)) :
  q <> p ->
  file_lookup q (filter (fun qc => negb (fst qc =? p)) files) = file_lookup q files.
Proof.
  intro Hne. induction files as [| [r c] files IH]; [reflexivity |].
  cbn [filter fst file_lookup].
  destruct (r =? p) eqn:Hrp; cbn [negb].
  - apply String.eqb_eq in Hrp. subst r.
    destruct (p =? q) eqn:Hpq; [| exact IH].
    apply String.eqb_eq in Hpq. congruence.
  - cbn [file_lookup]. destruct (r =? q); [reflexivity | exact IH].
Qed.

Lemma makedirs_effect (p : string) (fs fs1 : filesystem) :
  makedirs true p fs = Ok fs1 ->
  fs_files fs1 = fs_files fs
  /\ is_dir p fs1 = true
  /\ (forall d, is_dir d fs = true -> is_dir d fs1 = true).
Proof.
  unfold makedirs.
  destruct (p =? ""); [discriminate |].
  destruct (is_file p fs); [discriminate |].
  destruct (is_dir p fs) eqn:Hd; intro H; injection H as <-.
  - auto.
  - split; [reflexivity |]. split.
    + unfold is_dir. cbn [fs_dirs existsb]. rewrite String.eqb_refl. reflexivity.
    + intros d Hdir. unfold is_dir in *. cbn [fs_dirs existsb].
      rewrite Hdir. apply orb_true_r.
Qed.

(** X14: what [create_yaml_file] does to the file system.  On success
    the returned path is the directory joined with the file name, that
    file holds the document written in insertion order, the output
    directory exists, every directory that existed still does, and every
    other file has the content it had; on failure no file is created or
    changed. *)
Theorem create_yaml_file_effect :
  forall (config : pyval) (filename dir : string) (fs fs' : filesystem)
         (r : result string),
    create_yaml_file config filename dir fs = (fs', r) ->
    match r with
    | Ok path =>
        path = path_join dir filename
        /\ file_lookup path (fs_files fs') = Some (Yaml.dump false config)
        /\ is_dir dir fs' = true
        /\ (forall d, is_dir d fs = true -> is_dir d fs' = true)
        /\ (forall q, q <> path ->
                      file_lookup q (fs_files fs') = file_lookup q (fs_files fs))
    | Raise _ => fs_files fs' = fs_files fs
    end.
Proof.
  intros config filename dir fs fs' r. unfold create_yaml_file.
  destruct (makedirs true dir fs) as [fs1 | e] eqn:Hmk.
  - destruct (makedirs_effect dir fs fs1 Hmk) as (Hfiles & Hdir & Hdirs).
    unfold write_file.
    destruct (path_join dir filename =? "").
    { intro H. injection H as <- <-. exact Hfiles. }
    destruct (is_dir (path_join dir filename) fs1).
    { intro H. injection H as <- <-. exact Hfiles. }
    intro H. injection H as <- <-.
    split; [reflexivity |].
    split; [cbn [fs_files file_lookup]; rewrite String.eqb_refl; reflexivity |].
    split; [exact Hdir |].
    split; [exact Hdirs |].
    intros q Hq. cbn [fs_files file_lookup].
    destruct (path_join dir filename =? q) eqn:E.
    + apply String.eqb_eq in E. congruence.
    + rewrite file_lookup_filter_other by exact Hq. rewrite Hfiles. reflexivity.
  - intro H. injection H as <- <-. reflexivity.
Qed.

Lemma create_yaml_file_effect_witness :
  exists fs' path,
    create_yaml_file (PDict [("a", PStr "b")]) "pipeline.yml" "out"
      (mkFs ["out"] [("out/other.yml", "kept")]) = (fs', Ok path)
    /\ file_lookup "out/other.yml" (fs_files fs') = Some "kept".
Proof.
  assert (Hrun : exists fs' path,
             create_yaml_file (PDict [("a", PStr "b")]) "pipeline.yml" "out"
               (mkFs ["out"] [("out/other.yml", "kept")]) = (fs', Ok path)
             /\ path = "out/pipeline.yml")
    by (do 2 eexists; split; vm_compute; reflexivity).
  destruct Hrun as (fs' & path & Hrun & Hpath).
  exists fs', path. split; [exact Hrun |].
  pose proof (create_yaml_file_effect _ _ _ _ _ _ Hrun) as H.
  cbv beta iota in H. destruct H as (_ & _ & _ & _ & Hother).
  rewrite (Hother "out/other.yml") by (rewrite Hpath; discriminate).
  reflexivity.
Defined.

(** ** Documents whose table metadata is not a mapping *)

(** X15: the export page cannot show a document whose [metadata], or
    whose [tier1] or [tier2] under it, is present but is not a
    dictionary (as an uploaded file with an empty [metadata:] entry
    gives): the required-field checks raise [AttributeError] before
    anything is displayed or written, whereas an absent key counts as an
    empty record. *)
Theorem export_raises_on_malformed_metadata :
  forall (ui : generate_ui) (s : session) (fs : filesystem)
         (sc tc : dict) (v : pyval),
    source_config s = PDict sc ->
    table_config s = PDict tc ->
    not_a_dict v = true ->
    (dict_lookup "metadata" tc = Some v
     \/ exists md, dict_lookup "metadata" tc = Some (PDict md)
                   /\ (dict_lookup "tier1" md = Some v
                       \/ dict_lookup "tier2" md = Some v)) ->
    render_generate_yaml ui s fs = Raise AttributeError.
Proof.
  intros ui s fs sc tc v Hsc Htc Hv Hwhere.
  unfold render_generate_yaml, check_required_fields.
  rewrite Hsc, Htc. cbn [py_get bind]. unfold dict_get.
  destruct (negb (truthy match dict_lookup "source_system" sc with
                         | Some v0 => v0 | None => PNone end)).
  - destruct Hwhere as [Hmd | (md & Hmd & Ht)]; rewrite Hmd.
    + destruct v; try discriminate Hv; reflexivity.
    + cbn [py_get bind]. unfold dict_get.
      destruct Ht as [Ht | Ht]; rewrite Ht.
      * destruct v; try discriminate Hv;
          destruct (dict_lookup "tier2" md) as [[| | | |] |]; reflexivity.
      * destruct (dict_lookup "tier1" md) as [[| | | | t1] |];
          try reflexivity;
          cbn [py_get bind];
          match goal with
          | |- context [if ?b then _ else _] => destruct b
          end;
          destruct v; try discriminate Hv; reflexivity.
  - destruct Hwhere as [Hmd | (md & Hmd & Ht)]; rewrite Hmd.
    + destruct v; try discriminate Hv; reflexivity.
    + cbn [py_get bind]. unfold dict_get.
      destruct Ht as [Ht | Ht]; rewrite Ht.
      * destruct v; try discriminate Hv;
          destruct (dict_lookup "tier2" md) as [[| | | |] |]; reflexivity.
      * destruct (dict_lookup "tier1" md) as [[| | | | t1] |];
          try reflexivity;
          cbn [py_get bind];
          match goal with
          | |- context [if ?b then _ else _] => destruct b
          end;
          destruct v; try discriminate Hv; reflexivity.
Qed.

Lemma export_raises_on_malformed_metadata_witness :
  render_generate_yaml save_pressed
    (set_table_config (PDict [("metadata", PDict [("tier2", PNone)])])
       initial_session) empty_fs
  = Raise AttributeError.
Proof.
  apply (export_raises_on_malformed_metadata save_pressed _ empty_fs
           [] [("metadata", PDict [("tier2", PNone)])] PNone);
    [reflexivity | reflexivity | reflexivity |].
  right. exists [("tier2", PNone)]. split; [reflexivity | right; reflexivity].
Defined.

(** X16: the table page cannot repair such a document either.  When
    [metadata] is present and is not a dictionary, [render_table_config]
    raises [TypeError] at the test for (or the assignment of) [tier1],
    whatever the user enters; nothing is stored. *)
Theorem table_form_raises_on_malformed_metadata :
  forall (ui1 : tier1_ui) (ui2 : tier2_ui) (s : session) (tc : dict) (v : pyval),
    table_config s = PDict tc ->
    dict_lookup "metadata" tc = Some v ->
    not_a_dict v = true ->
    render_table_config ui1 ui2 s = Raise TypeError.
Proof.
  intros ui1 ui2 s tc v Htc Hmd Hv.
  unfold render_table_config. rewrite Htc.
  cbn [py_contains bind]. unfold dict_in. rewrite Hmd. cbn [negb bind py_item].
  rewrite Hmd. cbn [bind].
  destruct v as [| b | t | l | d]; try discriminate Hv.
  - reflexivity.
  - reflexivity.
  - cbn [py_contains bind]. destruct (is_substring "tier1" t); reflexivity.
  - cbn [py_contains bind].
    destruct (existsb (pyval_eqb (PStr "tier1")) l); reflexivity.
Qed.

Lemma table_form_raises_on_malformed_metadata_witness :
  render_table_config
    {| t1_load_type := None; t1_schema := None; t1_table := Some "orders";
       t1_partition_columns := None; t1_technical_columns := keep_rows |}
    keep_all
    (set_table_config (PDict [("metadata", PStr "tier1, tier2")]) initial_session)
  = Raise TypeError.
Proof.
  apply (table_form_raises_on_malformed_metadata _ _ _
           [("metadata", PStr "tier1, tier2")] (PStr "tier1, tier2"));
    reflexivity.
Defined.

(** ** What each page touches *)

Lemma bind_ok {A B : Type} (m : result A) (k : A -> result B) (b : B) :
  bind m k = Ok b -> exists a, m = Ok a /\ k a = Ok b.
Proof. destruct m as [a | e]; cbn [bind]; [eauto | discriminate]. Qed.

Ltac bind_inv H :=
  repeat (cbv zeta in H;
          match type of H with
          | bind _ _ = Ok _ =>
              let x := fresh "x" in
              let Hx := fresh "Hx" in
              apply bind_ok in H; destruct H as (x & Hx & H); cbv beta in H
          end).

Lemma render_source_config_frame (ui : source_ui) (s s' : session) :
  render_source_config ui s = Ok s' ->
  validator_config s' = validator_config s
  /\ table_config s' = table_config s
  /\ column_mappings s' = column_mappings s
  /\ output_dir s' = output_dir s.
Proof.
  unfold render_source_config. intro H. bind_inv H.
  injection H as <-. repeat split.
Qed.

Lemma render_validator_config_frame (ui : validator_ui) (s s' : session) :
  render_validator_config ui s = Ok s' ->
  source_config s' = source_config s
  /\ table_config s' = table_config s
  /\ column_mappings s' = column_mappings s
  /\ output_dir s' = output_dir s.
Proof.
  unfold render_validator_config. intro H. bind_inv H.
  injection H as <-. repeat split.
Qed.

Lemma render_table_config_frame (ui1 : tier1_ui) (ui2 : tier2_ui) (s s' : session) :
  render_table_config ui1 ui2 s = Ok s' ->
  source_config s' = source_config s
  /\ validator_config s' = validator_config s
  /\ column_mappings s' = column_mappings s
  /\ output_dir s' = output_dir s
  /\ stored_columns s' = stored_columns s.
Proof.
  unfold render_table_config. intro H.
  destruct (table_config s) as [| b | t | l | tc] eqn:Htc.
  - discriminate H.
  - discriminate H.
  - cbn [py_contains bind] in H.
    destruct (negb (is_substring "metadata" t)); discriminate H.
  - cbn [py_contains bind] in H.
    destruct (negb (existsb (pyval_eqb (PStr "metadata")) l)); discriminate H.
  - cbn [py_contains bind] in H.
    assert (Hstep : exists tc1,
               (if negb (dict_in "metadata" tc)
                then py_setitem (PDict tc) "metadata"
                       (PDict [("tier1", PDict []); ("tier2", PDict [])])
                else Ok (PDict tc)) = Ok (PDict tc1)
               /\ dict_lookup "columns" tc1 = dict_lookup "columns" tc).
    { destruct (negb (dict_in "metadata" tc)).
      - eexists. split; [reflexivity |].
        apply dict_lookup_set_other. discriminate.
      - exists tc. split; reflexivity. }
    destruct Hstep as (tc1 & Hstep & Hcols). rewrite Hstep in H.
    cbn [bind] in H. bind_inv H.
    injection H as <-.
    match goal with
    | Hset : py_setitem (PDict tc1) "metadata" _ = Ok _ |- _ =>
        cbn [py_setitem] in Hset; injection Hset as <-
    end.
    repeat split.
    unfold stored_columns. cbn [table_config set_table_config].
    rewrite Htc, !py_path_one.
    rewrite dict_lookup_set_other by discriminate. exact Hcols.
Qed.

(** Making sure a tier record exists and reading it (lines 695-700 and
    775-778). *)
Lemma ensure_tier (tier : string) (m : dict) (has : bool) (x2 x3 : pyval)
    (x4 : dict) :
  py_contains tier (PDict m) = Ok has ->
  (if negb has then py_setitem (PDict m) tier (PDict []) else Ok (PDict m))
  = Ok x2 ->
  py_item x2 tier = Ok x3 ->
  as_dict x3 = Ok x4 ->
  exists m2,
    x2 = PDict m2
    /\ x4 = record_of (dict_lookup tier m)
    /\ (forall k, tier <> k -> dict_lookup k m2 = dict_lookup k m).
Proof.
  cbn [py_contains]. unfold dict_in. intros Hhas Hset Hitem Hdict.
  destruct (dict_lookup tier m) as [v |] eqn:Hv;
    injection Hhas as <-; cbn [negb py_setitem] in Hset;
    injection Hset as <-; cbn [py_item] in Hitem.
  - rewrite Hv in Hitem. injection Hitem as <-.
    destruct v as [| | | | d]; try discriminate Hdict.
    injection Hdict as <-.
    exists m. repeat split.
  - rewrite dict_lookup_set_same in Hitem. injection Hitem as <-.
    injection Hdict as <-.
    eexists. split; [reflexivity |]. split; [reflexivity |].
    intros k Hk. apply dict_lookup_set_other. exact Hk.
Qed.

(** The table page runs the tier 1 form on the stored tier 1 record and
    the tier 2 form on the stored tier 2 record, and stores both results. *)
Lemma render_table_config_inv (ui1 : tier1_ui) (ui2 : tier2_ui) (s s' : session) :
  render_table_config ui1 ui2 s = Ok s' ->
  exists t1' t2',
    render_tier1 ui1 (stored_tier "tier1" s) = Ok t1'
    /\ render_tier2 ui2 (stored_tier "tier2" s) = Ok t2'
    /\ py_path (table_config s') ["metadata"; "tier1"] = Some (PDict t1')
    /\ py_path (table_config s') ["metadata"; "tier2"] = Some (PDict t2').
Proof.
  unfold render_table_config, stored_tier. intro H.
  destruct (table_config s) as [| b | t | l | tc] eqn:Htc.
  - discriminate H.
  - discriminate H.
  - cbn [py_contains bind] in H.
    destruct (negb (is_substring "metadata" t)); discriminate H.
  - cbn [py_contains bind] in H.
    destruct (negb (existsb (pyval_eqb (PStr "metadata")) l)); discriminate H.
  - cbn [py_contains bind] in H. bind_inv H. injection H as <-.
    cbn [table_config set_table_config].
    assert (Hmeta : exists tcx md,
               x = PDict tcx /\ x0 = PDict md
               /\ record_of (dict_lookup "tier1" md)
                  = record_of (py_path (PDict tc) ["metadata"; "tier1"])
               /\ record_of (dict_lookup "tier2" md)
                  = record_of (py_path (PDict tc) ["metadata"; "tier2"])).
    { rewrite !py_path_cons. unfold dict_in in Hx.
      destruct (dict_lookup "metadata" tc) as [v |] eqn:Hv;
        cbn [negb py_setitem] in Hx; injection Hx as <-; cbn [py_item] in Hx0.
      - rewrite Hv in Hx0. injection Hx0 as <-.
        destruct v as [| | | | md].
        + discriminate Hx1.
        + discriminate Hx1.
        + destruct x1; cbn [negb py_setitem] in Hx2;
            [injection Hx2 as <-; discriminate Hx3 | discriminate Hx2].
        + destruct x1; cbn [negb py_setitem] in Hx2;
            [injection Hx2 as <-; discriminate Hx3 | discriminate Hx2].
        + exists tc, md. rewrite !py_path_one. repeat split.
      - rewrite dict_lookup_set_same in Hx0. injection Hx0 as <-.
        do 2 eexists. split; [reflexivity |]. split; [reflexivity |].
        split; reflexivity. }
    destruct Hmeta as (tcx & md & -> & -> & Hr1 & Hr2).
    destruct (ensure_tier "tier1" md x1 x2 x3 x4 Hx1 Hx2 Hx3 Hx4)
      as (m2 & -> & -> & Hm2).
    cbn [py_setitem] in Hx6. injection Hx6 as <-.
    destruct (ensure_tier "tier2" _ x7 x8 x9 x10 Hx7 Hx8 Hx9 Hx10)
      as (m8 & -> & -> & Hm8).
    cbn [py_setitem] in Hx12. injection Hx12 as <-.
    cbn [py_setitem] in Hx13. injection Hx13 as <-.
    rewrite dict_lookup_set_other, Hm2 in Hx11 by discriminate.
    rewrite Hr1 in Hx5. rewrite Hr2 in Hx11.
    exists x5, x11.
    split; [exact Hx5 |]. split; [exact Hx11 |].
    rewrite !py_path_cons, dict_lookup_set_same, !py_path_one.
    split.
    + rewrite dict_lookup_set_other, Hm8 by discriminate.
      apply dict_lookup_set_same.
    + apply dict_lookup_set_same.
Qed.

(** After the tier 2 form the stored load type is one of the two options
    and the historical columns are there exactly for SCD2. *)
Lemma render_tier2_invariant (ui : tier2_ui) (m m' : dict) :
  render_tier2 ui m = Ok m' ->
  exists lt : string,
    dict_lookup "load_type" m' = Some (PStr lt)
    /\ (lt = "scd1" \/ lt = "scd2")
    /\ (dict_in HISTORICAL m' = true <-> lt = "scd2").
Proof.
  intro Hrun. unfold render_tier2 in Hrun.
  destruct (select_load_type (t2_load_type ui) m) as [m1 |] eqn:H1;
    [| discriminate]. cbn [bind] in Hrun.
  destruct (render_tier2_fields ui m1) as [m2 |] eqn:H2;
    [| discriminate]. cbn [bind] in Hrun.
  destruct (render_tier2_fields_frame ui m1 m2 H2) as [Hlt2 _].
  destruct (select_load_type_result _ _ _ H1) as [Hlt | Hlt];
    rewrite <- Hlt2 in Hlt;
    destruct (render_historical_invariant _ _ _ _ Hlt Hrun) as [Hkeep Hinv].
  - exists "scd1". split; [exact Hkeep |]. split; [auto |].
    rewrite Hinv. split; discriminate.
  - exists "scd2". split; [exact Hkeep |]. split; [auto |].
    rewrite Hinv. split; reflexivity.
Qed.

(** X17: what the table page stores.  After a successful pass of
    [render_table_config], whatever the user entered: the [tier1] and
    [tier2] entries of [metadata] are the results of the two tier forms
    run on the records stored before (empty when absent); the tier 1 load
    type is [full_dump] or [incremental]; the tier 2 load type is [scd1]
    or [scd2] and the historical columns are present exactly for [scd2];
    the [columns] of the table section, the other sections and the output
    directory are as they were. *)
Theorem table_form_result :
  forall (ui1 : tier1_ui) (ui2 : tier2_ui) (s s' : session),
    render_table_config ui1 ui2 s = Ok s' ->
    (exists t1 t2 : dict,
        render_tier1 ui1 (stored_tier "tier1" s) = Ok t1
        /\ render_tier2 ui2 (stored_tier "tier2" s) = Ok t2
        /\ py_path (table_config s') ["metadata"; "tier1"] = Some (PDict t1)
        /\ py_path (table_config s') ["metadata"; "tier2"] = Some (PDict t2)
        /\ (dict_lookup "load_type" t1 = Some (PStr "full_dump")
            \/ dict_lookup "load_type" t1 = Some (PStr "incremental"))
        /\ (exists lt : string,
               dict_lookup "load_type" t2 = Some (PStr lt)
               /\ (lt = "scd1" \/ lt = "scd2")
               /\ (dict_in HISTORICAL t2 = true <-> lt = "scd2")))
    /\ stored_columns s' = stored_columns s
    /\ source_config s' = source_config s
    /\ validator_config s' = validator_config s
    /\ column_mappings s' = column_mappings s
    /\ output_dir s' = output_dir s.
Proof.
  intros ui1 ui2 s s' Hrun.
  destruct (render_table_config_inv ui1 ui2 s s' Hrun)
    as (t1 & t2 & H1 & H2 & Hp1 & Hp2).
  destruct (render_table_config_frame ui1 ui2 s s' Hrun)
    as (Hsc & Hvc & Hcm & Hod & Hcols).
  split; [| repeat split; assumption].
  exists t1, t2.
  split; [exact H1 |]. split; [exact H2 |].
  split; [exact Hp1 |]. split; [exact Hp2 |].
  split.
  - destruct (render_tier1_inv ui1 _ t1 H1) as (Hlt & _). rewrite Hlt.
    assert (Hi : (if pyval_eqb (dict_get "load_type" (PStr "full_dump")
                                  (stored_tier "tier1" s))
                               (PStr "full_dump") then 0 else 1) < 2)
      by (destruct (pyval_eqb _ _); lia).
    destruct (selectbox_two "full_dump" "incremental" _ (t1_load_type ui1) Hi)
      as [-> | ->]; auto.
  - exact (render_tier2_invariant ui2 _ t2 H2).
Qed.

Lemma table_form_result_witness :
  exists s',
    render_table_config
      {| t1_load_type := Some 1; t1_schema := None; t1_table := Some "orders";
         t1_partition_columns := None; t1_technical_columns := keep_rows |}
      keep_all
      (set_table_config (PDict [("columns", PList [PStr "kept"])]) initial_session)
    = Ok s'
    /\ stored_columns s' = Some (PList [PStr "kept"]).
Proof.
  assert (Hrun : exists s',
             render_table_config
               {| t1_load_type := Some 1; t1_schema := None;
                  t1_table := Some "orders"; t1_partition_columns := None;
                  t1_technical_columns := keep_rows |}
               keep_all
               (set_table_config (PDict [("columns", PList [PStr "kept"])])
                  initial_session) = Ok s')
    by (eexists; vm_compute; reflexivity).
  destruct Hrun as [s' Hrun]. exists s'. split; [exact Hrun |].
  destruct (table_form_result _ _ _ _ Hrun) as (_ & Hcols & _).
  rewrite Hcols. reflexivity.
Defined.

Lemma render_column_mappings_frame (ui : mappings_ui) (s s' : session)
    (msgs : list ui_msg) :
  render_column_mappings ui s = Ok (s', msgs) ->
  source_config s' = source_config s
  /\ validator_config s' = validator_config s
  /\ column_mappings s' = column_mappings s
  /\ output_dir s' = output_dir s.
Proof.
  unfold render_column_mappings. intro H. bind_inv H.
  destruct (ui_uploaded_csv ui) as [df |].
  - destruct (bulk_check df) as [[rows | m | m] | e];
      try (injection H as <- <-; repeat split).
    destruct (ui_add_mappings ui); [| injection H as <- <-; repeat split].
    destruct (py_extend _ _) as [cols | e];
      [| injection H as <- <-; repeat split].
    bind_inv H. injection H as <- <-. repeat split.
  - injection H as <- <-. repeat split.
Qed.

Lemma render_generate_yaml_frame (ui : generate_ui) (s s' : session)
    (fs fs' : filesystem) (msgs : list ui_msg) :
  render_generate_yaml ui s fs = Ok (s', msgs, fs') ->
  s' = s /\ (ui_save ui = false -> fs' = fs).
Proof.
  unfold render_generate_yaml. intro H.
  apply bind_ok in H. destruct H as ([has errors] & _ & H).
  bind_inv H.
  destruct (ui_save ui).
  - destruct (save_to_file _ _ _ _) as [fs1 [path | e]];
      injection H as <- <- <-; split; [reflexivity | discriminate
                                       | reflexivity | discriminate].
  - injection H as <- <- <-. split; reflexivity.
Qed.

Lemma render_sidebar_inv (ui : sidebar_ui) (s s1 : session) (msgs : list ui_msg)
    (section out : string) :
  render_sidebar ui s = Ok (s1, msgs, (section, out)) ->
  section = selectbox sections 0 (ui_section ui)
  /\ out = match ui_output_dir ui with
           | Some d => d
           | None => "./pipeline_configs"
           end
  /\ (sidebar_idle ui = true -> s1 = s).
Proof.
  unfold render_sidebar, sidebar_idle. intro H.
  destruct (ui_load_template ui).
  - destruct (load_template _ s) as [s0 msgs1].
    apply bind_ok in H. destruct H as ([s2 msgs2] & _ & H).
    apply bind_ok in H. destruct H as (d & Hd & H).
    injection H as <- <- <- <-.
    split; [reflexivity |]. split; [| discriminate].
    destruct (ui_output_dir ui); injection Hd as <-; reflexivity.
  - apply bind_ok in H. destruct H as ([s2 msgs2] & Hup & H).
    apply bind_ok in H. destruct H as (d & Hd & H).
    injection H as <- <- <- <-.
    split; [reflexivity |]. split.
    + destruct (ui_output_dir ui); injection Hd as <-; reflexivity.
    + destruct (ui_uploaded_file ui); [discriminate |].
      intros _. injection Hup as <- _. reflexivity.
Qed.

(** X18: what one run of [main] does.  After a successful run the
    session holds the output directory entered in the sidebar (the
    default [./pipeline_configs] when nothing was entered), whichever
    page was shown; the file system is as it was unless the page is
    "Generate YAML" and "Save to File" was pressed; and, with no template
    loaded and no file uploaded, only the section of the page shown can
    change: the source section on the source page, the validator section
    on the validator page, the table section on the table and
    column-mapping pages. *)
Theorem main_effects :
  forall (ui : main_ui) (s s' : session) (fs fs' : filesystem)
         (msgs : list ui_msg),
    main ui s fs = Ok (s', msgs, fs') ->
    output_dir s'
    = Some (match ui_output_dir (m_sidebar ui) with
            | Some d => d
            | None => "./pipeline_configs"
            end)
    /\ (fs' = fs
        \/ (selected_section ui = "Generate YAML"
            /\ ui_save (m_generate ui) = true))
    /\ (sidebar_idle (m_sidebar ui) = true ->
        (selected_section ui <> "Source Configuration" ->
         source_config s' = source_config s)
        /\ (selected_section ui <> "Validator Configuration" ->
            validator_config s' = validator_config s)
        /\ (selected_section ui <> "Table Configuration" ->
            selected_section ui <> "Column Mappings" ->
            table_config s' = table_config s)
        /\ column_mappings s' = column_mappings s).
Proof.
  intros ui s s' fs fs' msgs H. unfold main in H.
  apply bind_ok in H. destruct H as ([[s1 msgs1] [section out]] & Hside & H).
  destruct (render_sidebar_inv _ _ _ _ _ _ Hside) as (Hsec & Hout & Hidle).
  fold (selected_section ui) in Hsec. subst section out.
  set (dir := match ui_output_dir (m_sidebar ui) with
              | Some d => d
              | None => "./pipeline_configs"
              end) in *.
  assert (Hbase : sidebar_idle (m_sidebar ui) = true ->
                  source_config (set_output_dir dir s1) = source_config s
                  /\ validator_config (set_output_dir dir s1) = validator_config s
                  /\ table_config (set_output_dir dir s1) = table_config s
                  /\ column_mappings (set_output_dir dir s1) = column_mappings s).
  { intro Hi. rewrite (Hidle Hi). repeat split. }
  destruct (selected_section ui =? "Source Configuration") eqn:E1.
  { apply String.eqb_eq in E1.
    apply bind_ok in H. destruct H as (s2 & Hrun & H). injection H as <- <- <-.
    destruct (render_source_config_frame _ _ _ Hrun) as (Hvc & Htc & Hcm & Hod).
    split; [rewrite Hod; reflexivity |]. split; [left; reflexivity |].
    intro Hi. destruct (Hbase Hi) as (Bsc & Bvc & Btc & Bcm).
    rewrite Hvc, Htc, Hcm, E1.
    split; [intro Hne; contradiction Hne; reflexivity |].
    split; [intros _; exact Bvc |]. split; [intros _ _; exact Btc | exact Bcm]. }
  destruct (selected_section ui =? "Validator Configuration") eqn:E2.
  { apply String.eqb_eq in E2.
    apply bind_ok in H. destruct H as (s2 & Hrun & H). injection H as <- <- <-.
    destruct (render_validator_config_frame _ _ _ Hrun) as (Hsc & Htc & Hcm & Hod).
    split; [rewrite Hod; reflexivity |]. split; [left; reflexivity |].
    intro Hi. destruct (Hbase Hi) as (Bsc & Bvc & Btc & Bcm).
    rewrite Hsc, Htc, Hcm, E2.
    split; [intros _; exact Bsc |].
    split; [intro Hne; contradiction Hne; reflexivity |].
    split; [intros _ _; exact Btc | exact Bcm]. }
  destruct (selected_section ui =? "Table Configuration") eqn:E3.
  { apply String.eqb_eq in E3.
    apply bind_ok in H. destruct H as (s2 & Hrun & H). injection H as <- <- <-.
    destruct (render_table_config_frame _ _ _ _ Hrun)
      as (Hsc & Hvc & Hcm & Hod & _).
    split; [rewrite Hod; reflexivity |]. split; [left; reflexivity |].
    intro Hi. destruct (Hbase Hi) as (Bsc & Bvc & Btc & Bcm).
    rewrite Hsc, Hvc, Hcm, E3.
    split; [intros _; exact Bsc |]. split; [intros _; exact Bvc |].
    split; [intro Hne; contradiction Hne; reflexivity | exact Bcm]. }
  destruct (selected_section ui =? "Column Mappings") eqn:E4.
  { apply String.eqb_eq in E4.
    apply bind_ok in H. destruct H as ([s2 msgs2] & Hrun & H).
    injection H as <- <- <-.
    destruct (render_column_mappings_frame _ _ _ _ Hrun) as (Hsc & Hvc & Hcm & Hod).
    split; [rewrite Hod; reflexivity |]. split; [left; reflexivity |].
    intro Hi. destruct (Hbase Hi) as (Bsc & Bvc & Btc & Bcm).
    rewrite Hsc, Hvc, Hcm, E4.
    split; [intros _; exact Bsc |]. split; [intros _; exact Bvc |].
    split; [intros _ Hne; contradiction Hne; reflexivity | exact Bcm]. }
  apply String.eqb_neq in E1, E2, E3, E4.
  destruct (selected_section ui =? "Generate YAML") eqn:E5.
  { apply String.eqb_eq in E5.
    apply bind_ok in H. destruct H as ([[s2 msgs2] fs2] & Hrun & H).
    injection H as <- <- <-.
    destruct (render_generate_yaml_frame _ _ _ _ _ _ Hrun) as (-> & Hfs).
    split; [reflexivity |]. split.
    - destruct (ui_save (m_generate ui)); [right; auto | left; auto].
    - intro Hi. destruct (Hbase Hi) as (Bsc & Bvc & Btc & Bcm). auto. }
  injection H as <- <- <-.
  split; [reflexivity |]. split; [left; reflexivity |].
  intro Hi. destruct (Hbase Hi) as (Bsc & Bvc & Btc & Bcm). auto.
Qed.

Lemma main_effects_witness :
  exists s' msgs fs',
    main {| m_sidebar := {| ui_section := Some 2; ui_template_option := None;
                            ui_load_template := false; ui_uploaded_file := None;
                            ui_output_dir := Some "configs" |};
            m_source := untouched_source;
            m_validator := {| val_control_file_flag := None;
                              val_tier1_rules := keep_rows;
                              val_tier2_rules := keep_rows |};
            m_tier1 := {| t1_load_type := None; t1_schema := None;
                          t1_table := Some "orders"; t1_partition_columns := None;
                          t1_technical_columns := keep_rows |};
            m_tier2 := keep_all;
            m_mappings := {| ui_mappings_editor := keep_rows;
                             ui_uploaded_csv := None; ui_add_mappings := false |};
            m_generate := save_pressed |}
         initial_session empty_fs = Ok (s', msgs, fs')
    /\ output_dir s' = Some "configs"
    /\ fs' = empty_fs
    /\ source_config s' = source_config initial_session.
Proof.
  assert (Hrun : exists s' msgs fs',
    main {| m_sidebar := {| ui_section := Some 2; ui_template_option := None;
                            ui_load_template := false; ui_uploaded_file := None;
                            ui_output_dir := Some "configs" |};
            m_source := untouched_source;
            m_validator := {| val_control_file_flag := None;
                              val_tier1_rules := keep_rows;
                              val_tier2_rules := keep_rows |};
            m_tier1 := {| t1_load_type := None; t1_schema := None;
                          t1_table := Some "orders"; t1_partition_columns := None;
                          t1_technical_columns := keep_rows |};
            m_tier2 := keep_all;
            m_mappings := {| ui_mappings_editor := keep_rows;
                             ui_uploaded_csv := None; ui_add_mappings := false |};
            m_generate := save_pressed |}
         initial_session empty_fs = Ok (s', msgs, fs'))
    by (do 3 eexists; vm_compute; reflexivity).
  destruct Hrun as (s' & msgs & fs' & Hrun).
  exists s', msgs, fs'. split; [exact Hrun |].
  destruct (main_effects _ _ _ _ _ _ Hrun) as (Hod & Hfs & Hsec).
  split; [exact Hod |]. split.
  - destruct Hfs as [Hfs | [Hsel _]]; [exact Hfs | discriminate Hsel].
  - destruct (Hsec eq_refl) as (Hsc & _). apply Hsc. discriminate.
Defined.

(** ** The sidebar *)

(** X19: an upload is applied after the template.  When a file is
    uploaded that loads as a non-empty dictionary (its table section, if
    any, a dictionary), the sidebar ends with the uploaded value for
    every section the file has, and with the value the template button
    left (the template when pressed in the same run, the previous value
    otherwise) for the sections the file lacks; the success notice is
    shown, and the selected page and the output directory are returned. *)
Theorem upload_applied_over_template :
  forall (ui : sidebar_ui) (s : session) (content : string) (config : dict),
    ui_uploaded_file ui = Some content ->
    Yaml.safe_load content = Ok (PDict config) ->
    config <> [] ->
    is_dict_or_absent (dict_lookup "table_config" config) = true ->
    exists (s' : session) (msgs : list ui_msg),
      render_sidebar ui s
      = Ok (s', msgs,
            (selectbox sections 0 (ui_section ui),
             match ui_output_dir ui with
             | Some d => d
             | None => "./pipeline_configs"
             end))
      /\ source_config s'
         = dict_get "source_config" (source_config (after_template ui s)) config
      /\ validator_config s'
         = dict_get "validator_config" (validator_config (after_template ui s))
             config
      /\ table_config s'
         = dict_get "table_config" (table_config (after_template ui s)) config
      /\ In (SidebarSuccess "Configuration loaded successfully!") msgs.
Proof.
  intros ui s content config Hup Hload Hne Htable.
  unfold render_sidebar, after_template. rewrite Hup.
  destruct (if ui_load_template ui
            then load_template (selectbox template_options 0 (ui_template_option ui)) s
            else (s, [])) as [s0 msgs1].
  cbn [fst].
  unfold load_uploaded_file, load_existing_config.
  cbn [fs_files file_lookup]. rewrite String.eqb_refl, Hload.
  assert (Htruthy : truthy (PDict config) = true)
    by (destruct config; [congruence | reflexivity]).
  rewrite Htruthy.
  destruct (load_config_into_session_sections config s0 Htable)
    as (s1 & Hrun & Hsc & Hvc & Htc & _).
  rewrite Hrun. cbn [bind app].
  assert (Hdir : text_input (ui_output_dir ui) (PStr "./pipeline_configs")
                 = Ok match ui_output_dir ui with
                      | Some d => d
                      | None => "./pipeline_configs"
                      end)
    by (destruct (ui_output_dir ui); reflexivity).
  rewrite Hdir. cbn [bind].
  do 2 eexists. split; [reflexivity |].
  split; [exact Hsc |]. split; [exact Hvc |]. split; [exact Htc |].
  apply in_or_app. right. left. reflexivity.
Qed.

Lemma upload_applied_over_template_witness :
  exists s' msgs out,
    render_sidebar
      {| ui_section := None; ui_template_option := Some 2;
         ui_load_template := true;
         ui_uploaded_file :=
           Some (Yaml.dump false
                   (PDict [("source_config",
                            PDict [("source_system", PStr "pos")])]));
         ui_output_dir := None |}
      initial_session = Ok (s', msgs, out)
    /\ source_config s' = PDict [("source_system", PStr "pos")]
    /\ table_config s' = sales_table_config.
Proof.
  destruct (upload_applied_over_template
              {| ui_section := None; ui_template_option := Some 2;
                 ui_load_template := true;
                 ui_uploaded_file :=
                   Some (Yaml.dump false
                           (PDict [("source_config",
                                    PDict [("source_system", PStr "pos")])]));
                 ui_output_dir := None |}
              initial_session _
              [("source_config", PDict [("source_system", PStr "pos")])]
              eq_refl)
    as (s' & msgs & Hrun & Hsc & _ & Htc & _).
  - vm_compute. reflexivity.
  - discriminate.
  - reflexivity.
  - exists s', msgs. eexists. split; [exact Hrun |].
    split; [exact Hsc | exact Htc].
Defined.

(** ** The rule editor *)

Lemma rules_shown_and_read_back (rules : list pyval) :
  Forall plain_rule rules ->
  exists rows, rule_rows rules = Ok rows /\ read_rules rows = Ok rules.
Proof.
  induction 1 as [| v rules (rule & columns & -> & Hrule & Hplain & Hne) _ IH].
  - exists []. split; reflexivity.
  - destruct IH as (rows & Hrows & Hread).
    exists ([("rule", rule); ("columns", PStr (String.concat ", " columns))]
            :: rows).
    split.
    + cbn [rule_rows py_get bind]. unfold dict_get. cbn [dict_lookup].
      change ("rule" =? "rule") with true.
      change ("rule" =? "column") with false.
      change ("column" =? "column") with true. cbv iota.
      rewrite py_join_names. cbn [bind]. rewrite Hrows. reflexivity.
    + cbn [read_rules py_item dict_lookup bind].
      change ("rule" =? "rule") with true.
      change ("rule" =? "columns") with false.
      change ("columns" =? "columns") with true. cbv iota. cbn [bind].
      rewrite Hrule. cbn [truthy].
      apply String.eqb_neq in Hne. rewrite Hne. cbn [negb split_columns bind].
      rewrite Hread. cbn [bind app].
      destruct columns as [| x l]; [discriminate Hne |].
      rewrite <- (split_joined x l Hplain) at 2.
      rewrite map_map. reflexivity.
Qed.

Lemma edit_rules_fixed (tier : dict) (rules : list pyval) :
  dict_lookup "data_quality_rules" tier = Some (PList rules) ->
  Forall plain_rule rules ->
  edit_rules keep_rows tier = Ok tier.
Proof.
  intros Hrules Hplain. unfold edit_rules, dict_get, keep_rows.
  rewrite Hrules. cbn [py_iter bind].
  destruct (rules_shown_and_read_back rules Hplain) as (rows & -> & Hread).
  cbn [bind]. rewrite Hread. cbn [bind].
  rewrite (dict_set_present _ _ _ Hrules). reflexivity.
Qed.

(** X20: the validator page shown and left alone changes nothing.  On a
    session whose validator section has both tiers, a control-file flag
    of [y] or [n] and quality rules with a non-empty name and plain
    column names, a pass of [render_validator_config] with nothing edited
    returns the session unchanged: every rule survives being joined into
    the editor cell and split again. *)
Theorem validator_form_idempotent :
  forall (s : session) (vc : dict),
    validator_config s = PDict vc ->
    validator_settled vc ->
    render_validator_config untouched_validator s = Ok s.
Proof.
  intros s vc Hvc (t1 & t2 & r1 & r2 & Ht1 & Ht2 & Hflag & Hr1 & Hp1 & Hr2 & Hp2).
  unfold render_validator_config, untouched_validator.
  cbn [val_control_file_flag val_tier1_rules val_tier2_rules].
  rewrite Hvc. cbn [py_contains bind]. unfold dict_in. rewrite Ht1.
  cbn [negb bind py_item]. rewrite Ht1. cbn [bind as_dict].
  rewrite (flag_field_settled _ _ Hflag).
  rewrite (edit_rules_fixed t1 r1 Hr1 Hp1). cbn [bind py_setitem].
  rewrite (dict_set_present _ _ _ Ht1).
  cbn [py_contains bind]. unfold dict_in. rewrite Ht2.
  cbn [negb bind py_item]. rewrite Ht2. cbn [bind as_dict].
  rewrite (edit_rules_fixed t2 r2 Hr2 Hp2). cbn [bind py_setitem].
  rewrite (dict_set_present _ _ _ Ht2).
  destruct s as [cm sc vcs tc od]. cbn [validator_config] in Hvc. subst vcs.
  reflexivity.
Qed.

Lemma plain_rule_quality_rule (rule : string) (columns : list string) :
  negb (rule =? "") = true ->
  forallb plain_name columns = true ->
  String.concat ", " columns <> EmptyString ->
  plain_rule (quality_rule rule columns).
Proof.
  intros Hr Hc Hne. exists (PStr rule), columns. repeat split; assumption.
Qed.

Lemma validator_form_idempotent_witness :
  render_validator_config untouched_validator
    (load_sales_transaction_template initial_session)
  = Ok (load_sales_transaction_template initial_session).
Proof.
  apply (validator_form_idempotent _
           [ ("tier1",
              PDict [ ("control_file_flag", PStr "y");
                      ("data_quality_rules",
                       PList [ quality_rule "check_duplicate"
                                 ["branch_no"; "shopping_card"; "order_no"];
                               quality_rule "check_null"
                                 ["branch_no"; "shopping_card"; "order_no"] ]) ]);
             ("tier2",
              PDict [ ("data_quality_rules",
                       PList [ quality_rule "check_duplicate"
                                 ["branch_code"; "shopping_card_id"; "order_id"];
                               quality_rule "check_null"
                                 ["branch_code"; "shopping_card_id"; "order_id"] ]) ]) ]).
  - reflexivity.
  - do 4 eexists.
    split; [reflexivity |]. split; [reflexivity |].
    split; [left; reflexivity |].
    split; [reflexivity |].
    split.
    { apply Forall_cons; [| apply Forall_cons; [| apply Forall_nil]];
        apply plain_rule_quality_rule;
        [reflexivity | vm_compute; reflexivity | discriminate
         | reflexivity | vm_compute; reflexivity | discriminate]. }
    split; [reflexivity |].
    apply Forall_cons; [| apply Forall_cons; [| apply Forall_nil]];
      apply plain_rule_quality_rule;
      [reflexivity | vm_compute; reflexivity | discriminate
       | reflexivity | vm_compute; reflexivity | discriminate].
Defined.

(** ** Switching the tier 2 load type back and forth *)

(** A pass that selects [scd2] on a record that was not [scd2] and held
    no historical columns, with the historical editor left as shown. *)
Lemma render_tier2_to_scd2 (ui : tier2_ui) (m m' : dict) :
  t2_load_type ui = Some 1 ->
  t2_historical_columns ui = keep_rows ->
  dict_get "load_type" (PStr "") m <> PStr "scd2" ->
  empty_or_absent (dict_lookup HISTORICAL m) = true ->
  render_tier2 ui m = Ok m' ->
  dict_lookup "load_type" m' = Some (PStr "scd2")
  /\ dict_lookup HISTORICAL m' = Some default_historical_load_columns.
Proof.
  intros Hsel Hed Hprev Hnone Hrun. unfold render_tier2 in Hrun.
  rewrite Hsel, Hed in Hrun.
  destruct (select_scd2_creates_default m Hprev Hnone)
    as (m1 & H1 & Hlt1 & Hh1).
  rewrite H1 in Hrun. cbn [bind] in Hrun.
  destruct (render_tier2_fields ui m1) as [m2 |] eqn:H2;
    [| discriminate]. cbn [bind] in Hrun.
  destruct (render_tier2_fields_frame ui m1 m2 H2) as [Hlt2 Hh2].
  rewrite Hlt1 in Hlt2. rewrite Hh1 in Hh2.
  unfold render_historical in Hrun. cbn [py_item] in Hrun.
  rewrite Hlt2 in Hrun. cbn [bind] in Hrun.
  change (pyval_eqb (PStr "scd2") (PStr "scd2")) with true in Hrun.
  cbv iota in Hrun.
  unfold dict_in, dict_get in Hrun. rewrite Hh2 in Hrun.
  cbn [negb] in Hrun. rewrite Hh2 in Hrun.
  change (edit_rows ["name"; "data_type"] keep_rows default_historical_load_columns)
    with (Ok [ technical_column "is_current" "string";
               technical_column "effective_start_date" "date";
               technical_column "effective_end_date" "date" ]) in Hrun.
  cbn [bind] in Hrun. injection Hrun as <-.
  split.
  - rewrite dict_lookup_set_other by discriminate. exact Hlt2.
  - apply dict_lookup_set_same.
Qed.

(** X21: historical columns do not survive a round trip through
    [scd1].  Whatever historical columns a tier 2 record held, once a
    pass of the tier 2 form has ended with load type [scd1], the next
    pass that selects [scd2] (the historical editor left as shown) stores
    exactly the three default historical columns: columns the user had
    entered before are gone. *)
Theorem historical_columns_reset_by_scd1 :
  forall (ui1 ui2 : tier2_ui) (m m1 m2 : dict),
    render_tier2 ui1 m = Ok m1 ->
    dict_lookup "load_type" m1 = Some (PStr "scd1") ->
    t2_load_type ui2 = Some 1 ->
    t2_historical_columns ui2 = keep_rows ->
    render_tier2 ui2 m1 = Ok m2 ->
    dict_in HISTORICAL m1 = false
    /\ dict_lookup "load_type" m2 = Some (PStr "scd2")
    /\ dict_lookup HISTORICAL m2 = Some default_historical_load_columns.
Proof.
  intros ui1 ui2 m m1 m2 Hrun1 Hlt1 Hsel Hed Hrun2.
  destruct (render_tier2_invariant ui1 m m1 Hrun1) as (lt & Hlt & _ & Hinv).
  rewrite Hlt1 in Hlt. injection Hlt as <-.
  assert (Habsent : dict_in HISTORICAL m1 = false).
  { destruct (dict_in HISTORICAL m1); [| reflexivity].
    assert (H : "scd1" = "scd2") by (apply Hinv; reflexivity).
    discriminate H. }
  split; [exact Habsent |].
  apply (render_tier2_to_scd2 ui2 m1 m2 Hsel Hed).
  - unfold dict_get. rewrite Hlt1. discriminate.
  - unfold dict_in in Habsent.
    destruct (dict_lookup HISTORICAL m1); [discriminate Habsent | reflexivity].
  - exact Hrun2.
Qed.

Lemma historical_columns_reset_by_scd1_witness :
  exists m1 m2,
    render_tier2
      {| t2_load_type := Some 0; t2_schema := None; t2_table := None;
         t2_primary_keys := None; t2_partition_columns := None;
         t2_technical_columns := keep_rows; t2_historical_columns := keep_rows |}
      (dict_set HISTORICAL (PList [technical_column "valid_from" "timestamp"])
         (dict_set "load_type" (PStr "scd2") sales_tier2)) = Ok m1
    /\ render_tier2 keep_all m1 = Ok m2
    /\ dict_lookup HISTORICAL m2 = Some default_historical_load_columns.
Proof.
  assert (Hrun : exists m1 m2,
    render_tier2
      {| t2_load_type := Some 0; t2_schema := None; t2_table := None;
         t2_primary_keys := None; t2_partition_columns := None;
         t2_technical_columns := keep_rows; t2_historical_columns := keep_rows |}
      (dict_set HISTORICAL (PList [technical_column "valid_from" "timestamp"])
         (dict_set "load_type" (PStr "scd2") sales_tier2)) = Ok m1
    /\ dict_lookup "load_type" m1 = Some (PStr "scd1")
    /\ render_tier2 keep_all m1 = Ok m2)
    by (do 2 eexists; split; [vm_compute; reflexivity |];
        split; vm_compute; reflexivity).
  destruct Hrun as (m1 & m2 & Hrun1 & Hlt1 & Hrun2).
  exists m1, m2. split; [exact Hrun1 |]. split; [exact Hrun2 |].
  exact (proj2 (proj2 (historical_columns_reset_by_scd1 _ keep_all _ _ _
                         Hrun1 Hlt1 eq_refl eq_refl Hrun2))).
Defined.
